(** * createHepData_all.py: the figure normalisation pipeline

    A shallow embedding of the record-building functions of
    [createHepData_all.py] (histogram extraction, classification and
    de-duplication of plot objects, variable and table assembly, merge of
    an existing YAML record) together with the properties stated for them.

    Conventions of the embedding.
    - Python [str] values are [string]s, the UTF-8 bytes of the text;
      [len] and [strip] work on the characters those bytes encode.
    - A number read from ROOT or from YAML is the rational [Q] it
      denotes; ROOT's numbers are finite doubles, and the one sum the
      script forms of them is rounded to the nearest double as the
      machine does it ([Py.fadd]).
    - The ROOT histogram, the ROOT file and the operating system are
      inputs: a histogram is the record of its accessors, the outside
      world is the record [World].
    - [hepdata_lib]'s [Table], [Variable] and [Uncertainty] are the
      containers their attributes name; [Table(name)] refuses a name of
      more than 64 characters, and the setter of [values] a loaded value
      that is neither a number nor a text.
    - A Python exception is the [Raise] outcome of the [result] type. *)

From Stdlib Require Import ZArith QArith Qround Qabs List String Ascii Bool Lia OrdersEx.
From stdpp Require Import base gmap strings list sorting.

Open Scope string_scope.
Open Scope list_scope.

(** ** Python string operations used by the script *)

Module Py.

(** [sub in s] *)
Fixpoint contains (sub s : string) : bool :=
  String.prefix sub s ||
  match s with
  | EmptyString => false
  | String _ s' => contains sub s'
  end.

Definition lower_ascii (c : ascii) : ascii :=
  let n := nat_of_ascii c in
  if (65 <=? n)%nat && (n <=? 90)%nat then ascii_of_nat (n + 32) else c.

(** [s.lower()] on the ASCII letters; other bytes are kept. *)
Fixpoint lower (s : string) : string :=
  match s with
  | EmptyString => EmptyString
  | String c s' => String (lower_ascii c) (lower s')
  end.

(** [s.replace(old, new)] for a non-empty [old]: the occurrences are
    taken left to right and do not overlap; [skip] counts the bytes of
    the occurrence being replaced that are still to be dropped. *)
Fixpoint replace_from (old new : string) (skip : nat) (s : string) : string :=
  match s with
  | EmptyString => EmptyString
  | String c s' =>
      match skip with
      | S k => replace_from old new k s'
      | O =>
          if String.prefix old s
          then new +:+ replace_from old new (String.length old - 1) s'
          else String c (replace_from old new 0 s')
      end
  end.

(** With an empty [old] Python puts [new] before every character and at
    the end. *)
Fixpoint replace_empty (new s : string) : string :=
  match s with
  | EmptyString => new
  | String c s' => new +:+ String c (replace_empty new s')
  end.

Definition replace (old new s : string) : string :=
  match old with
  | EmptyString => replace_empty new s
  | _ => replace_from old new 0 s
  end.

(** [c.isspace()] for a character of one byte: U+0009 to U+000D and
    U+001C to U+0020. *)
Definition isspace (c : ascii) : bool :=
  let n := nat_of_ascii c in
  ((9 <=? n)%nat && (n <=? 13)%nat) || ((28 <=? n)%nat && (n <=? 32)%nat).

(** The white-space characters of two bytes, U+0085 and U+00A0, *)
Definition isspace2 (a b : ascii) : bool :=
  (nat_of_ascii a =? 194)%nat &&
  ((nat_of_ascii b =? 133)%nat || (nat_of_ascii b =? 160)%nat).

(** and those of three bytes: U+1680, U+2000 to U+200A, U+2028, U+2029,
    U+202F, U+205F and U+3000. *)
Definition isspace3 (a b c : ascii) : bool :=
  let a := nat_of_ascii a in
  let b := nat_of_ascii b in
  let c := nat_of_ascii c in
  ((a =? 225)%nat && (b =? 154)%nat && (c =? 128)%nat) ||
  ((a =? 226)%nat && (b =? 128)%nat &&
   (((128 <=? c)%nat && (c <=? 138)%nat) || (c =? 168)%nat || (c =? 169)%nat ||
    (c =? 175)%nat)) ||
  ((a =? 226)%nat && (b =? 129)%nat && (c =? 159)%nat) ||
  ((a =? 227)%nat && (b =? 128)%nat && (c =? 128)%nat).

(** The number of bytes of the white-space character [s] begins with,
    0 when it begins with none. *)
Definition space_width (s : string) : nat :=
  match s with
  | String a s1 =>
      if isspace a then 1
      else match s1 with
           | String b s2 =>
               if isspace2 a b then 2
               else match s2 with
                    | String c _ => if isspace3 a b c then 3 else 0
                    | EmptyString => 0
                    end
           | EmptyString => 0
           end
  | EmptyString => 0
  end.

Fixpoint lstrip (s : string) : string :=
  match s with
  | EmptyString => EmptyString
  | String _ s1 =>
      match space_width s, s1 with
      | 0, _ => s
      | 1, _ => lstrip s1
      | 2, String _ s2 => lstrip s2
      | _, String _ (String _ s3) => lstrip s3
      | _, _ => s
      end
  end.

(** The whole of [s] is white space. *)
Definition all_space (s : string) : bool :=
  match lstrip s with
  | EmptyString => true
  | _ => false
  end.

(** The text is cut where the white space that reaches its end begins;
    a byte inside a character begins no white space. *)
Fixpoint rstrip (s : string) : string :=
  match s with
  | EmptyString => EmptyString
  | String c s' => if all_space s then EmptyString else String c (rstrip s')
  end.

(** [s.strip()] *)
Definition strip (s : string) : string := rstrip (lstrip s).

(** [len(s)]: the characters of [s], which are the bytes that do not
    continue a character. *)
Definition is_continuation (c : ascii) : bool :=
  let n := nat_of_ascii c in
  (128 <=? n)%nat && (n <=? 191)%nat.

Fixpoint len (s : string) : nat :=
  match s with
  | EmptyString => 0
  | String c s' => (if is_continuation c then 0 else 1) + len s'
  end.

(** [range(lo, hi)] *)
Definition range (lo hi : Z) : list Z :=
  List.map (fun k => (lo + Z.of_nat k)%Z) (seq 0 (Z.to_nat (hi - lo))).

(** [a > b] on numbers *)
Definition gt (a b : Q) : bool := negb (Qle_bool a b).

(** The integer nearest to [q], the even one of two that are equally
    near. *)
Definition round_half_even (q : Q) : Z :=
  let f := Qfloor q in
  match Qcompare (q - inject_Z f)%Q (1 # 2)%Q with
  | Lt => f
  | Gt => (f + 1)%Z
  | Eq => if Z.even f then f else (f + 1)%Z
  end.

(** The largest [e] with [2 ^ e <= q], for a positive [q]. *)
Definition ilog2 (q : Q) : Z :=
  let e := (Z.log2 (Qnum q) - Z.log2 (Zpos (Qden q)))%Z in
  if Qle_bool (2 ^ e)%Q q then e else (e - 1)%Z.

(** The number with a significand of 53 bits and an exponent of at least
    -1074 that is nearest to a reduced fraction [q], ties to the even
    significand: the IEEE 754 rounding of a double. *)
Definition round_reduced (q : Q) : Q :=
  match Qnum q with
  | Z0 => 0%Q
  | _ =>
      let a := Qabs q in
      let e := Z.max (ilog2 a - 52) (-1074) in
      let m := round_half_even (a / 2 ^ e)%Q in
      Qred ((if Qle_bool 0 q then 1 else -1) * inject_Z m * 2 ^ e)%Q
  end.

Definition round64 (q : Q) : Q := round_reduced (Qred q).

(** The magnitudes that round to a finite double: those below
    [2 ^ 1024 - 2 ^ 970]. A larger result is an infinity in Python and
    has no counterpart among the rationals. *)
Definition in_double_range (q : Q) : Prop :=
  (Qabs q < inject_Z (2 ^ 1024 - 2 ^ 970))%Q.

(** [a + b], [a - b], [a * b] and [a / b] on doubles *)
Definition fadd (a b : Q) : Q := round64 (a + b)%Q.
Definition fsub (a b : Q) : Q := round64 (a - b)%Q.
Definition fmul (a b : Q) : Q := round64 (a * b)%Q.
Definition fdiv (a b : Q) : Q := round64 (a / b)%Q.

(** [any(p(x) for x in l)] *)
Definition any {A} (p : A -> bool) (l : list A) : bool := existsb p l.

(** An empty sequence and [None] are falsy. *)
Definition truthy {A} (o : option (list A)) : bool :=
  match o with
  | Some (_ :: _) => true
  | _ => false
  end.

End Py.

(** ** Exceptions *)

Inductive exn : Type :=
| TypeError
| KeyError
| IndexError
| AttributeError
| ValueError
| OSError
| OtherError.

Inductive result (A : Type) : Type :=
| Ok (a : A)
| Raise (e : exn).
Arguments Ok {A} a.
Arguments Raise {A} e.

#[global] Instance result_ret : MRet result := fun A a => Ok a.
#[global] Instance result_bind : MBind result := fun A B k r =>
  match r with
  | Ok a => k a
  | Raise e => Raise e
  end.

(** [for x in l: body], threading the state [acc]; the first exception
    leaves the loop. *)
Fixpoint for_each {A S} (body : S -> A -> result S) (l : list A) (acc : S) : result S :=
  match l with
  | [] => Ok acc
  | x :: l' => acc' ← body acc x; for_each body l' acc'
  end.

(** ** The ROOT histogram, as the script reads it *)

(** The accessors return doubles. *)
Record TH1 : Type := {
  GetName : string;
  GetNbinsX : Z;
  GetBinCenter : Z -> Q;
  GetBinLowEdge : Z -> Q;
  GetBinWidth : Z -> Q;
  GetBinContent : Z -> Q;
  GetBinError : Z -> Q;
  GetXaxisTitle : string;   (* hist.GetXaxis().GetTitle() *)
  GetYaxisTitle : string    (* hist.GetYaxis().GetTitle() *)
}.

(** The dictionary returned by [extract_histogram_data]. *)
Record HistData : Type := {
  x_centers : list Q;
  x_low : list Q;
  x_high : list Q;
  y_values : list Q;
  y_errors : list Q
}.

Definition extract_histogram_data (hist : TH1) : HistData :=
  let n_bins := GetNbinsX hist in
  {| x_centers := List.map (fun i => GetBinCenter hist i) (Py.range 1 (n_bins + 1));
     x_low := List.map (fun i => GetBinLowEdge hist i) (Py.range 1 (n_bins + 1));
     x_high := List.map (fun i => Py.fadd (GetBinLowEdge hist i) (GetBinWidth hist i))
                        (Py.range 1 (n_bins + 1));
     y_values := List.map (fun i => GetBinContent hist i) (Py.range 1 (n_bins + 1));
     y_errors := List.map (fun i => GetBinError hist i) (Py.range 1 (n_bins + 1)) |}.

(** ** Values loaded by [yaml.safe_load] *)

(** A mapping keeps its keys in file order; a loaded mapping has no two
    equal keys, and a key that is not a string is never looked up by the
    script, so the keys are strings. Timestamps, binary data and sets,
    which the records of the script do not use, are left out. *)
#[warnings="-register-all"] Inductive yaml : Type :=
| YNull
| YBool (b : bool)
| YNum (q : Q)
| YStr (s : string)
| YSeq (items : list yaml)
| YMap (entries : list (string * yaml)).

(** ** The containers of [hepdata_lib] *)

(** An element of [Variable.values]: a number, a pair of bin edges, or a
    value handed over from a loaded record. *)
Inductive value : Type :=
| Scalar (q : Q)
| Edges (lo hi : Q)
| Loaded (y : yaml).

Record Uncertainty : Type := {
  label : string;
  is_symmetric : bool;
  unc_values : list Q
}.

(** One entry of [Variable.qualifiers], as [add_qualifier(name, value,
    units)] stores it; [units] defaults to the empty string. *)
Record Qualifier : Type := {
  qual_name : yaml;
  qual_value : yaml;
  qual_units : string
}.

Record HepVariable : Type := {
  name : yaml;
  is_independent : bool;
  is_binned : bool;
  units : yaml;
  values : list value;
  uncertainties : list Uncertainty;
  qualifiers : list Qualifier
}.

(** [var.add_uncertainty(unc)]. The library refuses an Uncertainty with
    another number of values than the Variable has; the script hands
    over the contents and the errors of one histogram, which are equally
    many. *)
Definition add_uncertainty (var : HepVariable) (unc : Uncertainty) : HepVariable :=
  {| name := name var; is_independent := is_independent var;
     is_binned := is_binned var; units := units var; values := values var;
     uncertainties := uncertainties var ++ [unc];
     qualifiers := qualifiers var |}.

Definition add_qualifier (var : HepVariable) (n v : yaml) (u : string) : HepVariable :=
  {| name := name var; is_independent := is_independent var;
     is_binned := is_binned var; units := units var; values := values var;
     uncertainties := uncertainties var;
     qualifiers := qualifiers var ++ [{| qual_name := n; qual_value := v; qual_units := u |}] |}.

Definition set_values (var : HepVariable) (vs : list value) : HepVariable :=
  {| name := name var; is_independent := is_independent var;
     is_binned := is_binned var; units := units var; values := vs;
     uncertainties := uncertainties var;
     qualifiers := qualifiers var |}.

(** [Variable(name, is_independent=..., is_binned=..., units=...)] *)
Definition new_Variable (n : yaml) (indep binned : bool) (u : yaml) : HepVariable :=
  {| name := n; is_independent := indep; is_binned := binned; units := u;
     values := []; uncertainties := []; qualifiers := [] |}.

Record Table : Type := {
  table_name : string;
  description : string;
  location : string;
  keywords : gmap string (list string);
  image_files : list string;
  variables : list HepVariable
}.

(** A table that has its name and nothing else. *)
Definition blank_Table (n : string) : Table :=
  {| table_name := n; description := ""; location := ""; keywords := ∅;
     image_files := []; variables := [] |}.

(** [Table(name)]: the setter of the name raises [ValueError] for a name
    of more than 64 characters. *)
Definition new_Table (n : string) : result Table :=
  if (64 <? Py.len n)%nat then Raise ValueError else Ok (blank_Table n).

Definition set_description (t : Table) (d : string) : Table :=
  {| table_name := table_name t; description := d; location := location t;
     keywords := keywords t; image_files := image_files t;
     variables := variables t |}.

Definition set_location (t : Table) (l : string) : Table :=
  {| table_name := table_name t; description := description t; location := l;
     keywords := keywords t; image_files := image_files t;
     variables := variables t |}.

Definition set_keyword (t : Table) (k : string) (v : list string) : Table :=
  {| table_name := table_name t; description := description t;
     location := location t; keywords := <[k := v]> (keywords t);
     image_files := image_files t; variables := variables t |}.

Definition add_image (t : Table) (path : string) : Table :=
  {| table_name := table_name t; description := description t;
     location := location t; keywords := keywords t;
     image_files := image_files t ++ [path]; variables := variables t |}.

Definition add_variable (t : Table) (var : HepVariable) : Table :=
  {| table_name := table_name t; description := description t;
     location := location t; keywords := keywords t;
     image_files := image_files t; variables := variables t ++ [var] |}.

Record Submission : Type := {
  tables : list Table
}.

Definition add_table (s : Submission) (t : Table) : Submission :=
  {| tables := tables s ++ [t] |}.

(** The independent and the dependent variables of a table, in display
    order. *)
Definition independent_variables (t : Table) : list HepVariable :=
  List.filter is_independent (variables t).

Definition dependent_variables (t : Table) : list HepVariable :=
  List.filter (fun v => negb (is_independent v)) (variables t).

(** ** Building variables *)

Definition create_binned_variable (n : string) (x_low x_high : list Q)
    (u : string) (indep : bool) : result HepVariable :=
  let var := new_Variable (YStr n) indep true (YStr u) in
  bin_edges ← for_each
    (fun acc i =>
       match x_low !! i, x_high !! i with
       | Some lo, Some hi => Ok (acc ++ [Edges lo hi])
       | _, _ => Raise IndexError
       end)
    (seq 0 (length x_low)) [];
  Ok (set_values var bin_edges).

(** The collision energy the script passes by default. *)
Definition CME_default : Q := 136 # 10.

Definition create_dependent_variable (n : string) (y_values : list Q)
    (y_errors : option (list Q)) (u : string) (uncertainty_label : string)
    (CME : Q) : HepVariable :=
  let var := new_Variable (YStr n) false false (YStr u) in
  let var := set_values var (List.map Scalar y_values) in
  let var :=
    if Py.truthy y_errors && Py.any (fun err => Py.gt err 0) (default [] y_errors)
    then add_uncertainty var
           {| label := uncertainty_label; is_symmetric := true;
              unc_values := default [] y_errors |}
    else var in
  add_qualifier var (YStr "SQRT(S)") (YNum CME) "TeV".

(** ** Figure metadata *)

(** A dictionary with the two entries the script reads. *)
Definition metadata_entry (d l : string) : gmap string string :=
  <["location" := l]> (<["description" := d]> ∅).

(** The table of [get_figure_metadata], entry by entry. *)
Definition metadata_items : list (string * gmap string string) := [
  ("Figure41a", metadata_entry
     "The L1T+HLT efficiency of the Run 3 (2022, L3) triggers in 2022 data, 2023 data, and simulation as a function of min($p_T$) of the two muons forming TMS-TMS dimuons in events enriched in J/ψ → μμ events. Efficiency in data is the fraction of J/ψ → μμ events recorded by the triggers based on the information from jets and $p_T^{miss}$ that also satisfy the requirements of the Run 3 (2022, L3) triggers. It is compared to the efficiency of the Run 3 (2022, L3) triggers in a combination of simulated samples of J/ψ → μμ events produced in various b hadron decays. The lower panels show the ratio of the data to simulated events."
     "Data from Figure 41 (upper left).");
  ("Figure41b", metadata_entry
     "The L1T+HLT efficiency of the Run 3 (2022, L3) triggers in 2022 data, 2023 data, and simulation as a function of max($p_T$) of the two muons forming TMS-TMS dimuons in events enriched in J/ψ → μμ events. Efficiency in data is the fraction of J/ψ → μμ events recorded by the triggers based on the information from jets and $p_T^{miss}$ that also satisfy the requirements of the Run 3 (2022, L3) triggers. It is compared to the efficiency of the Run 3 (2022, L3) triggers in a combination of simulated samples of J/ψ → μμ events produced in various b hadron decays. The lower panels show the ratio of the data to simulated events."
     "Data from Figure 41 (upper right).");
  ("Figure41c", metadata_entry
     "The L1T+HLT efficiency of the Run 3 (2022, L3) triggers in 2022 data, 2023 data, and simulation as a function of min($d_0$) of the two muons forming TMS-TMS dimuons in events enriched in J/ψ → μμ events. Efficiency in data is the fraction of J/ψ → μμ events recorded by the triggers based on the information from jets and $p_T^{miss}$ that also satisfy the requirements of the Run 3 (2022, L3) triggers. It is compared to the efficiency of the Run 3 (2022, L3) triggers in a combination of simulated samples of J/ψ → μμ events produced in various b hadron decays. The lower panels show the ratio of the data to simulated events."
     "Data from Figure 41 (lower).");
  ("Figure42a", metadata_entry
     "The HLT efficiency, defined as the fraction of events recorded by the Run 2 (2018) triggers that also satisfied the requirements of the Run 3 (2022, L3) triggers, as a function of offline-reconstructed min($d_0$) of the two muons forming TMS-TMS dimuons in events enriched in J/ψ → μμ. The data represent efficiencies during the 2022 and 2023 data-taking periods. For dimuons with offline min($d_0$) > 0.012 cm, the combined efficiency of the L3 muon reconstruction and the online min($d_0$) requirement is larger than 90% in all data-taking periods."
     "Data from Figure 42 (upper left).");
  ("Figure42b", metadata_entry
     "The HLT efficiency of the Run 3 (2022, L3) triggers and the Run 3 (2022, L3 dTks) triggers for J/ψ → μμ events in the 2022 and 2023 data set as a function of offline-reconstructed min($d_0$) of the two muons forming TMS-TMS dimuons in events enriched in J/ψ → μμ."
     "Data from Figure 42 (upper right).");
  ("Figure42c", metadata_entry
     "Invariant mass distribution for TMS-TMS dimuons in events recorded by the Run 2 (2018) triggers in the combined 2022 and 2023 data set, and in the subset of events also selected by the Run 3 (2022, L3) trigger and Run 3 (2022, L3 dTks) trigger, illustrating the prompt muon rejection of the L3 triggers."
     "Data from Figure 42 (lower).");
  ("Figure43a", metadata_entry
     "The HLT efficiency, defined as the fraction of events recorded by the Run 2 (2018) triggers that also satisfied the requirements of the Run 3 (2022, L2) triggers, as a function of offline-reconstructed min($d_0$) of the two muons forming STA-STA dimuons in events enriched in cosmic ray muons. The data represent efficiencies during the 2022 and 2023 data-taking periods. For displaced muons, the efficiency of the online min($d_0$) requirement is larger than 95% in all data-taking periods."
     "Data from Figure 43 (left).");
  ("Figure43b", metadata_entry
     "The invariant mass distribution for TMS-TMS dimuons in events recorded by the Run 2 (2018) triggers in the combined 2022 and 2023 data set, and in the subset of events also selected by the Run 3 (2022, L2) triggers, illustrating the prompt muon rejection of the Run 3 (2022, L2) triggers."
     "Data from Figure 43 (right).");
  ("Figure40", metadata_entry
     "The L1T+HLT efficiencies of the various displaced-dimuon triggers and their logical OR as a function of $c\tau$ for the HAHM signal events with $m_H = 125\ GeV$ and $m_{Z_D} = 20\ GeV$, for 2022 conditions. The efficiency is defined as the fraction of simulated events that satisfy the detector acceptance and the requirements of the following sets of triggers: the Run 2 (2018) triggers (dashed black); the Run 3 (2022, L3) triggers (blue); the Run 3 (2022, L2) triggers (red); and the logical OR of all these triggers (Run 3 (2022), solid black). The lower panel shows the ratio of the overall Run 3 (2022) efficiency to the Run 2 (2018) efficiency."
     "Data from Figure 40.")
].

Definition metadata : gmap string (gmap string string) :=
  list_to_map metadata_items.

Definition get_figure_metadata (figure_name : string) : gmap string string :=
  default
    (metadata_entry ("PLACEHOLDER: Description for " +:+ figure_name)
                    ("PLACEHOLDER: Location for " +:+ figure_name))
    (metadata !! figure_name).

(** [d[key]] on a dictionary *)
Definition getitem {V} (d : gmap string V) (key : string) : result V :=
  match d !! key with
  | Some v => Ok v
  | None => Raise KeyError
  end.

(** ** Axis and variable names *)

Definition get_x_axis_info (x_axis_title figure_name : string) : string * string :=
  let title := Py.strip x_axis_title in
  if String.eqb figure_name "Figure41a" then ("min($p_T$)", "GeV")
  else if String.eqb figure_name "Figure41b" then ("max($p_T$)", "GeV")
  else if String.eqb figure_name "Figure41c" then ("min($d_0$)", "cm")
  else if String.eqb figure_name "Figure42a" || String.eqb figure_name "Figure42b"
  then ("min($d_0$)", "cm")
  else if String.eqb figure_name "Figure42c" || String.eqb figure_name "Figure43b"
  then ("$m_{\mu\mu}$", "GeV")
  else if String.eqb figure_name "Figure43a" then ("min($d_0$)", "cm")
  else if Py.contains "[GeV]" title
  then (Py.strip (Py.replace "[GeV]" "" title), "GeV")
  else if Py.contains "[cm]" title
  then (Py.strip (Py.replace "[cm]" "" title), "cm")
  else (match title with EmptyString => "Variable" | _ => title end, "").

(** The naming rules that do not depend on the figure. *)
Definition generic_variable_name (hist_name : string) : string :=
  if Py.contains "dTks" hist_name
  then "Run 3 (2022, L3 dTks) trigger efficiency"
  else if Py.contains "DisplacedL3" hist_name && Py.contains "Muon" hist_name
  then "Run 3 (2022, L3) trigger efficiency"
  else if Py.contains "DisplacedL3" hist_name && Py.contains "JetMET" hist_name
  then (if Py.contains "2022" hist_name
        then "Run 3 (2022, L3) trigger efficiency - 2022 data"
        else if Py.contains "2023" hist_name
        then "Run 3 (2022, L3) trigger efficiency - 2023 data"
        else "Run 3 (2022, L3) trigger efficiency")
  else if Py.contains "BtoJPsi" hist_name
  then "Run 3 (2022, L3) trigger efficiency - simulation"
  else if Py.contains "COSMI" hist_name
  then (if Py.contains "2022" hist_name
        then "Run 3 (2022, L2) trigger efficiency - 2022 data"
        else if Py.contains "2023" hist_name
        then "Run 3 (2022, L2) trigger efficiency - 2023 data"
        else "Run 3 (2022, L2) trigger efficiency")
  else if Py.contains "ratio" hist_name
  then "Data/MC ratio"
  else "Efficiency (" +:+ hist_name +:+ ")".

Definition create_variable_name (hist_name figure_name : string) : string :=
  if String.eqb figure_name "Figure42c" then
    if Py.contains "MuonRun3HLTRun2" hist_name
    then "Run 2 (2018) observed events"
    else if Py.contains "DisplacedL3" hist_name && negb (Py.contains "dTks" hist_name)
    then "Run 3 (2022, L3) observed events"
    else if Py.contains "dTks" hist_name
    then "Run 3 (2022, L3 dTks) observed events"
    else generic_variable_name hist_name
  else if String.eqb figure_name "Figure43b" then
    if Py.contains "MuonRun3HLTRun2" hist_name
    then "Run 2 (2018) observed events"
    else if Py.contains "L3VetoOR" hist_name
    then "Run 3 (2022, L2) observed events"
    else generic_variable_name hist_name
  else if String.eqb figure_name "Figure42a" then
    if Py.contains "HData2022" hist_name
    then "Run 3 (2022, L3) trigger efficiency - 2022 data"
    else if Py.contains "2023" hist_name
    then "Run 3 (2022, L3) trigger efficiency - 2023 data"
    else generic_variable_name hist_name
  else generic_variable_name hist_name.

(** ** The outside world *)

(** What [subprocess.run(['convert', '-version'], ..., timeout=5)] does:
    it returns with an exit status or raises. *)
Inductive RunOutcome : Type :=
| Completed (returncode : Z)
| TimeoutExpired
| FileNotFoundError
| SubprocessError
| OtherFailure.          (* an exception of another class *)

Definition check_imagemagick_available (run : RunOutcome) : result bool :=
  match run with
  | Completed returncode => Ok (returncode =? 0)%Z
  | TimeoutExpired | FileNotFoundError | SubprocessError => Ok false
  | OtherFailure => Raise OtherError
  end.

(** A canvas is known by the histograms [collect_hists_from_canvas] finds
    in it, in the order it returns them ([readTest.py]). *)
Record TCanvas : Type := {
  collect_hists_from_canvas : list TH1
}.

Record TFile : Type := {
  IsZombie : bool;
  Get : string -> option TCanvas        (* a null object is [None] *)
}.

(** [ROOT.TFile.Open] gives a file, gives a null object ([None]), or, in
    the releases of ROOT that report a file they cannot open that way,
    raises [OSError]. *)
Record World : Type := {
  TFile_Open : string -> result (option TFile);
  os_path_exists : string -> bool;
  run_convert_version : RunOutcome;
  safe_load_file : string -> result yaml;   (* [open] and [yaml.safe_load] *)
  add_image_raises : string -> bool     (* [table.add_image(path)] raises *)
}.

(** The image block shared by the two figure processors: the probe runs
    only when the file exists, and an exception of [add_image] is caught. *)
Definition attach_image (w : World) (table : Table) (pdf_path : string) : result Table :=
  if os_path_exists w pdf_path then
    available ← check_imagemagick_available (run_convert_version w);
    if (available : bool)
    then Ok (if add_image_raises w pdf_path then table else add_image table pdf_path)
    else Ok table
  else Ok table.

(** ** Classification of the plot objects of one figure *)

Definition is_ratio (hist : TH1) : bool :=
  Py.contains "ratio" (Py.lower (GetName hist)) ||
  Py.contains "Data/MC" (GetYaxisTitle hist).

Definition base_name (hist : TH1) : string :=
  Py.replace "_copy" "" (GetName hist).

(** The filtering loop of [process_single_figure], from a given state
    ([processed_names], [unique_histograms]). *)
Fixpoint filter_histograms (histograms : list TH1)
    (processed_names : gset string) (unique_histograms : list TH1)
  : gset string * list TH1 :=
  match histograms with
  | [] => (processed_names, unique_histograms)
  | hist :: rest =>
      if is_ratio hist
      then filter_histograms rest processed_names unique_histograms
      else if bool_decide (base_name hist ∈ processed_names)
      then filter_histograms rest processed_names unique_histograms
      else filter_histograms rest ({[ base_name hist ]} ∪ processed_names)
                             (unique_histograms ++ [hist])
  end.

Definition unique_histograms_of (histograms : list TH1) : list TH1 :=
  snd (filter_histograms histograms ∅ []).

(** ** One figure from a ROOT file *)

Definition add_dependent (figure_name : string) (table : Table) (hist : TH1) : Table :=
  let hist_name := GetName hist in
  let hist_data := extract_histogram_data hist in
  let var_name := create_variable_name hist_name figure_name in
  let y_units := "" in
  let y_var := create_dependent_variable var_name (y_values hist_data)
                 (Some (y_errors hist_data)) y_units "Statistical uncertainty"
                 CME_default in
  add_variable table y_var.

Definition process_single_figure (w : World) (submission : Submission)
    (root_file_path figure_name : string) : result (Submission * bool) :=
  opened ← TFile_Open w root_file_path;
  match opened with
  | None => Ok (submission, false)
  | Some root_file =>
      if IsZombie root_file then Ok (submission, false) else
      match Get root_file "c" with
      | None => Ok (submission, false)
      | Some canvas =>
          let histograms := collect_hists_from_canvas canvas in
          match histograms with
          | [] => Ok (submission, false)
          | _ :: _ =>
              let metadata := get_figure_metadata figure_name in
              table ← new_Table figure_name;
              d ← getitem metadata "description";
              let table := set_description table d in
              l ← getitem metadata "location";
              let table := set_location table l in
              let table := set_keyword table "reactions" ["P P --> X"] in
              let table := set_keyword table "observables" ["EFF"] in
              let table := set_keyword table "phrases"
                ["CMS"; "LLP"; "long-lived particles"; "trigger"; "efficiency";
                 "displaced muons"] in
              let pdf_path := "data_Alejandro/" +:+ figure_name +:+ ".pdf" in
              table ← attach_image w table pdf_path;
              let unique_histograms := unique_histograms_of histograms in
              table ←
                match unique_histograms with
                | first_hist :: _ =>
                    let first_hist_data := extract_histogram_data first_hist in
                    let x_axis_title := GetXaxisTitle first_hist in
                    let '(x_name, x_units) := get_x_axis_info x_axis_title figure_name in
                    x_var ← create_binned_variable x_name (x_low first_hist_data)
                              (x_high first_hist_data) x_units true;
                    Ok (add_variable table x_var)
                | [] => Ok table
                end;
              let table := fold_left (add_dependent figure_name) unique_histograms table in
              Ok (add_table submission table, true)
          end
      end
  end.

(** ** Python's dynamic operations on a loaded value *)

Definition is_str (key : string) (obj : yaml) : bool :=
  match obj with
  | YStr s => String.eqb s key
  | _ => false
  end.

Fixpoint assoc {V} (key : string) (entries : list (string * V)) : option V :=
  match entries with
  | [] => None
  | (k, v) :: rest => if String.eqb k key then Some v else assoc key rest
  end.

(** ['key' in obj] *)
Definition py_in (key : string) (obj : yaml) : result bool :=
  match obj with
  | YMap entries => Ok (bool_decide (is_Some (assoc key entries)))
  | YSeq items => Ok (existsb (is_str key) items)
  | YStr s => Ok (Py.contains key s)
  | _ => Raise TypeError
  end.

(** [obj['key']] *)
Definition py_getitem (obj : yaml) (key : string) : result yaml :=
  match obj with
  | YMap entries =>
      match assoc key entries with
      | Some v => Ok v
      | None => Raise KeyError
      end
  | _ => Raise TypeError
  end.

(** [obj.get('key', dflt)] *)
Definition py_get (obj : yaml) (key : string) (dflt : yaml) : result yaml :=
  match obj with
  | YMap entries => Ok (default dflt (assoc key entries))
  | _ => Raise AttributeError
  end.

(** [for x in obj]: a list gives its items, a mapping its keys, a string
    its characters (taken byte by byte here; each is a string again). *)
Definition py_iter (obj : yaml) : result (list yaml) :=
  match obj with
  | YSeq items => Ok items
  | YMap entries => Ok (List.map (fun kv => YStr (fst kv)) entries)
  | YStr s => Ok (List.map (fun c => YStr (String c EmptyString)) (list_ascii_of_string s))
  | _ => Raise TypeError
  end.

(** ** Merge mode: one figure from an existing YAML record *)

(** [[v['value'] for v in var_values]] *)
Definition value_column (var_values : yaml) : result (list value) :=
  items ← py_iter var_values;
  for_each (fun acc v => x ← py_getitem v "value"; Ok (acc ++ [Loaded x])) items [].

(** What the setter of [values] does with one value of an unbinned
    Variable: a text, a number or a truth value is kept, and a value that
    is none of these (a missing value, a list, a mapping) is refused with
    [ValueError]. *)
Definition sanitize_value (v : value) : result value :=
  match v with
  | Loaded YNull | Loaded (YSeq _) | Loaded (YMap _) => Raise ValueError
  | _ => Ok v
  end.

(** [var.values = vs] on an unbinned Variable *)
Definition assign_values (var : HepVariable) (vs : list value) : result HepVariable :=
  vs ← for_each (fun acc v => v ← sanitize_value v; Ok (acc ++ [v])) vs [];
  Ok (set_values var vs).

Definition add_independent_from_yaml (table : Table) (indep_var : yaml) : result Table :=
  header ← py_getitem indep_var "header";
  var_name ← py_getitem header "name";
  var_units ← py_get header "units" (YStr "");
  var_values ← py_getitem indep_var "values";
  let var := new_Variable var_name true false var_units in
  vs ← value_column var_values;
  var ← assign_values var vs;
  Ok (add_variable table var).

Definition add_qualifier_from_yaml (var : HepVariable) (qualifier : yaml) : result HepVariable :=
  n ← py_getitem qualifier "name";
  v ← py_getitem qualifier "value";
  Ok (add_qualifier var n v "").

Definition add_dependent_from_yaml (table : Table) (dep_var : yaml) : result Table :=
  header ← py_getitem dep_var "header";
  var_name ← py_getitem header "name";
  var_values ← py_getitem dep_var "values";
  qualifiers ← py_get dep_var "qualifiers" (YSeq []);
  let var := new_Variable var_name false false (YStr "") in
  vs ← value_column var_values;
  var ← assign_values var vs;
  quals ← py_iter qualifiers;
  var ← for_each add_qualifier_from_yaml quals var;
  Ok (add_variable table var).

(** The [try] block of [process_existing_yaml_file]. *)
Definition process_existing_yaml_body (w : World) (submission : Submission)
    (yaml_file_path figure_name : string) : result (Submission * bool) :=
  yaml_content ← safe_load_file w yaml_file_path;
  let metadata := get_figure_metadata figure_name in
  table ← new_Table figure_name;
  d ← getitem metadata "description";
  let table := set_description table d in
  l ← getitem metadata "location";
  let table := set_location table l in
  let table := set_keyword table "reactions" ["P P --> X"] in
  let table := set_keyword table "observables" ["EFF"] in
  let table := set_keyword table "phrases"
    ["CMS"; "LLP"; "long-lived particles"; "trigger"; "efficiency";
     "displaced muons"; "proper decay length"] in
  let pdf_source_path :=
    "data_Alejandro/fromDisplacedDimuons/" +:+ figure_name +:+ ".pdf" in
  table ← attach_image w table pdf_source_path;
  has_independent ← py_in "independent_variables" yaml_content;
  table ←
    (if (has_independent : bool) then
       vars ← py_getitem yaml_content "independent_variables";
       items ← py_iter vars;
       for_each add_independent_from_yaml items table
     else Ok table);
  has_dependent ← py_in "dependent_variables" yaml_content;
  table ←
    (if (has_dependent : bool) then
       vars ← py_getitem yaml_content "dependent_variables";
       items ← py_iter vars;
       for_each add_dependent_from_yaml items table
     else Ok table);
  Ok (add_table submission table, true).

(** Any exception of the block is caught and reported as a failure. *)
Definition process_existing_yaml_file (w : World) (submission : Submission)
    (yaml_file_path figure_name : string) : Submission * bool :=
  if negb (os_path_exists w yaml_file_path) then (submission, false)
  else
    match process_existing_yaml_body w submission yaml_file_path figure_name with
    | Ok r => r
    | Raise _ => (submission, false)
    end.

(** ** Well-formed canonical records

    The shape of a record written by a previous export, and the value
    [yaml.safe_load] gives for it. *)

Inductive ErrorEntry : Type :=
| SymError (lbl : string) (e : Q)
| AsymError (lbl : string) (minus plus : Q).

Record ValueEntry : Type := {
  ve_value : Q;
  ve_errors : list ErrorEntry     (* empty: the entry has no [errors] key *)
}.

Record QualifierEntry : Type := {
  qe_name : string;
  qe_value : yaml;
  qe_units : option string
}.

Record IndependentEntry : Type := {
  ie_name : string;
  ie_units : option string;
  ie_values : list Q
}.

Record DependentEntry : Type := {
  de_name : string;
  de_units : option string;
  de_qualifiers : option (list QualifierEntry);
  de_values : list ValueEntry
}.

Record CanonicalRecord : Type := {
  rec_independent : list IndependentEntry;
  rec_dependent : list DependentEntry
}.

Definition optional_entry (key : string) (o : option string) : list (string * yaml) :=
  match o with
  | Some u => [(key, YStr u)]
  | None => []
  end.

Definition load_error (e : ErrorEntry) : yaml :=
  match e with
  | SymError lbl x => YMap [("symerror", YNum x); ("label", YStr lbl)]
  | AsymError lbl m p =>
      YMap [("asymerror", YMap [("minus", YNum m); ("plus", YNum p)]);
            ("label", YStr lbl)]
  end.

Definition load_value (v : ValueEntry) : yaml :=
  YMap (("value", YNum (ve_value v)) ::
        match ve_errors v with
        | [] => []
        | es => [("errors", YSeq (List.map load_error es))]
        end).

Definition load_qualifier (q : QualifierEntry) : yaml :=
  YMap ([("name", YStr (qe_name q)); ("value", qe_value q)]
        ++ optional_entry "units" (qe_units q)).

Definition load_independent (i : IndependentEntry) : yaml :=
  YMap [("header", YMap (("name", YStr (ie_name i)) :: optional_entry "units" (ie_units i)));
        ("values", YSeq (List.map (fun x => YMap [("value", YNum x)]) (ie_values i)))].

Definition load_dependent (d : DependentEntry) : yaml :=
  YMap ([("header", YMap (("name", YStr (de_name d)) :: optional_entry "units" (de_units d)))]
        ++ match de_qualifiers d with
           | Some qs => [("qualifiers", YSeq (List.map load_qualifier qs))]
           | None => []
           end
        ++ [("values", YSeq (List.map load_value (de_values d)))]).

Definition load_record (r : CanonicalRecord) : yaml :=
  YMap [("independent_variables", YSeq (List.map load_independent (rec_independent r)));
        ("dependent_variables", YSeq (List.map load_dependent (rec_dependent r)))].

(** What merge mode makes of one entry. *)
Definition merged_independent (i : IndependentEntry) : HepVariable :=
  {| name := YStr (ie_name i); is_independent := true; is_binned := false;
     units := YStr (default "" (ie_units i));
     values := List.map (fun x => Loaded (YNum x)) (ie_values i);
     uncertainties := []; qualifiers := [] |}.

Definition merged_qualifier (q : QualifierEntry) : Qualifier :=
  {| qual_name := YStr (qe_name q); qual_value := qe_value q; qual_units := "" |}.

Definition merged_dependent (d : DependentEntry) : HepVariable :=
  {| name := YStr (de_name d); is_independent := false; is_binned := false;
     units := YStr "";
     values := List.map (fun v => Loaded (YNum (ve_value v))) (de_values d);
     uncertainties := [];
     qualifiers := List.map merged_qualifier (default [] (de_qualifiers d)) |}.

(** ** Definitions used in the statements *)

(** The axis of a histogram is contiguous when each bin's low edge plus
    its width is the low edge of the next bin. *)
Definition contiguous_axis (hist : TH1) : Prop :=
  ∀ i : Z, (1 <= i < GetNbinsX hist)%Z →
    (GetBinLowEdge hist i + GetBinWidth hist i == GetBinLowEdge hist (i + 1))%Q.

(** A finite double: rounding leaves it as it is. *)
Definition is_double (q : Q) : Prop :=
  (Py.round64 q == q)%Q ∧ Py.in_double_range q.

(** A histogram with [nbins] bins of one width between [xmin] and
    [xmax], as [TH1D(name, title, nbins, xmin, xmax)] makes it. Its axis
    computes in doubles: the width is [(xmax - xmin) / nbins], the low
    edge of bin [i] is [xmin + (i - 1) * width] and its center lies half
    a width above. *)
Definition fixed_bins_hist (nm : string) (nbins : Z) (xmin xmax : Q)
    (content error : Z → Q) (xtitle ytitle : string) : TH1 :=
  let width := Py.fdiv (Py.fsub xmax xmin) (inject_Z nbins) in
  {| GetName := nm;
     GetNbinsX := nbins;
     GetBinCenter := fun i =>
       Py.fadd (Py.fadd xmin (Py.fmul (inject_Z (i - 1)) width))
               (Py.fmul (1 # 2) width);
     GetBinLowEdge := fun i => Py.fadd xmin (Py.fmul (inject_Z (i - 1)) width);
     GetBinWidth := fun _ => width;
     GetBinContent := content;
     GetBinError := error;
     GetXaxisTitle := xtitle;
     GetYaxisTitle := ytitle |}.

(** A histogram given by its [n + 1] bin edges [edge 0 .. edge n], its
    contents and its errors: the low edge of bin [i] is [edge (i - 1)] and
    its width the distance to [edge i]. *)
Definition hist_of_edges (nm : string) (n : Z) (edge content error : Z → Q)
    (xtitle ytitle : string) : TH1 :=
  {| GetName := nm;
     GetNbinsX := n;
     GetBinCenter := fun i => ((edge (i - 1)%Z + edge i) / 2)%Q;
     GetBinLowEdge := fun i => edge (i - 1)%Z;
     GetBinWidth := fun i => (edge i - edge (i - 1)%Z)%Q;
     GetBinContent := content;
     GetBinError := error;
     GetXaxisTitle := xtitle;
     GetYaxisTitle := ytitle |}.

Definition known_figures : list string := List.map fst metadata_items.

(** The description and the location of a figure, as the processors read
    them. *)
Definition figure_description (figure_name : string) : string :=
  default "" (get_figure_metadata figure_name !! "description").

Definition figure_location (figure_name : string) : string :=
  default "" (get_figure_metadata figure_name !! "location").

(** The table before the image and the variables are added. *)
Definition header_table (figure_name : string) (phrases : list string) : Table :=
  set_keyword
    (set_keyword
       (set_keyword
          (set_location
             (set_description (blank_Table figure_name) (figure_description figure_name))
             (figure_location figure_name))
          "reactions" ["P P --> X"])
       "observables" ["EFF"])
    "phrases" phrases.

(** The phrases and the image path of the ROOT path and of merge mode. *)
Definition root_phrases : list string :=
  ["CMS"; "LLP"; "long-lived particles"; "trigger"; "efficiency"; "displaced muons"].

Definition root_pdf_path (figure_name : string) : string :=
  "data_Alejandro/" +:+ figure_name +:+ ".pdf".

(** The independent variable made from the first retained histogram. *)
Definition x_axis_variable (figure_name : string) (first_hist : TH1) : HepVariable :=
  let d := extract_histogram_data first_hist in
  let xi := get_x_axis_info (GetXaxisTitle first_hist) figure_name in
  set_values (new_Variable (YStr xi.1) true true (YStr xi.2))
             (zip_with Edges (x_low d) (x_high d)).

(** The dependent variable made from one retained histogram. *)
Definition dependent_variable_of (figure_name : string) (hist : TH1) : HepVariable :=
  create_dependent_variable (create_variable_name (GetName hist) figure_name)
    (y_values (extract_histogram_data hist))
    (Some (y_errors (extract_histogram_data hist))) "" "Statistical uncertainty"
    CME_default.

Definition figure_table (figure_name : string) (table : Table) (retained : list TH1) : Table :=
  fold_left (add_dependent figure_name) retained
    match retained with
    | first_hist :: _ => add_variable table (x_axis_variable figure_name first_hist)
    | [] => table
    end.

(** The histograms the loop appends when it starts with the names [seen]. *)
Fixpoint retained_from (seen : gset string) (histograms : list TH1) : list TH1 :=
  match histograms with
  | [] => []
  | hist :: rest =>
      if is_ratio hist then retained_from seen rest
      else if bool_decide (base_name hist ∈ seen) then retained_from seen rest
      else hist :: retained_from ({[ base_name hist ]} ∪ seen) rest
  end.

(** A permutation that moves only objects the filter does not retain:
    the retained objects of the first list still stand in the second one
    in the same relative order. *)
Definition moves_only_non_retained (before after : list TH1) : Prop :=
  before ≡ₚ after ∧ sublist (unique_histograms_of before) after.

(** A plain histogram with the given name, for examples. *)
Definition plain_hist (nm : string) (n : Z) : TH1 :=
  hist_of_edges nm n (fun i => inject_Z i) (fun i => inject_Z i) (fun _ => 1%Q)
    "p_T [GeV]" "Efficiency".

(** The ROOT file opens and its canvas ["c"] holds these histograms. *)
Definition canvas_holds (w : World) (path : string) (histograms : list TH1) : Prop :=
  ∃ f c, TFile_Open w path = Ok (Some f) ∧ IsZombie f = false ∧ Get f "c" = Some c ∧
         collect_hists_from_canvas c = histograms.

(** The probe ends in one of the ways [check_imagemagick_available]
    handles. *)
Definition probe_answers (w : World) : Prop :=
  run_convert_version w ≠ OtherFailure.

(** A world whose canvas holds a ratio panel and nothing else. *)
Definition ratio_only_world : World :=
  {| TFile_Open := fun _ =>
       Ok (Some {| IsZombie := false;
                   Get := fun _ =>
                     Some {| collect_hists_from_canvas := [plain_hist "h_ratio" 2] |} |});
     os_path_exists := fun _ => false;
     run_convert_version := FileNotFoundError;
     safe_load_file := fun _ => Raise OtherError;
     add_image_raises := fun _ => false |}.

(** A world with the four objects of the scenario. *)
Definition four_object_world : World :=
  {| TFile_Open := fun _ =>
       Ok (Some {| IsZombie := false;
                   Get := fun _ =>
                     Some {| collect_hists_from_canvas :=
                               [plain_hist "pad_Ratio" 2; plain_hist "X" 2;
                                plain_hist "X_copy" 2; plain_hist "Y" 2] |} |});
     os_path_exists := fun _ => true;
     run_convert_version := Completed 0;
     safe_load_file := fun _ => Raise OtherError;
     add_image_raises := fun _ => false |}.

(** A world whose two histograms differ in their bin counts and which
    has neither the image file nor the image tool. *)
Definition two_binnings_world : World :=
  {| TFile_Open := fun _ =>
       Ok (Some {| IsZombie := false;
                   Get := fun _ =>
                     Some {| collect_hists_from_canvas :=
                               [plain_hist "X" 1; plain_hist "Y" 2] |} |});
     os_path_exists := fun _ => false;
     run_convert_version := FileNotFoundError;
     safe_load_file := fun _ => Raise OtherError;
     add_image_raises := fun _ => false |}.


Definition merge_phrases : list string :=
  ["CMS"; "LLP"; "long-lived particles"; "trigger"; "efficiency"; "displaced muons";
   "proper decay length"].

Definition merge_pdf_path (figure_name : string) : string :=
  "data_Alejandro/fromDisplacedDimuons/" +:+ figure_name +:+ ".pdf".

(** The record is on disk and loads to [r]. *)
Definition record_loads (w : World) (path : string) (r : CanonicalRecord) : Prop :=
  os_path_exists w path = true ∧ safe_load_file w path = Ok (load_record r).

(** A world in which the record [r] is on disk and no image file is. *)
Definition record_world (path : string) (r : CanonicalRecord) : World :=
  {| TFile_Open := fun _ => Ok None;
     os_path_exists := fun p => String.eqb p path;
     run_convert_version := Completed 0;
     safe_load_file := fun _ => Ok (load_record r);
     add_image_raises := fun _ => false |}.

(** Sample entries of a record. *)
Definition sample_dependent : DependentEntry :=
  {| de_name := "Efficiency"; de_units := Some "GeV";
     de_qualifiers :=
       Some [{| qe_name := "SQRT(S)"; qe_value := YNum (136 # 10);
                qe_units := Some "TeV" |}];
     de_values :=
       [{| ve_value := 1 # 2; ve_errors := [SymError "stat" (1 # 10)] |};
        {| ve_value := 3 # 4; ve_errors := [AsymError "stat" (1 # 10) (2 # 10)] |}] |}.

Definition sample_independent (nm : string) : IndependentEntry :=
  {| ie_name := nm; ie_units := Some "cm"; ie_values := [1%Q; 2%Q] |}.

(** The record carries an uncertainty on this dependent variable. *)
Definition has_errors (d : DependentEntry) : bool :=
  existsb (fun v => match ve_errors v with [] => false | _ => true end) (de_values d).

(** ** The figure loops and the final write of [main] *)

(** [s.endswith(suffix)] *)
Fixpoint endswith (suffix s : string) : bool :=
  String.eqb suffix s ||
  match s with
  | EmptyString => false
  | String _ s' => endswith suffix s'
  end.

(** [os.path.join(a, b)] on a POSIX system *)
Definition os_path_join (a b : string) : string :=
  if String.prefix "/" b then b
  else if String.eqb a "" || endswith "/" a then a +:+ b
  else a +:+ "/" +:+ b.

(** The order of [list.sort()] on strings: by code points, which on
    UTF-8 text is the order of the bytes. *)
Definition name_le (a b : string) : Prop := String.leb a b = true.

#[global] Instance name_le_dec (a b : string) : Decision (name_le a b) :=
  decide (String.leb a b = true).

Definition sort_names (names : list string) : list string :=
  merge_sort name_le names.

(** [os.listdir], which raises when the directory cannot be read. *)
Record Directories : Type := {
  os_listdir : string -> result (list string)
}.

Definition yaml_dir : string := "data_Alejandro/fromDisplacedDimuons".
Definition data_dir : string := "data_Alejandro".

(** One turn of the loop over the YAML files; the state is the
    submission and [successful_figures]. *)
Definition yaml_figure_step (w : World) (st : Submission * Z) (yaml_file : string)
  : result (Submission * Z) :=
  let figure_name := Py.replace ".yaml" "" yaml_file in
  let yaml_file_path := os_path_join yaml_dir yaml_file in
  let r := process_existing_yaml_file w (fst st) yaml_file_path figure_name in
  Ok (fst r, if snd r then (snd st + 1)%Z else snd st).

Definition process_yaml_files (w : World) (d : Directories) (st : Submission * Z)
  : result (Submission * Z) :=
  if os_path_exists w yaml_dir then
    names ← os_listdir d yaml_dir;
    let yaml_files := sort_names (List.filter (endswith ".yaml") names) in
    for_each (yaml_figure_step w) yaml_files st
  else Ok st.

(** One turn of the loop over the ROOT files. *)
Definition root_figure_step (w : World) (st : Submission * Z) (root_file : string)
  : result (Submission * Z) :=
  let figure_name := Py.replace ".root" "" root_file in
  let root_file_path := os_path_join data_dir root_file in
  match process_single_figure w (fst st) root_file_path figure_name with
  | Ok r => Ok (fst r, if snd r then (snd st + 1)%Z else snd st)
  | Raise e => Raise e
  end.

Definition process_root_files (w : World) (d : Directories) (st : Submission * Z)
  : result (Submission * Z) :=
  names ← os_listdir d data_dir;
  let root_files := sort_names (List.filter (endswith ".root") names) in
  for_each (root_figure_step w) root_files st.

(** [table.image_files = []] *)
Definition clear_images (t : Table) : Table :=
  {| table_name := table_name t; description := description t;
     location := location t; keywords := keywords t;
     image_files := []; variables := variables t |}.

Definition strip_images (s : Submission) : Submission :=
  {| tables := List.map clear_images (tables s) |}.

(** The message of the exception decides whether the write is retried. *)
Definition image_related (message : string) : bool :=
  Py.contains "ImageMagick" message || Py.contains "convert" message ||
  Py.contains "does not exist" message.

Inductive WriteOutcome : Type :=
| Written (s : Submission)
| WriteFailed (message : string).

(** The [try] block around [submission.create_files(output_dir)]. The
    writer is an input: [create_files n s] is what the call does when [n]
    calls came before it, [None] for a normal return and [Some message]
    for an exception [e] with [str(e) = message]. *)
Definition write_submission (create_files : nat -> Submission -> option string)
    (submission : Submission) : WriteOutcome :=
  match create_files 0%nat submission with
  | None => Written submission
  | Some message =>
      if image_related message then
        let submission := strip_images submission in
        match create_files 1%nat submission with
        | None => Written submission
        | Some message2 => WriteFailed message2
        end
      else WriteFailed message
  end.

(** ** Further definitions used in the statements *)

(** The body of the loop of [create_binned_variable]. *)
Definition bin_edge_step (lo hi : list Q) (acc : list value) (i : nat) : result (list value) :=
  match lo !! i, hi !! i with
  | Some l, Some h => Ok (acc ++ [Edges l h])
  | _, _ => Raise IndexError
  end.

(** The table with more variables appended. *)
Definition add_variables (t : Table) (vars : list HepVariable) : Table :=
  {| table_name := table_name t; description := description t;
     location := location t; keywords := keywords t;
     image_files := image_files t; variables := variables t ++ vars |}.

(** What merge mode makes an independent and a dependent variable look
    like, whatever the record holds. *)
Definition merged_independent_shape (var : HepVariable) : Prop :=
  is_independent var = true ∧ is_binned var = false ∧
  uncertainties var = [] ∧ qualifiers var = [].

Definition merged_dependent_shape (var : HepVariable) : Prop :=
  is_independent var = false ∧ is_binned var = false ∧ units var = YStr "" ∧
  uncertainties var = [] ∧ Forall (fun q => qual_units q = "") (qualifiers var).

(** The ROOT file does not give a single histogram: the call that opens
    it returns a null object or a zombie, the file has no canvas ["c"],
    or the canvas is empty. *)
Definition no_histograms (w : World) (path : string) : Prop :=
  match TFile_Open w path with
  | Raise _ => False
  | Ok None => True
  | Ok (Some f) =>
      IsZombie f = true ∨
      match Get f "c" with
      | None => True
      | Some c => collect_hists_from_canvas c = []
      end
  end.

(** How [Py.lstrip] goes on: the text begins with no white space and is
    returned, or it begins with a white-space character of one, two or
    three bytes, which is dropped. *)
Inductive lstrip_view (s : string) : Prop :=
| view0 : Py.space_width s = 0 → Py.lstrip s = s → lstrip_view s
| view1 a s1 : s = String a s1 → Py.space_width s = 1 → Py.lstrip s = Py.lstrip s1 → lstrip_view s
| view2 a b s2 : s = String a (String b s2) → Py.space_width s = 2 →
    Py.lstrip s = Py.lstrip s2 → lstrip_view s
| view3 a b c s3 : s = String a (String b (String c s3)) → Py.space_width s = 3 →
    Py.lstrip s = Py.lstrip s3 → lstrip_view s.

(** A ROOT file of the data directory that can be made a figure of: the
    call that opens it returns, and the figure name it gives has at most
    64 characters. *)
Definition usable_root_file (w : World) (root_file : string) : Prop :=
  (∃ opened, TFile_Open w (os_path_join data_dir root_file) = Ok opened) ∧
  (Py.len (Py.replace ".root" "" root_file) <= 64)%nat.

(** The substrings the naming rules look for. *)
Definition naming_patterns : list string :=
  ["MuonRun3HLTRun2"; "DisplacedL3"; "dTks"; "L3VetoOR"; "HData2022"; "2023";
   "BtoJPsi"; "COSMI"; "ratio"].

(** A value entry of a record that has no ["value"] key, as the entry of
    a binned variable with its ["low"] and ["high"]. *)
Definition lacks_value (v : yaml) : Prop :=
  ∃ entries, v = YMap entries ∧ assoc "value" entries = None.

(** * Properties *)

(** ** Ranges and the extraction step *)

Lemma range_length lo hi : length (Py.range lo hi) = Z.to_nat (hi - lo).
Proof. unfold Py.range. by rewrite length_map, length_seq. Qed.

Lemma range_lookup lo hi (i : nat) :
  (i < Z.to_nat (hi - lo))%nat →
  Py.range lo hi !! i = Some (lo + Z.of_nat i)%Z.
Proof.
  intros Hi. unfold Py.range.
  rewrite list_lookup_fmap, lookup_seq_lt by done. reflexivity.
Qed.

Lemma bins_length {A} (f : Z → A) (n : Z) :
  length (List.map f (Py.range 1 (n + 1))) = Z.to_nat n.
Proof. rewrite length_map, range_length. f_equal. lia. Qed.

Lemma bins_lookup {A} (f : Z → A) (n : Z) (i : nat) :
  (i < Z.to_nat n)%nat →
  List.map f (Py.range 1 (n + 1)) !! i = Some (f (Z.of_nat i + 1)%Z).
Proof.
  intros Hi. rewrite list_lookup_fmap, range_lookup.
  - simpl. do 2 f_equal. lia.
  - replace (n + 1 - 1)%Z with n by lia. done.
Qed.

Lemma round64_eq (a b : Q) : (a == b)%Q → Py.round64 a = Py.round64 b.
Proof. intros H. unfold Py.round64. by rewrite (Qred_complete _ _ H). Qed.

Lemma fadd_exact (a b c : Q) :
  (a + b == c)%Q → is_double c → (Py.fadd a b == c)%Q.
Proof. intros H [Hc _]. unfold Py.fadd. by rewrite (round64_eq _ _ H). Qed.

(** C8, counterexample. The histogram with ten bins of one width between
    0 and 1: the high edge emitted for bin 6 is the double sum of the low
    edge 0.5 and the width 0.1, which is the double 0.6, while the low
    edge the axis reports for bin 7 is the double product of 6 and 0.1,
    which is 0.6000000000000001. The emitted edges are not contiguous. *)
Lemma rounded_edges_not_contiguous :
  let hist := fixed_bins_hist "h10" 10 0 1 (fun _ => 0%Q) (fun _ => 0%Q) "x" "y" in
  let d := extract_histogram_data hist in
  GetNbinsX hist = 10%Z ∧
  x_high d !! 5%nat = Some (5404319552844595 # 9007199254740992)%Q ∧
  x_low d !! 6%nat = Some (1351079888211149 # 2251799813685248)%Q ∧
  ¬ ∃ hi lo, x_high d !! 5%nat = Some hi ∧ x_low d !! 6%nat = Some lo ∧ (hi == lo)%Q.
Proof.
  assert (x_high (extract_histogram_data
                    (fixed_bins_hist "h10" 10 0 1 (fun _ => 0%Q) (fun _ => 0%Q) "x" "y"))
            !! 5%nat = Some (5404319552844595 # 9007199254740992)%Q) as Hhi
    by (vm_compute; reflexivity).
  assert (x_low (extract_histogram_data
                   (fixed_bins_hist "h10" 10 0 1 (fun _ => 0%Q) (fun _ => 0%Q) "x" "y"))
            !! 6%nat = Some (1351079888211149 # 2251799813685248)%Q) as Hlo
    by (vm_compute; reflexivity).
  cbv zeta. split; [reflexivity|]. split; [exact Hhi|]. split; [exact Hlo|].
  intros (hi & lo & H1 & H2 & Heq).
  rewrite Hhi in H1. rewrite Hlo in H2.
  injection H1 as <-. injection H2 as <-.
  revert Heq. vm_compute. discriminate.
Qed.

(** C8, as amended. For a histogram with N declared bins,
    [extract_histogram_data] emits N low edges, N high edges, N centers,
    N contents and N errors, the entry at position i (from 0) being read
    from bin i + 1, and the high edge being the double sum of that bin's
    low edge and width. Where that sum is exact, that is where the low
    edge plus the width is the low edge of the next bin without rounding,
    the emitted edges are contiguous: [x_high[i] == x_low[i+1]]. *)
Theorem extract_histogram_data_bins (hist : TH1) :
  (0 <= GetNbinsX hist)%Z →
  let d := extract_histogram_data hist in
  let N := GetNbinsX hist in
  Z.of_nat (length (x_low d)) = N ∧
  Z.of_nat (length (x_high d)) = N ∧
  Z.of_nat (length (x_centers d)) = N ∧
  Z.of_nat (length (y_values d)) = N ∧
  Z.of_nat (length (y_errors d)) = N ∧
  (∀ i : nat, (Z.of_nat i < N)%Z →
     let bin := (Z.of_nat i + 1)%Z in
     x_low d !! i = Some (GetBinLowEdge hist bin) ∧
     (Py.in_double_range (GetBinLowEdge hist bin + GetBinWidth hist bin)%Q →
      x_high d !! i = Some (Py.fadd (GetBinLowEdge hist bin) (GetBinWidth hist bin))) ∧
     x_centers d !! i = Some (GetBinCenter hist bin) ∧
     y_values d !! i = Some (GetBinContent hist bin) ∧
     y_errors d !! i = Some (GetBinError hist bin)) ∧
  ∀ i : nat, (Z.of_nat i <= N - 2)%Z →
    let bin := (Z.of_nat i + 1)%Z in
    (GetBinLowEdge hist bin + GetBinWidth hist bin == GetBinLowEdge hist (bin + 1))%Q →
    is_double (GetBinLowEdge hist (bin + 1)) →
    ∃ hi lo, x_high d !! i = Some hi ∧ x_low d !! S i = Some lo ∧ (hi == lo)%Q.
Proof.
  intros Hn d N. subst d N. unfold extract_histogram_data; simpl.
  rewrite !bins_length.
  do 5 (split; [lia|]). split.
  - intros i Hi. repeat split; try intros _; apply bins_lookup; lia.
  - intros i Hi Hsum Hd.
    eexists _, _. split; [|split].
    + apply bins_lookup. lia.
    + apply bins_lookup. lia.
    + replace (Z.of_nat (S i) + 1)%Z with (Z.of_nat i + 1 + 1)%Z by lia.
      by apply fadd_exact.
Qed.

Lemma extract_histogram_data_bins_witness :
  let hist := hist_of_edges "h" 3 (fun i => inject_Z (i * i)) (fun _ => 1%Q)
                (fun _ => 0%Q) "x" "y" in
  x_low (extract_histogram_data hist) = [0%Q; 1%Q; 4%Q] ∧
  Z.of_nat (length (x_high (extract_histogram_data hist))) = 3%Z ∧
  ∃ hi lo, x_high (extract_histogram_data hist) !! 0%nat = Some hi ∧
           x_low (extract_histogram_data hist) !! 1%nat = Some lo ∧ (hi == lo)%Q.
Proof.
  intros hist. split; [reflexivity|].
  assert (0 <= GetNbinsX hist)%Z as Hn by (simpl; lia).
  split; [apply (extract_histogram_data_bins hist Hn)|].
  apply (extract_histogram_data_bins hist Hn).
  - simpl. lia.
  - vm_compute. reflexivity.
  - split; vm_compute; reflexivity.
Defined.

(** ** The statistical uncertainty of a dependent variable *)

Lemma gt_spec (a b : Q) : Py.gt a b = true ↔ (b < a)%Q.
Proof.
  unfold Py.gt. rewrite negb_true_iff, <- not_true_iff_false, Qle_bool_iff.
  split; [apply Qnot_le_lt | apply Qlt_not_le].
Qed.

Lemma any_positive_spec (errs : list Q) :
  Py.any (fun err => Py.gt err 0) errs = true ↔ Exists (fun err => (0 < err)%Q) errs.
Proof.
  unfold Py.any. rewrite existsb_exists, Exists_exists.
  split; intros (x & Hx & Hp); exists x; split; try done.
  - apply list_elem_of_In. done.
  - by apply gt_spec.
  - by apply list_elem_of_In.
  - by apply gt_spec.
Qed.

(** The claim C1 as stated fails: a series whose declared errors are all
    zero gets no Uncertainty. *)
Lemma all_zero_errors_not_attached :
  ¬ ∃ unc, uncertainties
             (create_dependent_variable "X" [1%Q; 2%Q] (Some [0%Q; 0%Q]) ""
                "Statistical uncertainty" CME_default) = [unc].
Proof. intros [unc H]. vm_compute in H. discriminate. Qed.

(** C1 (amended). [create_dependent_variable] attaches exactly one
    symmetric Uncertainty, carrying the error sequence as it is, when at
    least one declared error is positive; it attaches none when no error is
    positive (in particular when all are zero) and none when the series
    supplies no error values at all ([None] or an empty sequence). *)
Theorem create_dependent_variable_uncertainty
    (n : string) (ys : list Q) (errs : option (list Q)) (u lbl : string) (cme : Q) :
  let var := create_dependent_variable n ys errs u lbl cme in
  (∀ es, errs = Some es → Exists (fun err => (0 < err)%Q) es →
     uncertainties var =
       [{| label := lbl; is_symmetric := true; unc_values := es |}]) ∧
  (∀ es, errs = Some es → Forall (fun err => (err <= 0)%Q) es →
     uncertainties var = []) ∧
  (errs = None ∨ errs = Some [] → uncertainties var = []).
Proof.
  intros var. subst var. unfold create_dependent_variable.
  split; [|split].
  - intros es -> Hex.
    assert (Py.truthy (Some es) = true) as ->.
    { destruct es; [by apply Exists_nil in Hex | done]. }
    simpl. apply any_positive_spec in Hex. rewrite Hex. reflexivity.
  - intros es -> Hall.
    assert (Py.any (fun err => Py.gt err 0) es = false) as Hany.
    { apply not_true_iff_false. intros Hex%any_positive_spec.
      apply Exists_exists in Hex as (x & Hx & Hp).
      rewrite Forall_forall in Hall. specialize (Hall x Hx).
      by apply Qlt_not_le in Hp. }
    simpl. rewrite Hany, andb_false_r. reflexivity.
  - intros [-> | ->]; reflexivity.
Qed.

(** ** Figure metadata *)

Lemma metadata_entry_description d l : metadata_entry d l !! "description" = Some d.
Proof. unfold metadata_entry. by rewrite lookup_insert_ne, lookup_insert_eq. Qed.

Lemma metadata_entry_location d l : metadata_entry d l !! "location" = Some l.
Proof. unfold metadata_entry. by rewrite lookup_insert_eq. Qed.

Lemma metadata_items_entries :
  Forall (fun kv => ∃ d l, kv.2 = metadata_entry d l) metadata_items.
Proof. unfold metadata_items. repeat constructor; simpl; eauto. Qed.

Lemma get_figure_metadata_entry figure_name :
  ∃ d l, get_figure_metadata figure_name = metadata_entry d l.
Proof.
  unfold get_figure_metadata.
  destruct (metadata !! figure_name) as [m|] eqn:Hm; simpl; [|eauto].
  apply elem_of_list_to_map_2 in Hm.
  pose proof metadata_items_entries as Hall.
  rewrite Forall_forall in Hall. apply (Hall _ Hm).
Qed.

Lemma get_figure_metadata_unknown figure_name :
  figure_name ∉ known_figures →
  get_figure_metadata figure_name =
    metadata_entry ("PLACEHOLDER: Description for " +:+ figure_name)
                   ("PLACEHOLDER: Location for " +:+ figure_name).
Proof.
  intros Hn. unfold get_figure_metadata, metadata.
  rewrite (not_elem_of_list_to_map_1 metadata_items figure_name); done.
Qed.

Lemma getitem_description figure_name :
  getitem (get_figure_metadata figure_name) "description" = Ok (figure_description figure_name).
Proof.
  unfold getitem, figure_description.
  destruct (get_figure_metadata_entry figure_name) as (d & l & ->).
  by rewrite metadata_entry_description.
Qed.

Lemma getitem_location figure_name :
  getitem (get_figure_metadata figure_name) "location" = Ok (figure_location figure_name).
Proof.
  unfold getitem, figure_location.
  destruct (get_figure_metadata_entry figure_name) as (d & l & ->).
  by rewrite metadata_entry_location.
Qed.

(** ** The table built from a ROOT file *)

Lemma for_each_bin_edges (lo hi : list Q) :
  length lo = length hi →
  ∀ (k : nat) (acc : list value),
    for_each
      (fun acc i =>
         match lo !! i, hi !! i with
         | Some l, Some h => Ok (acc ++ [Edges l h])
         | _, _ => Raise IndexError
         end)
      (seq k (length lo - k)) acc
    = Ok (acc ++ zip_with Edges (drop k lo) (drop k hi)).
Proof.
  intros Hlen k. remember (length lo - k)%nat as n eqn:Hn.
  revert k Hn. induction n as [|n IH]; intros k Hn acc.
  - simpl. rewrite !drop_ge by lia. simpl. by rewrite app_nil_r.
  - simpl.
    destruct (lo !! k) as [l|] eqn:Hl.
    2:{ apply lookup_ge_None in Hl. lia. }
    destruct (hi !! k) as [h|] eqn:Hh.
    2:{ apply lookup_ge_None in Hh. lia. }
    simpl. unfold mbind, result_bind. rewrite IH by lia.
    rewrite <- app_assoc. simpl.
    rewrite (drop_S lo l k Hl), (drop_S hi h k Hh). reflexivity.
Qed.

Lemma create_binned_variable_ok n lo hi u indep :
  length lo = length hi →
  create_binned_variable n lo hi u indep =
    Ok (set_values (new_Variable (YStr n) indep true (YStr u)) (zip_with Edges lo hi)).
Proof.
  intros Hlen. unfold create_binned_variable.
  pose proof (for_each_bin_edges lo hi Hlen 0 []) as H.
  rewrite Nat.sub_0_r in H. simpl in H. rewrite H. reflexivity.
Qed.

Lemma attach_image_missing w table pdf_path :
  os_path_exists w pdf_path = false → attach_image w table pdf_path = Ok table.
Proof. intros H. unfold attach_image. by rewrite H. Qed.

Lemma attach_image_probed w table pdf_path available :
  check_imagemagick_available (run_convert_version w) = Ok available →
  attach_image w table pdf_path =
    Ok (if os_path_exists w pdf_path && available && negb (add_image_raises w pdf_path)
        then add_image table pdf_path else table).
Proof.
  intros H. unfold attach_image. rewrite H.
  destruct (os_path_exists w pdf_path), available, (add_image_raises w pdf_path); reflexivity.
Qed.

Lemma header_table_variables figure_name phrases :
  variables (header_table figure_name phrases) = [].
Proof. reflexivity. Qed.

Lemma extract_edges_length hist :
  length (x_low (extract_histogram_data hist)) = length (x_high (extract_histogram_data hist)).
Proof. unfold extract_histogram_data; simpl. by rewrite !bins_length. Qed.

Lemma new_Table_ok (n : string) :
  (Py.len n <= 64)%nat → new_Table n = Ok (blank_Table n).
Proof.
  intros Hn. unfold new_Table.
  by destruct (Nat.ltb_spec 64 (Py.len n)); [lia|].
Qed.

Lemma new_Table_long (n : string) :
  (64 < Py.len n)%nat → new_Table n = Raise ValueError.
Proof.
  intros Hn. unfold new_Table.
  by destruct (Nat.ltb_spec 64 (Py.len n)); [|lia].
Qed.

Lemma new_Table_cases (n : string) :
  (Py.len n <= 64)%nat ∧ new_Table n = Ok (blank_Table n) ∨
  (64 < Py.len n)%nat ∧ new_Table n = Raise ValueError.
Proof.
  destruct (Nat.le_gt_cases (Py.len n) 64) as [H | H].
  - left. split; [done | by apply new_Table_ok].
  - right. split; [done | by apply new_Table_long].
Qed.

(** Once the canvas has given its histograms, the figure is made in
    three steps: the Table is created, the image is attached, and the
    variables of the retained histograms are added. *)
Lemma process_single_figure_steps w submission path figure_name f c h hs :
  TFile_Open w path = Ok (Some f) →
  IsZombie f = false →
  Get f "c" = Some c →
  collect_hists_from_canvas c = h :: hs →
  process_single_figure w submission path figure_name =
    (_ ← new_Table figure_name;
     table ← attach_image w (header_table figure_name root_phrases)
               (root_pdf_path figure_name);
     Ok (add_table submission
           (figure_table figure_name table (unique_histograms_of (h :: hs))), true)).
Proof.
  intros Hopen Hz Hc Hh. unfold process_single_figure.
  rewrite Hopen. cbn [mbind result_bind]. rewrite Hz, Hc, Hh.
  destruct (new_Table_cases figure_name) as [[_ ->] | [_ ->]];
    cbn [mbind result_bind]; [|reflexivity].
  rewrite getitem_description. cbn [mbind result_bind].
  rewrite getitem_location. cbn [mbind result_bind].
  fold root_phrases. fold (root_pdf_path figure_name).
  change (set_keyword _ "phrases" root_phrases)
    with (header_table figure_name root_phrases).
  destruct (attach_image w (header_table figure_name root_phrases)
              (root_pdf_path figure_name)) as [table|e];
    cbn [mbind result_bind]; [|reflexivity].
  unfold figure_table.
  destruct (unique_histograms_of (h :: hs)) as [|first rest]; [reflexivity|].
  destruct (get_x_axis_info (GetXaxisTitle first) figure_name) as [x_name x_units] eqn:Hx.
  rewrite create_binned_variable_ok by apply extract_edges_length.
  cbn [mbind result_bind].
  unfold x_axis_variable. rewrite Hx. reflexivity.
Qed.

Lemma process_single_figure_opened w submission path figure_name f c h hs table :
  (Py.len figure_name <= 64)%nat →
  TFile_Open w path = Ok (Some f) →
  IsZombie f = false →
  Get f "c" = Some c →
  collect_hists_from_canvas c = h :: hs →
  attach_image w (header_table figure_name root_phrases) (root_pdf_path figure_name) = Ok table →
  process_single_figure w submission path figure_name =
    Ok (add_table submission
          (figure_table figure_name table (unique_histograms_of (h :: hs))), true).
Proof.
  intros Hlen Hopen Hz Hc Hh Himg.
  rewrite (process_single_figure_steps w submission path figure_name f c h hs) by done.
  by rewrite (new_Table_ok _ Hlen), Himg.
Qed.

Lemma fold_add_dependent_variables figure_name retained table :
  variables (fold_left (add_dependent figure_name) retained table) =
    variables table ++ List.map (dependent_variable_of figure_name) retained.
Proof.
  revert table. induction retained as [|hist rest IH]; intros table; simpl.
  - by rewrite app_nil_r.
  - rewrite IH. simpl. by rewrite <- app_assoc.
Qed.


Lemma figure_table_variables figure_name table retained :
  variables (figure_table figure_name table retained) =
    variables table
    ++ match retained with
       | first_hist :: _ => [x_axis_variable figure_name first_hist]
       | [] => []
       end
    ++ List.map (dependent_variable_of figure_name) retained.
Proof.
  unfold figure_table. rewrite fold_add_dependent_variables.
  destruct retained; simpl; [done|]. by rewrite <- app_assoc.
Qed.


Lemma fold_add_dependent_texts figure_name retained table :
  description (fold_left (add_dependent figure_name) retained table) = description table ∧
  location (fold_left (add_dependent figure_name) retained table) = location table.
Proof.
  revert table. induction retained as [|hist rest IH]; intros table; simpl; [done|].
  destruct (IH (add_dependent figure_name table hist)) as [-> ->]. done.
Qed.

Lemma figure_table_description figure_name table retained :
  description (figure_table figure_name table retained) = description table.
Proof.
  unfold figure_table.
  rewrite (proj1 (fold_add_dependent_texts _ _ _)). by destruct retained.
Qed.

Lemma figure_table_location figure_name table retained :
  location (figure_table figure_name table retained) = location table.
Proof.
  unfold figure_table.
  rewrite (proj2 (fold_add_dependent_texts _ _ _)). by destruct retained.
Qed.

Lemma dependent_variable_of_dependent figure_name hist :
  is_independent (dependent_variable_of figure_name hist) = false.
Proof.
  unfold dependent_variable_of, create_dependent_variable.
  by destruct (_ && _).
Qed.

Lemma filter_dependents_all figure_name retained :
  List.filter (fun v => negb (is_independent v))
    (List.map (dependent_variable_of figure_name) retained)
  = List.map (dependent_variable_of figure_name) retained.
Proof.
  induction retained as [|hist rest IH]; cbn [List.map List.filter]; [done|].
  rewrite dependent_variable_of_dependent. cbn [negb]. by rewrite IH.
Qed.

Lemma filter_dependents_none figure_name retained :
  List.filter is_independent (List.map (dependent_variable_of figure_name) retained) = [].
Proof.
  induction retained as [|hist rest IH]; cbn [List.map List.filter]; [done|].
  by rewrite dependent_variable_of_dependent.
Qed.

(** ** Filtering and de-duplication *)

Lemma filter_histograms_retained histograms :
  ∀ seen unique,
    snd (filter_histograms histograms seen unique) = unique ++ retained_from seen histograms.
Proof.
  induction histograms as [|hist rest IH]; intros seen unique; simpl.
  - by rewrite app_nil_r.
  - destruct (is_ratio hist); [apply IH|].
    case_bool_decide; [apply IH|].
    rewrite IH, <- app_assoc. reflexivity.
Qed.

Lemma unique_histograms_retained histograms :
  unique_histograms_of histograms = retained_from ∅ histograms.
Proof. unfold unique_histograms_of. by rewrite filter_histograms_retained. Qed.

Lemma retained_from_sublist histograms :
  ∀ seen, sublist (retained_from seen histograms) histograms.
Proof.
  induction histograms as [|hist rest IH]; intros seen; simpl; [constructor|].
  destruct (is_ratio hist); [by apply sublist_cons|].
  case_bool_decide; [by apply sublist_cons|].
  by apply sublist_skip.
Qed.

Lemma retained_from_not_ratio histograms :
  ∀ seen, Forall (fun hist => is_ratio hist = false) (retained_from seen histograms).
Proof.
  induction histograms as [|hist rest IH]; intros seen; simpl; [constructor|].
  destruct (is_ratio hist) eqn:Hr; [apply IH|].
  case_bool_decide; [apply IH|].
  constructor; [done | apply IH].
Qed.

Lemma retained_from_fresh histograms :
  ∀ seen hist, hist ∈ retained_from seen histograms → base_name hist ∉ seen.
Proof.
  induction histograms as [|h rest IH]; intros seen hist; simpl.
  - by intros ?%elem_of_nil.
  - destruct (is_ratio h); [apply IH|].
    case_bool_decide as Hin; [apply IH|].
    intros [-> | Hrest]%elem_of_cons; [done|].
    apply IH in Hrest. set_solver.
Qed.

Lemma retained_from_NoDup histograms :
  ∀ seen, NoDup (List.map base_name (retained_from seen histograms)).
Proof.
  induction histograms as [|h rest IH]; intros seen; simpl; [constructor|].
  destruct (is_ratio h); [apply IH|].
  case_bool_decide as Hin; [apply IH|].
  simpl. constructor; [|apply IH].
  intros (h' & Heq & Hh')%list_elem_of_fmap.
  apply retained_from_fresh in Hh'. set_solver.
Qed.

Lemma retained_from_drop_ratio histograms :
  ∀ seen,
    retained_from seen (List.filter (fun hist => negb (is_ratio hist)) histograms)
    = retained_from seen histograms.
Proof.
  induction histograms as [|h rest IH]; intros seen; simpl; [done|].
  destruct (is_ratio h) eqn:Hr; simpl; [apply IH|].
  rewrite Hr. case_bool_decide; by rewrite IH.
Qed.

(** An object that the loop would exclude where it stands can be taken
    out without changing what is retained. *)
Lemma retained_from_insert_excluded before :
  ∀ seen hist after,
    is_ratio hist = true
    ∨ base_name hist ∈ seen
    ∨ base_name hist ∈ List.map base_name (retained_from seen before) →
    retained_from seen (before ++ hist :: after) = retained_from seen (before ++ after).
Proof.
  induction before as [|h rest IH]; intros seen hist after Hex; simpl.
  - destruct Hex as [-> | [Hin | Hin]]; [done | |by apply elem_of_nil in Hin].
    destruct (is_ratio hist); [done|]. by rewrite bool_decide_eq_true_2.
  - simpl in Hex.
    destruct (is_ratio h); [by apply IH|].
    case_bool_decide as Hseen; [by apply IH|].
    f_equal. apply IH.
    destruct Hex as [Hr | [Hin | Hin]]; [by left | right; left; set_solver |].
    simpl in Hin. apply elem_of_cons in Hin as [Heq | Hin].
    + right; left. set_solver.
    + by right; right.
Qed.

Lemma retained_from_all histograms :
  ∀ seen,
    Forall (fun hist => is_ratio hist = false) histograms →
    NoDup (List.map base_name histograms) →
    (∀ hist, hist ∈ histograms → base_name hist ∉ seen) →
    retained_from seen histograms = histograms.
Proof.
  induction histograms as [|h rest IH]; intros seen Hr Hnd Hfresh; simpl; [done|].
  apply Forall_cons in Hr as [Hh Hrest].
  simpl in Hnd. apply NoDup_cons in Hnd as [Hnotin Hnd].
  rewrite Hh. rewrite bool_decide_eq_false_2 by (apply Hfresh; left).
  f_equal. apply IH; [done | done |].
  intros hist Hin. specialize (Hfresh hist (list_elem_of_further _ _ _ Hin)).
  assert (base_name hist ≠ base_name h).
  { intros Heq. apply Hnotin. rewrite <- Heq. by apply list_elem_of_fmap_2. }
  intros [?%elem_of_singleton | ?]%elem_of_union; done.
Qed.

Lemma retained_from_cons_ratio seen hist rest :
  is_ratio hist = true →
  retained_from seen (hist :: rest) = retained_from seen rest.
Proof. intros H. simpl. by rewrite H. Qed.

Lemma retained_from_cons_seen seen hist rest :
  base_name hist ∈ seen →
  retained_from seen (hist :: rest) = retained_from seen rest.
Proof.
  intros H. simpl. destruct (is_ratio hist); [done|].
  by rewrite bool_decide_eq_true_2.
Qed.

Lemma retained_from_cons_new seen hist rest :
  is_ratio hist = false → base_name hist ∉ seen →
  retained_from seen (hist :: rest)
  = hist :: retained_from ({[ base_name hist ]} ∪ seen) rest.
Proof. intros Hr H. simpl. rewrite Hr. by rewrite bool_decide_eq_false_2. Qed.

Lemma names_move (b : string) (names seen : gset string) :
  names ∪ ({[ b ]} ∪ seen) = ({[ b ]} ∪ names) ∪ seen.
Proof.
  apply set_eq. intros x. rewrite !elem_of_union. tauto.
Qed.

Lemma retained_from_app (a b : list TH1) :
  ∀ seen,
    retained_from seen (a ++ b)
    = retained_from seen a
      ++ retained_from (list_to_set (List.map base_name (retained_from seen a)) ∪ seen) b.
Proof.
  induction a as [|h a IH]; intros seen; simpl.
  - f_equal. symmetry. apply (left_id_L (∅ : gset string) (∪)).
  - destruct (is_ratio h); [apply IH|].
    case_bool_decide; [apply IH|].
    simpl. f_equal. rewrite IH. f_equal. f_equal. apply names_move.
Qed.

(** A name that no retained object has can be added to the names seen
    without changing what is retained. *)
Lemma retained_from_spare_name (x : string) histograms :
  ∀ seen,
    x ∉ List.map base_name (retained_from seen histograms) →
    retained_from ({[ x ]} ∪ seen) histograms = retained_from seen histograms.
Proof.
  induction histograms as [|h rest IH]; intros seen Hx; simpl in *; [done|].
  destruct (is_ratio h); [by apply IH|].
  case_bool_decide as Hseen.
  - rewrite bool_decide_eq_true_2 by set_solver. by apply IH.
  - simpl in Hx. apply not_elem_of_cons in Hx as [Hne Hx].
    rewrite bool_decide_eq_false_2.
    2:{ intros [?%elem_of_singleton | ?]%elem_of_union; [congruence | done]. }
    f_equal.
    assert ({[base_name h]} ∪ ({[x]} ∪ seen) = {[x]} ∪ ({[base_name h]} ∪ seen)) as ->.
    { apply set_eq. intros y. rewrite !elem_of_union. tauto. }
    by apply IH.
Qed.

(** A duplicate put in front of the first-seen object of its base name
    takes its place among the retained objects. *)
Lemma retained_from_duplicate_first (a1 a2 b c : list TH1) (r d : TH1) :
  is_ratio r = false → is_ratio d = false → base_name d = base_name r →
  base_name r ∉ List.map base_name (retained_from ∅ (a1 ++ a2)) →
  ∃ k1 k2 tail,
    retained_from ∅ (a1 ++ a2 ++ r :: b ++ d :: c) = k1 ++ k2 ++ r :: tail ∧
    retained_from ∅ (a1 ++ d :: a2 ++ r :: b ++ c) = k1 ++ d :: k2 ++ tail ∧
    retained_from ∅ (a1 ++ a2) = k1 ++ k2.
Proof.
  intros Hr Hd Hbase Hfresh.
  set (k1 := retained_from ∅ a1).
  set (s1 := list_to_set (List.map base_name k1) ∪ (∅ : gset string)).
  set (k2 := retained_from s1 a2).
  set (s2 := list_to_set (List.map base_name k2) ∪ s1).
  assert (retained_from ∅ (a1 ++ a2) = k1 ++ k2) as Hk by apply retained_from_app.
  rewrite Hk, List.map_app, not_elem_of_app in Hfresh. destruct Hfresh as [Hf1 Hf2].
  assert (base_name r ∉ s1) as Hs1.
  { unfold s1. rewrite elem_of_union, elem_of_list_to_set.
    intros [? | ?%elem_of_empty]; done. }
  assert (base_name r ∉ s2) as Hs2.
  { unfold s2. rewrite elem_of_union, elem_of_list_to_set. intros [? | ?]; done. }
  exists k1, k2, (retained_from ({[ base_name r ]} ∪ s2) (b ++ c)).
  split; [|split; [|done]].
  - rewrite retained_from_app. fold k1 s1. f_equal.
    rewrite retained_from_app. fold k2 s2. f_equal.
    rewrite retained_from_cons_new by done. f_equal.
    apply retained_from_insert_excluded. right; left. rewrite Hbase. set_solver.
  - rewrite retained_from_app. fold k1 s1. f_equal.
    rewrite retained_from_cons_new by (rewrite ?Hbase; done). f_equal.
    rewrite Hbase, retained_from_app.
    rewrite (retained_from_spare_name (base_name r) a2 s1) by done. fold k2. f_equal.
    rewrite retained_from_cons_seen by set_solver.
    f_equal. unfold s2. apply set_eq. intros y. rewrite !elem_of_union. tauto.
Qed.

(** The claim C9 as stated fails for duplicates: moving [X_copy] in front
    of [X] moves only a non-retained object, and then [X_copy] is retained
    in place of [X]. *)
Lemma duplicate_moved_first_is_retained :
  ¬ ∀ before after,
      moves_only_non_retained before after →
      unique_histograms_of after = unique_histograms_of before.
Proof.
  intros H.
  specialize (H [plain_hist "X" 2; plain_hist "X_copy" 2]
                [plain_hist "X_copy" 2; plain_hist "X" 2]).
  assert (List.map GetName (unique_histograms_of [plain_hist "X_copy" 2; plain_hist "X" 2])
          = List.map GetName (unique_histograms_of [plain_hist "X" 2; plain_hist "X_copy" 2]))
    as Hn.
  { f_equal. apply H. split.
    - apply Permutation_swap.
    - assert (unique_histograms_of [plain_hist "X" 2; plain_hist "X_copy" 2]
              = [plain_hist "X" 2]) as -> by reflexivity.
      apply sublist_cons. reflexivity. }
  vm_compute in Hn. discriminate.
Qed.

(** C9 (amended). The retained list does not depend on the ratio objects
    or on where they stand; an object excluded where it stands (a ratio
    object, or a duplicate standing after a retained object of the same
    base name) can be removed or put at any later place without changing
    the retained list; the retained objects come in enumeration order; a
    permutation of a list that is retained whole is retained whole, in
    the permuted order; and a duplicate moved in front of the first-seen
    object of its base name is retained in its place, at the position it
    was moved to, while the other retained objects stay as they were. *)
Theorem filter_order_independence :
  (∀ l l' : list TH1,
     List.filter (fun hist => negb (is_ratio hist)) l
     = List.filter (fun hist => negb (is_ratio hist)) l' →
     unique_histograms_of l = unique_histograms_of l') ∧
  (∀ (a b c : list TH1) (d : TH1),
     is_ratio d = true
     ∨ base_name d ∈ List.map base_name (unique_histograms_of a) →
     unique_histograms_of (a ++ d :: b ++ c) = unique_histograms_of (a ++ b ++ c) ∧
     unique_histograms_of (a ++ b ++ d :: c) = unique_histograms_of (a ++ b ++ c)) ∧
  (∀ l : list TH1, sublist (unique_histograms_of l) l) ∧
  (∀ l l' : list TH1,
     l ≡ₚ l' → unique_histograms_of l = l → unique_histograms_of l' = l') ∧
  (∀ (a1 a2 b c : list TH1) (r d : TH1),
     is_ratio r = false → is_ratio d = false → base_name d = base_name r →
     base_name r ∉ List.map base_name (unique_histograms_of (a1 ++ a2)) →
     ∃ k1 k2 tail,
       unique_histograms_of (a1 ++ a2 ++ r :: b ++ d :: c) = k1 ++ k2 ++ r :: tail ∧
       unique_histograms_of (a1 ++ d :: a2 ++ r :: b ++ c) = k1 ++ d :: k2 ++ tail ∧
       unique_histograms_of (a1 ++ a2) = k1 ++ k2).
Proof.
  split; [|split; [|split; [|split]]].
  - intros l l' Heq. rewrite !unique_histograms_retained.
    rewrite <- (retained_from_drop_ratio l), <- (retained_from_drop_ratio l').
    by rewrite Heq.
  - intros a b c d Hex. rewrite !unique_histograms_retained in *. split.
    + apply retained_from_insert_excluded. destruct Hex; auto.
    + rewrite !app_assoc. apply retained_from_insert_excluded.
      destruct Hex as [Hr | Hin]; [by left|].
      right; right.
      apply list_elem_of_fmap in Hin as (h & -> & Hh).
      apply list_elem_of_fmap_2.
      (* what is retained of [a] is still retained of [a ++ b] *)
      clear -Hh. revert Hh. generalize (∅ : gset string).
      induction a as [|x a IH]; intros seen; simpl.
      * by intros ?%elem_of_nil.
      * destruct (is_ratio x); [apply IH|].
        case_bool_decide; [apply IH|].
        intros [-> | Hin]%elem_of_cons; [left | right; by apply IH].
  - intros l. rewrite unique_histograms_retained. apply retained_from_sublist.
  - intros l l' Hperm Hl. rewrite unique_histograms_retained in *.
    apply retained_from_all.
    + rewrite <- Hperm, <- Hl. apply retained_from_not_ratio.
    + rewrite <- Hperm, <- Hl. apply retained_from_NoDup.
    + set_solver.
  - intros a1 a2 b c r d Hr Hd Hbase Hfresh.
    rewrite !unique_histograms_retained in *.
    by apply retained_from_duplicate_first.
Qed.

(** ** Whole-figure properties of [process_single_figure] *)

(** Evidence for the example worlds, by evaluation. *)
Ltac canvas_evidence := eexists _, _; repeat split; reflexivity.
Ltac probe_evidence := unfold probe_answers; simpl; discriminate.

Lemma probe_answers_check w :
  probe_answers w → ∃ b, check_imagemagick_available (run_convert_version w) = Ok b.
Proof.
  unfold probe_answers. destruct (run_convert_version w); simpl; eauto. done.
Qed.

Lemma attach_image_fields w table pdf_path table' :
  attach_image w table pdf_path = Ok table' →
  variables table' = variables table ∧ description table' = description table ∧
  location table' = location table.
Proof.
  unfold attach_image. intros H.
  destruct (os_path_exists w pdf_path); [|by inversion H].
  destruct (check_imagemagick_available (run_convert_version w)) as [[]|]; simpl in H;
    try discriminate; [|by inversion H].
  destruct (add_image_raises w pdf_path); by inversion H.
Qed.

Lemma process_single_figure_table w submission path figure_name h hs :
  (Py.len figure_name <= 64)%nat →
  canvas_holds w path (h :: hs) →
  os_path_exists w (root_pdf_path figure_name) = false ∨ probe_answers w →
  ∃ table,
    attach_image w (header_table figure_name root_phrases) (root_pdf_path figure_name)
      = Ok table ∧
    process_single_figure w submission path figure_name =
      Ok (add_table submission
            (figure_table figure_name table (unique_histograms_of (h :: hs))), true).
Proof.
  intros Hlen (f & c & Hopen & Hz & Hc & Hh) Himg.
  assert (∃ table, attach_image w (header_table figure_name root_phrases)
                     (root_pdf_path figure_name) = Ok table) as [table Ht].
  { destruct Himg as [Hmiss | Hprobe].
    - eexists. by apply attach_image_missing.
    - destruct (probe_answers_check w Hprobe) as [b Hb].
      eexists. by apply attach_image_probed. }
  exists table. split; [done|].
  by eapply process_single_figure_opened.
Qed.

(** The claim C2 as stated fails: with a canvas whose only object is a
    ratio panel, the figure is not reported as a failure and the
    submission does not stay as it was. *)
Lemma empty_retained_set_not_skipped :
  unique_histograms_of [plain_hist "h_ratio" 2] = [] ∧
  process_single_figure ratio_only_world {| tables := [] |}
    "data_Alejandro/Figure99.root" "Figure99"
  ≠ Ok ({| tables := [] |}, false) ∧
  ∃ table,
    process_single_figure ratio_only_world {| tables := [] |}
      "data_Alejandro/Figure99.root" "Figure99"
    = Ok ({| tables := [table] |}, true) ∧
    variables table = [].
Proof.
  split; [reflexivity|]. split.
  - intros H. vm_compute in H. discriminate.
  - eexists. split; reflexivity.
Qed.

(** C2 (amended). When every discovered plot object is filtered out, the
    figure is not skipped: provided the figure name has at most 64
    characters, so that [Table(figure_name)] accepts it, and the probe
    for the image tool ends in one of the ways the script handles, a
    Table without any Variable is appended to the Submission and the
    function reports success. *)
Theorem process_single_figure_empty_retained
    (w : World) (submission : Submission) (path figure_name : string) (h : TH1) (hs : list TH1) :
  (Py.len figure_name <= 64)%nat →
  canvas_holds w path (h :: hs) →
  probe_answers w →
  unique_histograms_of (h :: hs) = [] →
  ∃ table,
    process_single_figure w submission path figure_name
      = Ok (add_table submission table, true) ∧
    variables table = [].
Proof.
  intros Hlen Hc Hp Hu.
  destruct (process_single_figure_table w submission path figure_name h hs Hlen Hc
              (or_intror Hp)) as (table & Himg & Hres).
  eexists. split; [exact Hres|].
  rewrite figure_table_variables, Hu. simpl.
  apply attach_image_fields in Himg as (-> & _). reflexivity.
Qed.

Lemma process_single_figure_empty_retained_witness :
  ∃ table,
    process_single_figure ratio_only_world {| tables := [] |}
      "data_Alejandro/Figure99.root" "Figure99"
      = Ok (add_table {| tables := [] |} table, true) ∧
    variables table = [].
Proof.
  apply (process_single_figure_empty_retained ratio_only_world {| tables := [] |}
           "data_Alejandro/Figure99.root" "Figure99" (plain_hist "h_ratio" 2) []).
  - simpl. lia.
  - canvas_evidence.
  - probe_evidence.
  - reflexivity.
Defined.

(** ** The four-object scenario *)

Lemma create_variable_name_X figure_name :
  create_variable_name "X" figure_name = "Efficiency (X)".
Proof.
  unfold create_variable_name.
  repeat (destruct (String.eqb figure_name _)); reflexivity.
Qed.

Lemma create_variable_name_Y figure_name :
  create_variable_name "Y" figure_name = "Efficiency (Y)".
Proof.
  unfold create_variable_name.
  repeat (destruct (String.eqb figure_name _)); reflexivity.
Qed.

Lemma four_objects_retained (hr hx hc hy : TH1) :
  Py.contains "ratio" (Py.lower (GetName hr)) = true →
  GetName hx = "X" → GetName hc = "X_copy" → GetName hy = "Y" →
  Py.contains "Data/MC" (GetYaxisTitle hx) = false →
  Py.contains "Data/MC" (GetYaxisTitle hy) = false →
  unique_histograms_of [hr; hx; hc; hy] = [hx; hy].
Proof.
  intros Hr Hx Hc Hy Hxt Hyt.
  assert (is_ratio hx = false) as Hxr by (unfold is_ratio; by rewrite Hx, Hxt).
  assert (is_ratio hy = false) as Hyr by (unfold is_ratio; by rewrite Hy, Hyt).
  assert (base_name hx = "X") as Hxb by (unfold base_name; by rewrite Hx).
  assert (base_name hc = "X") as Hcb by (unfold base_name; by rewrite Hc).
  assert (base_name hy = "Y") as Hyb by (unfold base_name; by rewrite Hy).
  rewrite unique_histograms_retained.
  rewrite retained_from_cons_ratio by (unfold is_ratio; by rewrite Hr).
  rewrite retained_from_cons_new by (rewrite ?Hxb; set_solver).
  rewrite retained_from_cons_seen by (rewrite Hxb, Hcb; set_solver).
  rewrite retained_from_cons_new; [done | done |].
  rewrite Hxb, Hyb.
  intros [?%elem_of_singleton | ?%elem_of_empty]%elem_of_union; done.
Qed.

(** C3. A figure, with a name of at most 64 characters as
    [Table(figure_name)] accepts it, whose canvas holds, in this order, an
    object with "ratio" in its name (in any letter case), [X], [X_copy]
    and [Y], where [X] and [Y] are not comparison panels by their y-axis
    label: the filter retains [X] and [Y] in that order, the Table gets
    exactly the two dependent Variables made from [X] and from [Y], and
    its one independent Variable carries the bin edges extracted from
    [X]. *)
Theorem four_object_scenario
    (w : World) (submission : Submission) (path figure_name : string)
    (hr hx hc hy : TH1) :
  (Py.len figure_name <= 64)%nat →
  canvas_holds w path [hr; hx; hc; hy] →
  probe_answers w →
  Py.contains "ratio" (Py.lower (GetName hr)) = true →
  GetName hx = "X" → GetName hc = "X_copy" → GetName hy = "Y" →
  Py.contains "Data/MC" (GetYaxisTitle hx) = false →
  Py.contains "Data/MC" (GetYaxisTitle hy) = false →
  unique_histograms_of [hr; hx; hc; hy] = [hx; hy] ∧
  ∃ table x_var y_X y_Y,
    process_single_figure w submission path figure_name
      = Ok (add_table submission table, true) ∧
    dependent_variables table = [y_X; y_Y] ∧
    name y_X = YStr "Efficiency (X)" ∧
    values y_X = List.map Scalar (y_values (extract_histogram_data hx)) ∧
    name y_Y = YStr "Efficiency (Y)" ∧
    values y_Y = List.map Scalar (y_values (extract_histogram_data hy)) ∧
    independent_variables table = [x_var] ∧
    values x_var = zip_with Edges (x_low (extract_histogram_data hx))
                                  (x_high (extract_histogram_data hx)).
Proof.
  intros Hlen Hcan Hp Hr Hx Hc Hy Hxt Hyt.
  pose proof (four_objects_retained hr hx hc hy Hr Hx Hc Hy Hxt Hyt) as Hu.
  split; [exact Hu|].
  destruct (process_single_figure_table w submission path figure_name hr [hx; hc; hy]
              Hlen Hcan (or_intror Hp)) as (table & Himg & Hres).
  rewrite Hu in Hres.
  apply attach_image_fields in Himg as (Hv & _).
  exists (figure_table figure_name table [hx; hy]),
         (x_axis_variable figure_name hx),
         (dependent_variable_of figure_name hx),
         (dependent_variable_of figure_name hy).
  split; [exact Hres|].
  assert (variables (figure_table figure_name table [hx; hy])
          = [x_axis_variable figure_name hx;
             dependent_variable_of figure_name hx;
             dependent_variable_of figure_name hy]) as Hvars.
  { rewrite figure_table_variables, Hv. reflexivity. }
  unfold dependent_variables, independent_variables. rewrite Hvars.
  cbn [List.filter].
  rewrite !dependent_variable_of_dependent.
  assert (∀ h, name (dependent_variable_of figure_name h)
               = YStr (create_variable_name (GetName h) figure_name)) as Hname.
  { intros h. unfold dependent_variable_of, create_dependent_variable.
    by destruct (_ && _). }
  assert (∀ h, values (dependent_variable_of figure_name h)
               = List.map Scalar (y_values (extract_histogram_data h))) as Hvals.
  { intros h. unfold dependent_variable_of, create_dependent_variable.
    by destruct (_ && _). }
  rewrite !Hname, !Hvals, Hx, Hy, create_variable_name_X, create_variable_name_Y.
  repeat split; reflexivity.
Qed.

Lemma four_object_scenario_witness :
  unique_histograms_of
    [plain_hist "pad_Ratio" 2; plain_hist "X" 2; plain_hist "X_copy" 2; plain_hist "Y" 2]
  = [plain_hist "X" 2; plain_hist "Y" 2].
Proof.
  apply (four_object_scenario four_object_world {| tables := [] |}
           "data_Alejandro/Figure99.root" "Figure99").
  - simpl. lia.
  - canvas_evidence.
  - probe_evidence.
  - reflexivity.
  - reflexivity.
  - reflexivity.
  - reflexivity.
  - reflexivity.
  - reflexivity.
Defined.

(** ** Lengths of the value sequences *)

Lemma dependent_variable_of_length figure_name hist :
  length (values (dependent_variable_of figure_name hist)) = Z.to_nat (GetNbinsX hist).
Proof.
  unfold dependent_variable_of, create_dependent_variable.
  destruct (_ && _); simpl; by rewrite length_map, bins_length.
Qed.

Lemma x_axis_variable_length figure_name hist :
  length (values (x_axis_variable figure_name hist)) = Z.to_nat (GetNbinsX hist).
Proof.
  unfold x_axis_variable. simpl.
  rewrite length_zip_with, !bins_length. lia.
Qed.

(** The claim C4 as stated fails when the retained histograms differ in
    their bin counts: with [X] of one bin and [Y] of two, the axis has one
    value and the dependent Variable of [Y] has two. *)
Lemma differing_bin_counts_break_lengths :
  ∃ table x_var y_var,
    process_single_figure two_binnings_world {| tables := [] |}
      "data_Alejandro/Figure99.root" "Figure99"
    = Ok ({| tables := [table] |}, true) ∧
    independent_variables table = [x_var] ∧
    y_var ∈ dependent_variables table ∧
    length (values y_var) ≠ length (values x_var).
Proof.
  eexists _, _, _. split; [reflexivity|].
  split; [reflexivity|]. split.
  - right; left.
  - vm_compute. discriminate.
Qed.

(** C4 (amended). In the Table produced for a figure, whose name has at
    most 64 characters, the independent Variable has as many values as
    the first retained histogram has bins, and each dependent Variable as
    many as its own histogram; so the lengths agree for every dependent
    Variable whenever all retained histograms declare the bin count of the
    first one, which the code does not check. *)
Theorem process_single_figure_lengths
    (w : World) (submission : Submission) (path figure_name : string)
    (h : TH1) (hs : list TH1) :
  (Py.len figure_name <= 64)%nat →
  canvas_holds w path (h :: hs) →
  probe_answers w →
  ∃ table,
    process_single_figure w submission path figure_name
      = Ok (add_table submission table, true) ∧
    independent_variables table
      = List.map (x_axis_variable figure_name) (take 1 (unique_histograms_of (h :: hs))) ∧
    dependent_variables table
      = List.map (dependent_variable_of figure_name) (unique_histograms_of (h :: hs)) ∧
    (∀ hist, length (values (x_axis_variable figure_name hist)) = Z.to_nat (GetNbinsX hist)) ∧
    (∀ hist, length (values (dependent_variable_of figure_name hist))
             = Z.to_nat (GetNbinsX hist)) ∧
    ((∀ first, head (unique_histograms_of (h :: hs)) = Some first →
        Forall (fun hist => GetNbinsX hist = GetNbinsX first)
               (unique_histograms_of (h :: hs))) →
     ∀ x_var y_var,
       x_var ∈ independent_variables table →
       y_var ∈ dependent_variables table →
       length (values y_var) = length (values x_var)).
Proof.
  intros Hlen Hcan Hp.
  destruct (process_single_figure_table w submission path figure_name h hs
              Hlen Hcan (or_intror Hp)) as (table & Himg & Hres).
  apply attach_image_fields in Himg as (Hv & _).
  exists (figure_table figure_name table (unique_histograms_of (h :: hs))).
  split; [exact Hres|].
  set (retained := unique_histograms_of (h :: hs)).
  assert (independent_variables (figure_table figure_name table retained)
          = List.map (x_axis_variable figure_name) (take 1 retained)) as Hind.
  { unfold independent_variables.
    rewrite figure_table_variables, Hv, header_table_variables, app_nil_l.
    rewrite List.filter_app, filter_dependents_none, app_nil_r.
    destruct retained; reflexivity. }
  assert (dependent_variables (figure_table figure_name table retained)
          = List.map (dependent_variable_of figure_name) retained) as Hdep.
  { unfold dependent_variables.
    rewrite figure_table_variables, Hv, header_table_variables, app_nil_l.
    rewrite List.filter_app, filter_dependents_all.
    destruct retained; reflexivity. }
  split; [exact Hind|]. split; [exact Hdep|].
  split; [apply x_axis_variable_length|]. split; [apply dependent_variable_of_length|].
  intros Hsame x_var y_var Hx Hy. rewrite Hind in Hx. rewrite Hdep in Hy.
  apply list_elem_of_fmap in Hy as (hy & -> & Hhy).
  destruct retained as [|first rest]; [by apply elem_of_nil in Hhy|].
  simpl in Hx. apply list_elem_of_singleton in Hx as ->.
  rewrite x_axis_variable_length, dependent_variable_of_length.
  specialize (Hsame first eq_refl). rewrite Forall_forall in Hsame.
  by rewrite (Hsame hy Hhy).
Qed.

Lemma process_single_figure_lengths_witness :
  ∃ table,
    process_single_figure four_object_world {| tables := [] |}
      "data_Alejandro/Figure99.root" "Figure99"
    = Ok (add_table {| tables := [] |} table, true) ∧
    length (independent_variables table) = 1%nat ∧
    length (dependent_variables table) = 2%nat.
Proof.
  destruct (process_single_figure_lengths four_object_world {| tables := [] |}
              "data_Alejandro/Figure99.root" "Figure99"
              (plain_hist "pad_Ratio" 2)
              [plain_hist "X" 2; plain_hist "X_copy" 2; plain_hist "Y" 2])
    as (table & Hres & Hind & Hdep & _).
  - simpl. lia.
  - canvas_evidence.
  - probe_evidence.
  - exists table. split; [exact Hres|]. rewrite Hind, Hdep. split; reflexivity.
Defined.

(** ** Image attachment *)





(** ** Metadata never fails *)

(** C10. [get_figure_metadata] returns, for every figure name, a mapping
    with a "description" and a "location" entry; for a name that is not one
    of the nine known figures the two entries are the placeholder strings
    that embed the name. The two lookups of the processors therefore never
    raise, and a figure with an unknown name, of at most 64 characters,
    is processed like any other: its Table is appended, with the
    placeholder texts, and it counts as a success. *)
Theorem get_figure_metadata_total (figure_name : string) :
  length known_figures = 9%nat ∧
  (∃ d l, get_figure_metadata figure_name !! "description" = Some d ∧
          get_figure_metadata figure_name !! "location" = Some l) ∧
  (figure_name ∉ known_figures →
     get_figure_metadata figure_name !! "description"
       = Some ("PLACEHOLDER: Description for " +:+ figure_name) ∧
     get_figure_metadata figure_name !! "location"
       = Some ("PLACEHOLDER: Location for " +:+ figure_name)) ∧
  (∃ d l, getitem (get_figure_metadata figure_name) "description" = Ok d ∧
          getitem (get_figure_metadata figure_name) "location" = Ok l) ∧
  (∀ w submission path h hs,
     figure_name ∉ known_figures →
     (Py.len figure_name <= 64)%nat →
     canvas_holds w path (h :: hs) → probe_answers w →
     ∃ table,
       process_single_figure w submission path figure_name
         = Ok (add_table submission table, true) ∧
       description table = "PLACEHOLDER: Description for " +:+ figure_name ∧
       location table = "PLACEHOLDER: Location for " +:+ figure_name).
Proof.
  split; [reflexivity|]. split; [|split; [|split]].
  - destruct (get_figure_metadata_entry figure_name) as (d & l & ->).
    exists d, l. by rewrite metadata_entry_description, metadata_entry_location.
  - intros Hn. rewrite get_figure_metadata_unknown by done.
    by rewrite metadata_entry_description, metadata_entry_location.
  - eexists _, _. split; [apply getitem_description | apply getitem_location].
  - intros w submission path h hs Hn Hlen Hcan Hp.
    destruct (process_single_figure_table w submission path figure_name h hs
                Hlen Hcan (or_intror Hp)) as (table & Himg & Hres).
    eexists. split; [exact Hres|].
    apply attach_image_fields in Himg as (_ & Hd & Hl).
    rewrite figure_table_description, figure_table_location, Hd, Hl.
    unfold header_table; simpl. unfold figure_description, figure_location.
    rewrite get_figure_metadata_unknown by done.
    by rewrite metadata_entry_description, metadata_entry_location.
Qed.

(** ** Merge mode on a well-formed record *)

Lemma for_each_map {A B S} (body : S → B → result S) (enc : A → B) (step : S → A → S) :
  (∀ s a, body s (enc a) = Ok (step s a)) →
  ∀ (l : list A) (s : S), for_each body (List.map enc l) s = Ok (fold_left step l s).
Proof.
  intros Hbody l. induction l as [|a l IH]; intros s; simpl; [done|].
  rewrite Hbody. simpl. apply IH.
Qed.

Lemma fold_left_snoc {A B} (f : A → B) (l : list A) (acc : list B) :
  fold_left (fun acc a => acc ++ [f a]) l acc = acc ++ List.map f l.
Proof.
  revert acc. induction l as [|a l IH]; intros acc; simpl.
  - by rewrite app_nil_r.
  - by rewrite IH, <- app_assoc.
Qed.

Lemma value_column_independent (xs : list Q) :
  value_column (YSeq (List.map (fun x => YMap [("value", YNum x)]) xs))
  = Ok (List.map (fun x => Loaded (YNum x)) xs).
Proof.
  unfold value_column. simpl.
  rewrite (for_each_map _ _ (fun acc x => acc ++ [Loaded (YNum x)])) by done.
  by rewrite fold_left_snoc.
Qed.

Lemma value_column_dependent (vs : list ValueEntry) :
  value_column (YSeq (List.map load_value vs))
  = Ok (List.map (fun v => Loaded (YNum (ve_value v))) vs).
Proof.
  unfold value_column. simpl.
  rewrite (for_each_map _ _ (fun acc v => acc ++ [Loaded (YNum (ve_value v))])) by done.
  by rewrite fold_left_snoc.
Qed.

Lemma assign_values_numbers {A} (f : A → Q) (l : list A) (var : HepVariable) :
  assign_values var (List.map (fun a => Loaded (YNum (f a))) l)
  = Ok (set_values var (List.map (fun a => Loaded (YNum (f a))) l)).
Proof.
  unfold assign_values.
  rewrite (for_each_map _ _ (fun acc a => acc ++ [Loaded (YNum (f a))])) by done.
  by rewrite fold_left_snoc.
Qed.

Lemma add_independent_from_yaml_loaded table i :
  add_independent_from_yaml table (load_independent i)
  = Ok (add_variable table (merged_independent i)).
Proof.
  unfold add_independent_from_yaml, load_independent. simpl.
  rewrite value_column_independent. cbn [mbind result_bind].
  rewrite (assign_values_numbers (fun x => x)). simpl.
  unfold merged_independent. by destruct (ie_units i).
Qed.

Lemma add_qualifiers_loaded (qs : list QualifierEntry) (var : HepVariable) :
  for_each add_qualifier_from_yaml (List.map load_qualifier qs) var
  = Ok {| name := name var; is_independent := is_independent var;
          is_binned := is_binned var; units := units var; values := values var;
          uncertainties := uncertainties var;
          qualifiers := qualifiers var ++ List.map merged_qualifier qs |}.
Proof.
  rewrite (for_each_map _ _
             (fun v q => add_qualifier v (YStr (qe_name q)) (qe_value q) "")) by done.
  revert var. induction qs as [|q qs IH]; intros var; simpl.
  - rewrite app_nil_r. by destruct var.
  - rewrite IH. simpl. by rewrite <- app_assoc.
Qed.

Lemma add_dependent_from_yaml_loaded table d :
  add_dependent_from_yaml table (load_dependent d)
  = Ok (add_variable table (merged_dependent d)).
Proof.
  unfold add_dependent_from_yaml, load_dependent, merged_dependent.
  destruct (de_qualifiers d) as [qs|]; simpl.
  - rewrite value_column_dependent. cbn [mbind result_bind].
    rewrite (assign_values_numbers ve_value). simpl.
    rewrite add_qualifiers_loaded. reflexivity.
  - rewrite value_column_dependent. cbn [mbind result_bind].
    rewrite (assign_values_numbers ve_value). reflexivity.
Qed.

Lemma fold_add_variable {A} (f : A → HepVariable) (l : list A) (table : Table) :
  fold_left (fun t a => add_variable t (f a)) l table
  = {| table_name := table_name table; description := description table;
       location := location table; keywords := keywords table;
       image_files := image_files table;
       variables := variables table ++ List.map f l |}.
Proof.
  revert table. induction l as [|a l IH]; intros table; simpl.
  - rewrite app_nil_r. by destruct table.
  - rewrite IH. simpl. by rewrite <- app_assoc.
Qed.

Lemma process_existing_yaml_file_merged w submission path figure_name r :
  (Py.len figure_name <= 64)%nat →
  record_loads w path r →
  os_path_exists w (merge_pdf_path figure_name) = false ∨ probe_answers w →
  ∃ table,
    process_existing_yaml_file w submission path figure_name
      = (add_table submission table, true) ∧
    variables table
      = List.map merged_independent (rec_independent r)
        ++ List.map merged_dependent (rec_dependent r).
Proof.
  intros Hlen [Hex Hload] Himg.
  assert (∃ t1, attach_image w (header_table figure_name merge_phrases)
                  (merge_pdf_path figure_name) = Ok t1) as [t1 Ht1].
  { destruct Himg as [Hmiss | Hprobe].
    - eexists. by apply attach_image_missing.
    - destruct (probe_answers_check w Hprobe) as [b Hb].
      eexists. by apply attach_image_probed. }
  unfold process_existing_yaml_file, process_existing_yaml_body.
  rewrite Hex, Hload, (new_Table_ok _ Hlen). simpl.
  rewrite getitem_description. simpl. rewrite getitem_location. simpl.
  fold merge_phrases. fold (merge_pdf_path figure_name).
  fold (header_table figure_name merge_phrases). rewrite Ht1. simpl.
  rewrite (for_each_map _ _ (fun t i => add_variable t (merged_independent i)))
    by apply add_independent_from_yaml_loaded.
  simpl.
  rewrite (for_each_map _ _ (fun t d => add_variable t (merged_dependent d)))
    by apply add_dependent_from_yaml_loaded.
  simpl. eexists. split; [reflexivity|].
  rewrite !fold_add_variable. simpl.
  apply attach_image_fields in Ht1 as (-> & _).
  rewrite header_table_variables. simpl. reflexivity.
Qed.

Lemma merged_split (ivs : list IndependentEntry) (ds : list DependentEntry) :
  List.filter is_independent
    (List.map merged_independent ivs ++ List.map merged_dependent ds)
  = List.map merged_independent ivs ∧
  List.filter (fun v => negb (is_independent v))
    (List.map merged_independent ivs ++ List.map merged_dependent ds)
  = List.map merged_dependent ds.
Proof.
  rewrite !List.filter_app.
  assert (List.filter is_independent (List.map merged_independent ivs)
          = List.map merged_independent ivs) as ->.
  { induction ivs as [|i ivs IH]; simpl; [done|]. by rewrite IH. }
  assert (List.filter is_independent (List.map merged_dependent ds) = []) as ->.
  { induction ds as [|d ds IH]; simpl; done. }
  assert (List.filter (fun v => negb (is_independent v)) (List.map merged_independent ivs)
          = []) as ->.
  { induction ivs as [|i ivs IH]; simpl; done. }
  assert (List.filter (fun v => negb (is_independent v)) (List.map merged_dependent ds)
          = List.map merged_dependent ds) as ->.
  { induction ds as [|d ds IH]; simpl; [done|]. by rewrite IH. }
  by rewrite app_nil_r.
Qed.

(** The claim C5 as stated fails on both counts: a record without
    independent variables is not skipped (its Table is appended and the
    figure counts as a success), and a record with two independent
    variables gives a Table with two of them. *)
Lemma merge_mode_keeps_every_independent :
  (process_existing_yaml_file
     (record_world "fig.yaml" {| rec_independent := []; rec_dependent := [sample_dependent] |})
     {| tables := [] |} "fig.yaml" "Figure40"
   ≠ ({| tables := [] |}, false)) ∧
  ∃ table,
    process_existing_yaml_file
      (record_world "fig.yaml"
         {| rec_independent := [sample_independent "x"; sample_independent "y"];
            rec_dependent := [sample_dependent] |})
      {| tables := [] |} "fig.yaml" "Figure40"
    = ({| tables := [table] |}, true) ∧
    length (independent_variables table) ≠ 1%nat.
Proof.
  split.
  - intros H. vm_compute in H. discriminate.
  - eexists. split; [reflexivity|]. vm_compute. discriminate.
Qed.

(** C5 (amended). A canonical record with k independent and m dependent
    variables, each value entry of which is a mapping with a numeric
    [value], processed through merge mode under a figure name of at most
    64 characters, yields a Table with exactly k independent and m
    dependent Variables, one per variable of the record and in the
    record's order; the Table is appended and the figure counts as a
    success for every k, also for k = 0. *)
Theorem merge_mode_variable_counts
    (w : World) (submission : Submission) (path figure_name : string)
    (r : CanonicalRecord) :
  (Py.len figure_name <= 64)%nat →
  record_loads w path r →
  os_path_exists w (merge_pdf_path figure_name) = false ∨ probe_answers w →
  ∃ table,
    process_existing_yaml_file w submission path figure_name
      = (add_table submission table, true) ∧
    independent_variables table = List.map merged_independent (rec_independent r) ∧
    dependent_variables table = List.map merged_dependent (rec_dependent r) ∧
    length (independent_variables table) = length (rec_independent r) ∧
    length (dependent_variables table) = length (rec_dependent r).
Proof.
  intros Hlen Hload Himg.
  destruct (process_existing_yaml_file_merged w submission path figure_name r
              Hlen Hload Himg) as (table & Hres & Hvars).
  exists table. split; [exact Hres|].
  unfold independent_variables, dependent_variables. rewrite Hvars.
  destruct (merged_split (rec_independent r) (rec_dependent r)) as [-> ->].
  by rewrite !length_map.
Qed.

Lemma merge_mode_variable_counts_witness :
  ∃ table,
    process_existing_yaml_file
      (record_world "fig.yaml"
         {| rec_independent := [sample_independent "x"];
            rec_dependent := [sample_dependent; sample_dependent] |})
      {| tables := [] |} "fig.yaml" "Figure40"
    = (add_table {| tables := [] |} table, true) ∧
    length (independent_variables table) = 1%nat ∧
    length (dependent_variables table) = 2%nat.
Proof.
  destruct (merge_mode_variable_counts
              (record_world "fig.yaml"
                 {| rec_independent := [sample_independent "x"];
                    rec_dependent := [sample_dependent; sample_dependent] |})
              {| tables := [] |} "fig.yaml" "Figure40"
              {| rec_independent := [sample_independent "x"];
                 rec_dependent := [sample_dependent; sample_dependent] |})
    as (table & Hres & _ & _ & Hk & Hm).
  - simpl. lia.
  - split; reflexivity.
  - left. reflexivity.
  - exists table. split; [exact Hres|]. split; [exact Hk | exact Hm].
Defined.

(** The claim C6 as stated fails: the errors of the record's values and
    the units of its qualifiers are not on the merged Variable. *)
Lemma merge_mode_drops_uncertainties :
  has_errors sample_dependent = true ∧
  ∃ table var,
    process_existing_yaml_file
      (record_world "fig.yaml"
         {| rec_independent := [sample_independent "x"];
            rec_dependent := [sample_dependent] |})
      {| tables := [] |} "fig.yaml" "Figure40"
    = ({| tables := [table] |}, true) ∧
    dependent_variables table = [var] ∧
    uncertainties var = [] ∧
    List.map qual_units (qualifiers var) = [""].
Proof.
  split; [reflexivity|]. eexists _, _.
  split; [reflexivity|]. split; [reflexivity|]. split; reflexivity.
Qed.

(** C6 (amended). For a canonical record, each value entry of which is
    a mapping with a numeric [value], and a figure name of at most 64
    characters, merge mode keeps, for every dependent variable of the
    record and in order, its name, its values and the name and the value
    of each of its qualifiers; the units of the qualifiers, the units of
    the variable and the errors of its values are not carried over: every
    merged dependent Variable has empty units and no Uncertainty. *)
Theorem merge_mode_keeps_qualifier_names_and_values
    (w : World) (submission : Submission) (path figure_name : string)
    (r : CanonicalRecord) :
  (Py.len figure_name <= 64)%nat →
  record_loads w path r →
  os_path_exists w (merge_pdf_path figure_name) = false ∨ probe_answers w →
  ∃ table,
    process_existing_yaml_file w submission path figure_name
      = (add_table submission table, true) ∧
    Forall2
      (fun (d : DependentEntry) (var : HepVariable) =>
         name var = YStr (de_name d) ∧
         values var = List.map (fun v => Loaded (YNum (ve_value v))) (de_values d) ∧
         List.map (fun q => (qual_name q, qual_value q)) (qualifiers var)
           = List.map (fun q => (YStr (qe_name q), qe_value q))
                      (default [] (de_qualifiers d)) ∧
         Forall (fun q => qual_units q = "") (qualifiers var) ∧
         units var = YStr "" ∧
         uncertainties var = [])
      (rec_dependent r) (dependent_variables table).
Proof.
  intros Hlen Hload Himg.
  destruct (process_existing_yaml_file_merged w submission path figure_name r
              Hlen Hload Himg) as (table & Hres & Hvars).
  exists table. split; [exact Hres|].
  unfold dependent_variables. rewrite Hvars.
  destruct (merged_split (rec_independent r) (rec_dependent r)) as [_ ->].
  apply Forall2_fmap_r, Forall_Forall2_diag, Forall_forall.
  intros d _. simpl. repeat split.
  - by rewrite List.map_map.
  - apply Forall_forall. intros q (q' & -> & _)%list_elem_of_fmap. reflexivity.
Qed.

Lemma merge_mode_keeps_qualifier_names_and_values_witness :
  ∃ table,
    process_existing_yaml_file
      (record_world "fig.yaml"
         {| rec_independent := [sample_independent "x"];
            rec_dependent := [sample_dependent] |})
      {| tables := [] |} "fig.yaml" "Figure40"
    = (add_table {| tables := [] |} table, true) ∧
    List.map (fun var => List.map qual_name (qualifiers var)) (dependent_variables table)
      = [[YStr "SQRT(S)"]].
Proof.
  destruct (merge_mode_keeps_qualifier_names_and_values
              (record_world "fig.yaml"
                 {| rec_independent := [sample_independent "x"];
                    rec_dependent := [sample_dependent] |})
              {| tables := [] |} "fig.yaml" "Figure40"
              {| rec_independent := [sample_independent "x"];
                 rec_dependent := [sample_dependent] |})
    as (table & Hres & _).
  - simpl. lia.
  - split; reflexivity.
  - left. reflexivity.
  - exists table. split; [exact Hres|].
    vm_compute in Hres. injection Hres as <-. reflexivity.
Defined.

(** * Further properties *)

(** ** More on filtering and de-duplication *)

Lemma filter_histograms_names histograms :
  ∀ seen unique,
    fst (filter_histograms histograms seen unique)
    = list_to_set (List.map base_name (retained_from seen histograms)) ∪ seen.
Proof.
  induction histograms as [|hist rest IH]; intros seen unique; simpl.
  - symmetry. apply (left_id_L (∅ : gset string) (∪)).
  - destruct (is_ratio hist); [apply IH|].
    case_bool_decide; [apply IH|].
    rewrite IH. simpl. apply names_move.
Qed.

Lemma retained_from_covered histograms :
  ∀ seen,
    (∀ hist, hist ∈ histograms → is_ratio hist = true ∨ base_name hist ∈ seen) →
    retained_from seen histograms = [].
Proof.
  induction histograms as [|h rest IH]; intros seen Hcov; simpl; [done|].
  assert (∀ hist, hist ∈ rest → is_ratio hist = true ∨ base_name hist ∈ seen) as Hrest.
  { intros hist Hin. apply Hcov. by right. }
  destruct (Hcov h) as [-> | Hin]; [by left | by apply IH |].
  destruct (is_ratio h); [by apply IH|].
  rewrite bool_decide_eq_true_2 by done. by apply IH.
Qed.

Lemma retained_from_covers histograms :
  ∀ seen hist,
    hist ∈ histograms → is_ratio hist = false →
    base_name hist ∈ seen
    ∨ base_name hist ∈ List.map base_name (retained_from seen histograms).
Proof.
  induction histograms as [|h rest IH]; intros seen hist Hin Hr.
  - by apply elem_of_nil in Hin.
  - simpl. apply elem_of_cons in Hin as [-> | Hin].
    + rewrite Hr. case_bool_decide; [by left|]. right. simpl. left.
    + destruct (is_ratio h); [by apply IH|].
      case_bool_decide; [by apply IH|].
      destruct (IH ({[ base_name h ]} ∪ seen) hist Hin Hr) as [Hs | Hs].
      * apply elem_of_union in Hs as [->%elem_of_singleton | Hs]; [|by left].
        right. simpl. left.
      * right. simpl. by right.
Qed.

(** X1. De-duplication is idempotent: filtering the retained list again,
    or filtering the object list followed by itself, gives the retained
    list. *)
Theorem unique_histograms_idempotent (l : list TH1) :
  unique_histograms_of (unique_histograms_of l) = unique_histograms_of l ∧
  unique_histograms_of (l ++ l) = unique_histograms_of l.
Proof.
  rewrite !unique_histograms_retained. split.
  - apply retained_from_all.
    + apply retained_from_not_ratio.
    + apply retained_from_NoDup.
    + intros hist _. apply not_elem_of_empty.
  - rewrite retained_from_app.
    assert (retained_from
              (list_to_set (List.map base_name (retained_from ∅ l)) ∪ ∅) l = []) as ->.
    { apply retained_from_covered.
      intros hist Hin. destruct (is_ratio hist) eqn:Hr; [by left | right].
      destruct (retained_from_covers l ∅ hist Hin Hr) as [Hs | Hs].
      - by apply elem_of_empty in Hs.
      - apply elem_of_union. left. by apply elem_of_list_to_set. }
    by rewrite app_nil_r.
Qed.

(** X2. What the filter keeps: no retained object is a ratio panel, no
    two retained objects have the same base name, there are at most as
    many retained objects as objects, and [processed_names] ends as the
    set of the base names of the retained objects. *)
Theorem unique_histograms_invariants (l : list TH1) :
  Forall (fun hist => is_ratio hist = false) (unique_histograms_of l) ∧
  NoDup (List.map base_name (unique_histograms_of l)) ∧
  (length (unique_histograms_of l) <= length l)%nat ∧
  fst (filter_histograms l ∅ []) = list_to_set (List.map base_name (unique_histograms_of l)).
Proof.
  rewrite !unique_histograms_retained. repeat split.
  - apply retained_from_not_ratio.
  - apply retained_from_NoDup.
  - apply sublist_length, retained_from_sublist.
  - rewrite filter_histograms_names. apply (right_id_L (∅ : gset string) (∪)).
Qed.

Lemma retained_from_first_seen histograms :
  ∀ seen r,
    r ∈ retained_from seen histograms →
    ∃ before after,
      histograms = before ++ r :: after ∧
      ∀ x, x ∈ before → is_ratio x = true ∨ base_name x ≠ base_name r.
Proof.
  induction histograms as [|h rest IH]; intros seen r Hr; simpl in Hr.
  - by apply elem_of_nil in Hr.
  - destruct (is_ratio h) eqn:Hh.
    { destruct (IH _ _ Hr) as (a & b & -> & Ha).
      exists (h :: a), b. split; [done|].
      intros x [-> | Hx]%elem_of_cons; [by left | by apply Ha]. }
    case_bool_decide as Hseen.
    { pose proof (retained_from_fresh _ _ _ Hr) as Hfresh.
      destruct (IH _ _ Hr) as (a & b & -> & Ha).
      exists (h :: a), b. split; [done|].
      intros x [-> | Hx]%elem_of_cons; [|by apply Ha].
      right. intros Heq. by rewrite Heq in Hseen. }
    apply elem_of_cons in Hr as [-> | Hr].
    { exists [], rest. split; [done|]. by intros x ?%elem_of_nil. }
    pose proof (retained_from_fresh _ _ _ Hr) as Hfresh.
    destruct (IH _ _ Hr) as (a & b & -> & Ha).
    exists (h :: a), b. split; [done|].
    intros x [-> | Hx]%elem_of_cons; [|by apply Ha].
    right. intros Heq. apply Hfresh. rewrite <- Heq. set_solver.
Qed.

(** X3. First seen wins: every object that is not a ratio panel has a
    retained object of its base name, and each retained object is the
    first object of its base name that is not a ratio panel. *)
Theorem unique_histograms_first_seen (l : list TH1) :
  (∀ hist, hist ∈ l → is_ratio hist = false →
     ∃ r, r ∈ unique_histograms_of l ∧ base_name r = base_name hist) ∧
  (∀ r, r ∈ unique_histograms_of l →
     ∃ before after,
       l = before ++ r :: after ∧
       ∀ x, x ∈ before → is_ratio x = true ∨ base_name x ≠ base_name r).
Proof.
  rewrite !unique_histograms_retained. split.
  - intros hist Hin Hr.
    destruct (retained_from_covers l ∅ hist Hin Hr) as [Hs | Hs].
    + by apply elem_of_empty in Hs.
    + apply list_elem_of_fmap in Hs as (r & Heq & Hrin). eauto.
  - apply retained_from_first_seen.
Qed.

(** X4. Objects that come later never change what was retained before:
    the retained list of a list is a prefix of the retained list of any
    extension of it. *)
Theorem unique_histograms_prefix (a b : list TH1) :
  unique_histograms_of a `prefix_of` unique_histograms_of (a ++ b).
Proof.
  rewrite !unique_histograms_retained, retained_from_app.
  by eexists.
Qed.

(** ** The [_copy] marker *)

Lemma prefix_length (p s : string) :
  String.prefix p s = true → (String.length p <= String.length s)%nat.
Proof.
  revert s. induction p as [|a p IH]; intros s H; simpl; [lia|].
  destruct s as [|b s]; simpl in H; [discriminate|].
  destruct (ascii_dec a b); [|discriminate].
  apply IH in H. simpl. lia.
Qed.

Lemma prefix_append_long (p s t : string) :
  (String.length p <= String.length s)%nat →
  String.prefix p (s +:+ t) = String.prefix p s.
Proof.
  revert s. induction p as [|a p IH]; intros s Hlen.
  - destruct s; simpl; [by destruct t | done].
  - destruct s as [|b s]; simpl in Hlen; [lia|].
    simpl. destruct (ascii_dec a b); [|done]. apply IH. lia.
Qed.

(** An occurrence of ["_copy"] cannot begin in the last four characters
    before an appended ["_copy"]. *)
Lemma copy_marker_no_overlap (s : string) :
  (1 <= String.length s <= 4)%nat →
  String.prefix "_copy" (s +:+ "_copy") = false.
Proof.
  intros Hlen.
  destruct s as [|c1 [|c2 [|c3 [|c4 [|c5 s]]]]]; simpl in Hlen; try lia;
    cbv -[ascii_dec];
    repeat match goal with
           | |- context [ascii_dec ?a ?b] => destruct (ascii_dec a b); try done
           end.
Qed.

Lemma replace_from_copy_suffix (s : string) :
  ∀ k, (k <= String.length s)%nat →
    Py.replace_from "_copy" "" k (s +:+ "_copy") = Py.replace_from "_copy" "" k s.
Proof.
  induction s as [|c s IH]; intros k Hk.
  - simpl in Hk. assert (k = 0)%nat as -> by lia. reflexivity.
  - destruct k as [|k].
    + change (String c s +:+ "_copy") with (String c (s +:+ "_copy")).
      cbn [Py.replace_from].
      change (String c (s +:+ "_copy")) with (String c s +:+ "_copy").
      destruct (String.prefix "_copy" (String c s)) eqn:Hp.
      * pose proof (prefix_length _ _ Hp) as Hl. simpl in Hl.
        rewrite prefix_append_long, Hp by (simpl; lia).
        f_equal. apply IH. simpl. lia.
      * assert (String.prefix "_copy" (String c s +:+ "_copy") = false) as ->.
        { destruct (le_lt_dec 5 (String.length (String c s))) as [Hl | Hl].
          - by rewrite prefix_append_long.
          - apply copy_marker_no_overlap. simpl in *. lia. }
        f_equal. apply IH. lia.
    + simpl. apply IH. simpl in Hk. lia.
Qed.

(** X5. An appended [_copy] never changes the base name; so of two
    objects whose names differ by an appended [_copy], the one that comes
    after the other was retained is always dropped, whichever of the two
    names it has. *)
Theorem copy_twin_is_dropped (a b : list TH1) (kept twin : TH1) :
  kept ∈ unique_histograms_of a →
  GetName twin = GetName kept +:+ "_copy" ∨ GetName kept = GetName twin +:+ "_copy" →
  base_name twin = base_name kept ∧
  unique_histograms_of (a ++ twin :: b) = unique_histograms_of (a ++ b).
Proof.
  intros Hkept Hname.
  assert (base_name twin = base_name kept) as Hbase.
  { unfold base_name, Py.replace. simpl.
    destruct Hname as [-> | ->].
    - by apply replace_from_copy_suffix; lia.
    - symmetry. by apply replace_from_copy_suffix; lia. }
  split; [done|].
  rewrite !unique_histograms_retained in *.
  apply retained_from_insert_excluded. right; right.
  rewrite Hbase. by apply list_elem_of_fmap_2.
Qed.

Lemma copy_twin_is_dropped_witness :
  unique_histograms_of [plain_hist "h_copy" 2; plain_hist "h" 2; plain_hist "g" 2]
  = unique_histograms_of [plain_hist "h_copy" 2; plain_hist "g" 2].
Proof.
  apply (copy_twin_is_dropped [plain_hist "h_copy" 2] [plain_hist "g" 2]
           (plain_hist "h_copy" 2) (plain_hist "h" 2)).
  - left.
  - right. reflexivity.
Defined.

(** ** Names of the dependent variables *)

Lemma prefix_lower (p s : string) :
  String.prefix p s = true → String.prefix (Py.lower p) (Py.lower s) = true.
Proof.
  revert s. induction p as [|a p IH]; intros s H; [by destruct s|].
  destruct s as [|b s]; [done|]. simpl in *.
  destruct (ascii_dec a b) as [-> | ]; [|discriminate].
  destruct (ascii_dec _ _); [by apply IH | done].
Qed.

Lemma contains_lower (sub s : string) :
  Py.contains sub s = true → Py.contains (Py.lower sub) (Py.lower s) = true.
Proof.
  induction s as [|c s IH]; simpl.
  - rewrite orb_false_r. intros H. apply (prefix_lower sub "") in H.
    simpl in H. by rewrite H.
  - intros [H | H]%orb_true_iff.
    + apply (prefix_lower sub (String c s)) in H. simpl in H. by rewrite H.
    + rewrite (IH H). apply orb_true_r.
Qed.

Lemma not_ratio_name hist :
  is_ratio hist = false → Py.contains "ratio" (GetName hist) = false.
Proof.
  unfold is_ratio. intros [H _]%orb_false_iff.
  apply not_true_iff_false. intros Hc.
  apply (contains_lower "ratio") in Hc.
  change (Py.lower "ratio") with "ratio" in Hc. congruence.
Qed.

Ltac split_rules :=
  repeat match goal with
         | |- context [if ?c then _ else _] => destruct c eqn:?
         end.

(** X6. No dependent variable of a figure is called "Data/MC ratio", and
    none gets an empty name: the filter is blind to letter case where the
    naming rule is not, so the rule for ratio objects never applies to a
    retained object. *)
Theorem retained_names (l : list TH1) (figure_name : string) :
  Forall (fun hist =>
            create_variable_name (GetName hist) figure_name ≠ "Data/MC ratio" ∧
            create_variable_name (GetName hist) figure_name ≠ "")
         (unique_histograms_of l).
Proof.
  rewrite unique_histograms_retained.
  eapply Forall_impl; [apply retained_from_not_ratio|]. intros hist Hr. simpl in Hr.
  apply not_ratio_name in Hr.
  unfold create_variable_name, generic_variable_name. rewrite Hr.
  split; split_rules; simpl; discriminate.
Qed.

(** X7. A name in which none of the substrings of the naming rules
    occurs gets, in every figure, the placeholder name that embeds it. *)
Theorem create_variable_name_fallback (hist_name figure_name : string) :
  Forall (fun pattern => Py.contains pattern hist_name = false) naming_patterns →
  create_variable_name hist_name figure_name = "Efficiency (" +:+ hist_name +:+ ")".
Proof.
  unfold naming_patterns. intros H.
  repeat (apply Forall_cons in H as [? H]).
  unfold create_variable_name, generic_variable_name.
  repeat match goal with
         | Hc : Py.contains _ _ = false |- _ => rewrite Hc; clear Hc
         end.
  simpl. split_rules; reflexivity.
Qed.

Lemma create_variable_name_fallback_witness :
  create_variable_name "hEff_pt" "Figure42c" = "Efficiency (hEff_pt)".
Proof.
  apply (create_variable_name_fallback "hEff_pt" "Figure42c").
  unfold naming_patterns. repeat constructor.
Defined.

(** ** The name and the unit of the independent axis *)

Lemma lstrip_cases (s : string) : lstrip_view s.
Proof.
  destruct s as [|a s1]; [by apply view0|].
  destruct (Py.isspace a) eqn:Ha.
  { eapply view1; [done|..]; cbn [Py.lstrip Py.space_width]; by rewrite Ha. }
  destruct s1 as [|b s2].
  { apply view0; cbn [Py.lstrip Py.space_width]; by rewrite Ha. }
  destruct (Py.isspace2 a b) eqn:Hb.
  { eapply view2; [done|..]; cbn [Py.lstrip Py.space_width]; by rewrite Ha, Hb. }
  destruct s2 as [|c s3].
  { apply view0; cbn [Py.lstrip Py.space_width]; by rewrite Ha, Hb. }
  destruct (Py.isspace3 a b c) eqn:Hc.
  - eapply view3; [done|..]; cbn [Py.lstrip Py.space_width]; by rewrite Ha, Hb, Hc.
  - apply view0; cbn [Py.lstrip Py.space_width]; by rewrite Ha, Hb, Hc.
Qed.

Lemma lstrip_fixed_below (n : nat) (s : string) :
  String.length s <= n → Py.space_width (Py.lstrip s) = 0.
Proof.
  revert s. induction n as [|n IH]; intros s Hn.
  - destruct s; [done|]. simpl in Hn. lia.
  - destruct (lstrip_cases s) as [Hw Hs | a s1 -> _ Hs | a b s2 -> _ Hs | a b c s3 -> _ Hs];
      rewrite Hs; [done|..]; apply IH; simpl in Hn; lia.
Qed.

Lemma lstrip_fixed (s : string) : Py.space_width (Py.lstrip s) = 0.
Proof. by apply (lstrip_fixed_below (String.length s)). Qed.

Lemma lstrip_stable (s : string) : Py.space_width s = 0 → Py.lstrip s = s.
Proof. intros Hw. destruct (lstrip_cases s); congruence. Qed.

Lemma append_cons (a : ascii) (s t : string) : String a s +:+ t = String a (s +:+ t).
Proof. reflexivity. Qed.

Lemma space_width_append (s t : string) :
  Py.space_width s ≠ 0 → Py.space_width (s +:+ t) = Py.space_width s.
Proof.
  destruct s as [|a [|b [|c s3]]]; rewrite ?append_cons; cbn [Py.space_width];
    try done; destruct (Py.isspace a); try done;
    destruct (Py.isspace2 a b); done.
Qed.

Lemma lstrip_append_below (n : nat) (s t : string) :
  String.length s <= n → Py.lstrip s = "" → Py.lstrip (s +:+ t) = Py.lstrip t.
Proof.
  revert s. induction n as [|n IH]; intros s Hn Hs.
  - destruct s; [done|]. simpl in Hn. lia.
  - destruct (lstrip_cases s) as [Hw Hs' | a s1 -> Hw Hs' | a b s2 -> Hw Hs' | a b c s3 -> Hw Hs'];
      [rewrite Hs' in Hs; by subst s|..];
      match goal with
      | |- Py.lstrip (?s +:+ t) = _ =>
          assert (Py.space_width (s +:+ t) = Py.space_width s) as Hwt
            by (apply space_width_append; congruence);
          destruct (lstrip_cases (s +:+ t)) as [? _ | ? ? He ? H2 | ? ? ? He ? H2 | ? ? ? ? He ? H2];
          try congruence; rewrite H2; rewrite !append_cons in He
      end.
    + injection He as _ <-. apply IH; [simpl in Hn; lia | congruence].
    + injection He as _ _ <-. apply IH; [simpl in Hn; lia | congruence].
    + injection He as _ _ _ <-. apply IH; [simpl in Hn; lia | congruence].
Qed.

Lemma all_space_append (s t : string) :
  Py.all_space s = true → Py.all_space (s +:+ t) = Py.all_space t.
Proof.
  unfold Py.all_space. intros Hs.
  rewrite (lstrip_append_below (String.length s)); [done|lia|].
  by destruct (Py.lstrip s).
Qed.

Lemma rstrip_split (s : string) :
  ∃ w, s = Py.rstrip s +:+ w ∧ Py.all_space w = true.
Proof.
  induction s as [|c s (w & IH & Hw)]; [by exists ""|].
  cbn [Py.rstrip]. destruct (Py.all_space (String c s)) eqn:Hall.
  - by exists (String c s).
  - exists w. rewrite append_cons. by rewrite <- IH.
Qed.

Lemma rstrip_idempotent (s : string) : Py.rstrip (Py.rstrip s) = Py.rstrip s.
Proof.
  induction s as [|c s IH]; [done|]. cbn [Py.rstrip].
  destruct (Py.all_space (String c s)) eqn:Hall; [done|].
  cbn [Py.rstrip]. rewrite IH.
  destruct (Py.all_space (String c (Py.rstrip s))) eqn:Hr; [|done].
  destruct (rstrip_split s) as (w & Hs & Hw).
  rewrite Hs, <- append_cons, (all_space_append _ _ Hr) in Hall. congruence.
Qed.

Lemma rstrip_prefix (s : string) : String.prefix (Py.rstrip s) s = true.
Proof.
  induction s as [|c s IH]; [done|]. cbn [Py.rstrip].
  destruct (Py.all_space (String c s)); [done|].
  simpl. by destruct (ascii_dec c c).
Qed.

Lemma space_width_prefix (p s : string) :
  String.prefix p s = true → Py.space_width s = 0 → Py.space_width p = 0.
Proof.
  destruct p as [|a [|b [|c p3]]], s as [|a' [|b' [|c' s3]]]; simpl; try done;
    repeat (destruct (ascii_dec _ _) as [<- | ]; try done);
    destruct (Py.isspace a); try done; destruct (Py.isspace2 a b); done.
Qed.

Lemma strip_idempotent (s : string) : Py.strip (Py.strip s) = Py.strip s.
Proof.
  unfold Py.strip.
  rewrite (lstrip_stable (Py.rstrip _)); [apply rstrip_idempotent|].
  eapply space_width_prefix; [apply rstrip_prefix | apply lstrip_fixed].
Qed.

(** A title that consists of a no-break space and an em space is blank:
    [strip] takes both away. *)
Example blank_title_of_wide_spaces :
  get_x_axis_info
    (String (ascii_of_nat 194) (String (ascii_of_nat 160)
       (String (ascii_of_nat 226) (String (ascii_of_nat 128)
          (String (ascii_of_nat 131) EmptyString)))))
    "Figure99"
  = ("Variable", "").
Proof. reflexivity. Qed.

(** X8. Whatever the axis title and the figure, the unit returned by
    [get_x_axis_info] is "GeV", "cm" or empty and the name has no white
    space at either end; for the eight figures with an entry of their own
    the title is not looked at; and a blank title of another figure gives
    the name "Variable" with no unit. *)
Theorem get_x_axis_info_shape (x_axis_title figure_name : string) :
  let r := get_x_axis_info x_axis_title figure_name in
  snd r ∈ ["GeV"; "cm"; ""] ∧
  Py.strip (fst r) = fst r ∧
  (figure_name ∈ ["Figure41a"; "Figure41b"; "Figure41c"; "Figure42a"; "Figure42b";
                  "Figure42c"; "Figure43a"; "Figure43b"] →
   ∀ other_title, get_x_axis_info other_title figure_name = r) ∧
  (figure_name ∉ ["Figure41a"; "Figure41b"; "Figure41c"; "Figure42a"; "Figure42b";
                  "Figure42c"; "Figure43a"; "Figure43b"] →
   Py.strip x_axis_title = "" → r = ("Variable", "")).
Proof.
  intros r. subst r. split; [|split; [|split]].
  - unfold get_x_axis_info. split_rules; simpl; set_solver.
  - unfold get_x_axis_info.
    generalize (strip_idempotent x_axis_title).
    generalize (Py.strip x_axis_title) as title. intros title Ht.
    split_rules; cbn [fst]; try reflexivity; try apply strip_idempotent; exact Ht.
  - intros Hin other. unfold get_x_axis_info.
    repeat (apply elem_of_cons in Hin as [-> | Hin]; [reflexivity|]).
    by apply elem_of_nil in Hin.
  - intros Hout Hblank. unfold get_x_axis_info. rewrite Hblank.
    repeat match goal with
           | |- context [String.eqb figure_name ?k] =>
               destruct (String.eqb_spec figure_name k) as [-> | _];
               [exfalso; apply Hout; set_solver|]
           end.
    reflexivity.
Qed.

(** ** Bounds of [create_binned_variable] and empty histograms *)

Lemma for_each_bin_edges_enough (lo hi : list Q) :
  (length lo <= length hi)%nat →
  ∀ (n k : nat) (acc : list value),
    n = (length lo - k)%nat →
    for_each (bin_edge_step lo hi) (seq k n) acc
    = Ok (acc ++ zip_with Edges (drop k lo) (drop k hi)).
Proof.
  intros Hlen n. induction n as [|n IH]; intros k acc Hn.
  - simpl. rewrite (drop_ge lo) by lia. simpl. by rewrite app_nil_r.
  - cbn [seq for_each].
    destruct (lo !! k) as [l|] eqn:Hl.
    2:{ apply lookup_ge_None in Hl. lia. }
    destruct (hi !! k) as [h|] eqn:Hh.
    2:{ apply lookup_ge_None in Hh. lia. }
    assert (bin_edge_step lo hi acc k = Ok (acc ++ [Edges l h])) as ->.
    { unfold bin_edge_step. by rewrite Hl, Hh. }
    unfold mbind, result_bind. rewrite IH by lia.
    rewrite <- app_assoc. cbn [app].
    rewrite (drop_S lo l k Hl), (drop_S hi h k Hh). reflexivity.
Qed.

Lemma for_each_bin_edges_short (lo hi : list Q) :
  (length hi < length lo)%nat →
  ∀ (m k : nat) (acc : list value),
    m = (length hi - k)%nat → (k <= length hi)%nat →
    for_each (bin_edge_step lo hi) (seq k (length lo - k)) acc = Raise IndexError.
Proof.
  intros Hlen m. induction m as [|m IH]; intros k acc Hm Hk.
  - assert (k = length hi) as -> by lia.
    destruct (length lo - length hi)%nat as [|n] eqn:Hn; [lia|].
    cbn [seq for_each].
    assert (bin_edge_step lo hi acc (length hi) = Raise IndexError) as ->; [|done].
    unfold bin_edge_step.
    rewrite (lookup_ge_None_2 hi (length hi)) by lia.
    by destruct (lo !! length hi).
  - destruct (length lo - k)%nat as [|n] eqn:Hn; [lia|].
    cbn [seq for_each].
    destruct (lo !! k) as [l|] eqn:Hl.
    2:{ apply lookup_ge_None in Hl. lia. }
    destruct (hi !! k) as [h|] eqn:Hh.
    2:{ apply lookup_ge_None in Hh. lia. }
    assert (bin_edge_step lo hi acc k = Ok (acc ++ [Edges l h])) as ->.
    { unfold bin_edge_step. by rewrite Hl, Hh. }
    unfold mbind, result_bind.
    replace n with (length lo - S k)%nat by lia. apply IH; lia.
Qed.

(** X9. [create_binned_variable] pairs the low and the high edges by
    position, as many as there are low edges: with at least as many high
    edges it returns a binned Variable with one edge pair per low edge (high
    edges beyond that are ignored), and with fewer high edges than low edges
    it raises IndexError. *)
Theorem create_binned_variable_bounds
    (n : string) (lo hi : list Q) (u : string) (indep : bool) :
  ((length lo <= length hi)%nat →
   ∃ var, create_binned_variable n lo hi u indep = Ok var ∧
          values var = zip_with Edges lo hi ∧
          length (values var) = length lo ∧
          is_binned var = true ∧ is_independent var = indep ∧
          uncertainties var = [] ∧ qualifiers var = []) ∧
  ((length hi < length lo)%nat →
   create_binned_variable n lo hi u indep = Raise IndexError).
Proof.
  split; intros Hlen; unfold create_binned_variable.
  - pose proof (for_each_bin_edges_enough lo hi Hlen (length lo) 0 []) as H.
    unfold bin_edge_step in H. rewrite H by lia. simpl.
    eexists. split; [reflexivity|]. simpl.
    split; [reflexivity|]. split; [|done].
    rewrite length_zip_with, !drop_0. lia.
  - pose proof (for_each_bin_edges_short lo hi Hlen (length hi) 0 []) as H.
    unfold bin_edge_step in H. rewrite !Nat.sub_0_r in H. rewrite H by lia.
    reflexivity.
Qed.

(** X10. A histogram that declares no bins, or a negative number of
    them, gives five empty sequences. *)
Theorem extract_histogram_data_empty (hist : TH1) :
  (GetNbinsX hist <= 0)%Z →
  extract_histogram_data hist
  = {| x_centers := []; x_low := []; x_high := []; y_values := []; y_errors := [] |}.
Proof.
  intros Hn. unfold extract_histogram_data, Py.range.
  replace (Z.to_nat (GetNbinsX hist + 1 - 1)) with 0%nat by lia.
  reflexivity.
Qed.

Lemma extract_histogram_data_empty_witness :
  x_low (extract_histogram_data (plain_hist "h" (-3))) = [].
Proof.
  rewrite (extract_histogram_data_empty (plain_hist "h" (-3))); [reflexivity|].
  simpl. lia.
Defined.

(** ** Outcomes of [process_single_figure] *)

Lemma attach_image_cases w table pdf_path table' :
  attach_image w table pdf_path = Ok table' →
  table' = table ∨ table' = add_image table pdf_path.
Proof.
  unfold attach_image. intros H.
  destruct (os_path_exists w pdf_path); [|left; by inversion H].
  destruct (check_imagemagick_available (run_convert_version w)) as [[]|]; simpl in H;
    try discriminate; [|left; by inversion H].
  destruct (add_image_raises w pdf_path); inversion H; auto.
Qed.

Lemma attach_image_raises w table pdf_path e :
  attach_image w table pdf_path = Raise e ↔
  os_path_exists w pdf_path = true ∧ run_convert_version w = OtherFailure ∧ e = OtherError.
Proof.
  unfold attach_image. split.
  - destruct (os_path_exists w pdf_path); [|discriminate].
    destruct (run_convert_version w) as [rc| | | |]; simpl;
      try (destruct (_ =? _)%Z); try discriminate.
    intros H. by inversion H.
  - intros (-> & -> & ->). reflexivity.
Qed.

Lemma process_single_figure_closed w submission path figure_name :
  no_histograms w path →
  process_single_figure w submission path figure_name = Ok (submission, false).
Proof.
  unfold no_histograms, process_single_figure.
  destruct (TFile_Open w path) as [[f|]|e]; cbn [mbind result_bind]; [|done..].
  intros [-> | Hc]; [done|].
  destruct (IsZombie f); [done|].
  destruct (Get f "c") as [c|]; [|done]. by rewrite Hc.
Qed.

Lemma process_single_figure_unopened w submission path figure_name e :
  TFile_Open w path = Raise e →
  process_single_figure w submission path figure_name = Raise e.
Proof. intros H. unfold process_single_figure. by rewrite H. Qed.

Lemma histograms_or_not w path :
  (∃ e, TFile_Open w path = Raise e) ∨ no_histograms w path ∨
  ∃ h hs, canvas_holds w path (h :: hs).
Proof.
  unfold no_histograms, canvas_holds.
  destruct (TFile_Open w path) as [[f|]|e]; [|right; by left | left; by exists e].
  right.
  destruct (IsZombie f) eqn:Hz; [left; by left|].
  destruct (Get f "c") as [c|] eqn:Hc; [|left; by right].
  destruct (collect_hists_from_canvas c) as [|h hs] eqn:Hh; [left; by right|].
  right. exists h, hs, f, c. done.
Qed.

Lemma canvas_excludes_no_histograms w path h hs :
  canvas_holds w path (h :: hs) → ¬ no_histograms w path.
Proof.
  intros (f & c & Hopen & Hz & Hc & Hh). unfold no_histograms.
  rewrite Hopen, Hc, Hh, Hz. intros [? | ?]; discriminate.
Qed.

Lemma canvas_excludes_unopened w path h hs e :
  canvas_holds w path (h :: hs) → TFile_Open w path ≠ Raise e.
Proof. intros (f & c & Hopen & _). by rewrite Hopen. Qed.

Lemma figure_table_name figure_name table retained :
  table_name (figure_table figure_name table retained) = table_name table.
Proof.
  unfold figure_table.
  assert (∀ t, table_name (fold_left (add_dependent figure_name) retained t) = table_name t)
    as Hfold.
  { induction retained as [|hist rest IH]; intros t; simpl; [done|]. by rewrite IH. }
  rewrite Hfold. by destruct retained.
Qed.

(** The outcome of a figure whose canvas holds histograms. *)
Lemma process_single_figure_held w submission path figure_name h hs :
  canvas_holds w path (h :: hs) →
  ((64 < Py.len figure_name)%nat ∧
   process_single_figure w submission path figure_name = Raise ValueError) ∨
  ((Py.len figure_name <= 64)%nat ∧
   os_path_exists w (root_pdf_path figure_name) = true ∧
   run_convert_version w = OtherFailure ∧
   process_single_figure w submission path figure_name = Raise OtherError) ∨
  ((Py.len figure_name <= 64)%nat ∧
   ¬ (os_path_exists w (root_pdf_path figure_name) = true ∧
      run_convert_version w = OtherFailure) ∧
   ∃ table,
     process_single_figure w submission path figure_name
       = Ok (add_table submission table, true) ∧
     table_name table = figure_name).
Proof.
  intros (f & c & Hopen & Hz & Hc & Hh).
  rewrite (process_single_figure_steps w submission path figure_name f c h hs) by done.
  destruct (new_Table_cases figure_name) as [[Hlen ->] | [Hlen ->]];
    cbn [mbind result_bind]; [|by left].
  right.
  destruct (attach_image w (header_table figure_name root_phrases)
              (root_pdf_path figure_name)) as [t1|e1] eqn:Hatt; cbn [mbind result_bind].
  - right. split; [done|]. split.
    + intros [Hex Hrun].
      assert (attach_image w (header_table figure_name root_phrases)
                (root_pdf_path figure_name) = Raise OtherError) as Hr
        by by apply attach_image_raises.
      congruence.
    + eexists. split; [reflexivity|].
      rewrite figure_table_name.
      apply attach_image_cases in Hatt as [-> | ->]; reflexivity.
  - left. apply attach_image_raises in Hatt as (Hex & Hrun & ->). done.
Qed.

(** X11. [process_single_figure] ends in one of three ways. It returns
    False, with the Submission as it was, exactly when the call that
    opens the ROOT file returns and the file gives no histogram (a null
    or a zombie file, no canvas "c", or an empty canvas). It returns True
    exactly with one Table, named after the figure, appended after the
    Tables that were there. It raises exactly in these cases: the call
    that opens the file raises, and its exception is passed on; there are
    histograms and the figure name has more than 64 characters, which
    [Table(figure_name)] refuses with ValueError; or there are
    histograms, the name is accepted, the figure's PDF exists and the
    probe of the image tool ends in an exception that
    [check_imagemagick_available] does not handle. *)
Theorem process_single_figure_outcomes
    (w : World) (submission : Submission) (path figure_name : string) :
  (process_single_figure w submission path figure_name = Ok (submission, false)
   ↔ no_histograms w path) ∧
  (∀ s, process_single_figure w submission path figure_name = Ok (s, false) →
        s = submission) ∧
  (∀ s, process_single_figure w submission path figure_name = Ok (s, true) →
        ∃ table, tables s = tables submission ++ [table] ∧
                 table_name table = figure_name ∧
                 (Py.len figure_name <= 64)%nat) ∧
  (∀ e, process_single_figure w submission path figure_name = Raise e ↔
        TFile_Open w path = Raise e ∨
        (∃ h hs, canvas_holds w path (h :: hs)) ∧
        ((64 < Py.len figure_name)%nat ∧ e = ValueError ∨
         (Py.len figure_name <= 64)%nat ∧
         os_path_exists w (root_pdf_path figure_name) = true ∧
         run_convert_version w = OtherFailure ∧ e = OtherError)).
Proof.
  destruct (histograms_or_not w path) as [[e0 Hraise] | [Hno | (h & hs & Hcan)]].
  - rewrite (process_single_figure_unopened _ _ _ _ _ Hraise).
    split; [split; [discriminate|]|].
    { unfold no_histograms. by rewrite Hraise. }
    split; [intros s [=]|]. split; [intros s [=]|].
    intros e. split.
    + intros [= <-]. by left.
    + intros [He | [(h & hs & Hcan) _]]; [congruence|].
      by apply (canvas_excludes_unopened _ _ _ _ e0) in Hcan.
  - pose proof (process_single_figure_closed w submission path figure_name Hno) as Hres.
    rewrite Hres. split; [done|]. split; [by intros s [= ->]|].
    split; [intros s [=]|]. intros e. split; [discriminate|].
    intros [He | [(h & hs & Hcan) _]].
    + unfold no_histograms in Hno. by rewrite He in Hno.
    + by apply canvas_excludes_no_histograms in Hcan.
  - pose proof (canvas_excludes_no_histograms w path h hs Hcan) as Hyes.
    assert (∀ e, TFile_Open w path ≠ Raise e) as Hopened
      by (intros e; by apply (canvas_excludes_unopened w path h hs)).
    destruct (process_single_figure_held w submission path figure_name h hs Hcan)
      as [[Hlen ->] | [(Hlen & Hex & Hrun & ->) | (Hlen & Hnot & table & -> & Hname)]].
    + split; [split; [discriminate | done]|]. split; [intros s [=]|].
      split; [intros s [=]|].
      intros e. split.
      * intros [= <-]. right. split; [by exists h, hs|]. by left.
      * intros [He | [_ [[_ ->] | (Hle & _)]]]; [by apply Hopened in He | done | lia].
    + split; [split; [discriminate | done]|]. split; [intros s [=]|].
      split; [intros s [=]|].
      intros e. split.
      * intros [= <-]. right. split; [by exists h, hs|]. by right.
      * intros [He | [_ [[Hgt _] | (_ & _ & _ & ->)]]];
          [by apply Hopened in He | lia | done].
    + split; [split; [discriminate | done]|]. split; [intros s [=]|].
      split.
      * intros s [= <-]. by exists table.
      * intros e. split; [discriminate|].
        intros [He | [_ [[Hgt _] | (_ & Hex & Hrun & _)]]];
          [by apply Hopened in He | lia | by destruct Hnot].
Qed.

(** ** Shape of the variables of a figure's Table *)

Lemma figure_table_split figure_name table retained :
  variables table = [] →
  independent_variables (figure_table figure_name table retained)
    = List.map (x_axis_variable figure_name) (take 1 retained) ∧
  dependent_variables (figure_table figure_name table retained)
    = List.map (dependent_variable_of figure_name) retained ∧
  variables (figure_table figure_name table retained)
    = independent_variables (figure_table figure_name table retained)
      ++ dependent_variables (figure_table figure_name table retained).
Proof.
  intros Hv.
  assert (independent_variables (figure_table figure_name table retained)
          = List.map (x_axis_variable figure_name) (take 1 retained)) as Hind.
  { unfold independent_variables.
    rewrite figure_table_variables, Hv, app_nil_l.
    rewrite List.filter_app, filter_dependents_none, app_nil_r.
    destruct retained; reflexivity. }
  assert (dependent_variables (figure_table figure_name table retained)
          = List.map (dependent_variable_of figure_name) retained) as Hdep.
  { unfold dependent_variables.
    rewrite figure_table_variables, Hv, app_nil_l.
    rewrite List.filter_app, filter_dependents_all.
    destruct retained; reflexivity. }
  split; [done|]. split; [done|].
  rewrite Hind, Hdep, figure_table_variables, Hv. by destruct retained.
Qed.

Lemma dependent_variable_of_shape figure_name hist :
  let var := dependent_variable_of figure_name hist in
  is_binned var = false ∧ units var = YStr "" ∧
  qualifiers var
    = [{| qual_name := YStr "SQRT(S)"; qual_value := YNum CME_default;
          qual_units := "TeV" |}] ∧
  (length (uncertainties var) <= 1)%nat ∧
  Forall (fun unc => label unc = "Statistical uncertainty" ∧ is_symmetric unc = true ∧
                     length (unc_values unc) = length (values var) ∧
                     Exists (fun err => (0 < err)%Q) (unc_values unc))
         (uncertainties var).
Proof.
  intros var. subst var. unfold dependent_variable_of, create_dependent_variable.
  destruct (Py.truthy _ && Py.any _ _) eqn:Hc; simpl.
  - repeat split; [lia|]. constructor; [|constructor]. simpl.
    apply andb_true_iff in Hc as [_ Hany%any_positive_spec].
    repeat split; [|done]. by rewrite !length_map.
  - repeat split; [lia | constructor].
Qed.

(** X12. In the Table that [process_single_figure] appends for a figure
    with histograms and a name of at most 64 characters, the variables
    are the independent one (at most one, binned, without uncertainty and
    without qualifier) followed by the dependent ones.
    Every dependent Variable is unbinned, has empty units and exactly the
    qualifier SQRT(S) = 13.6 TeV, and carries at most one Uncertainty;
    that Uncertainty is symmetric, is labelled "Statistical uncertainty",
    has one value per value of the Variable and at least one positive
    value. *)
Theorem process_single_figure_table_shape
    (w : World) (submission : Submission) (path figure_name : string)
    (h : TH1) (hs : list TH1) :
  (Py.len figure_name <= 64)%nat →
  canvas_holds w path (h :: hs) →
  probe_answers w →
  ∃ table,
    process_single_figure w submission path figure_name
      = Ok (add_table submission table, true) ∧
    variables table = independent_variables table ++ dependent_variables table ∧
    (length (independent_variables table) <= 1)%nat ∧
    Forall (fun var => is_binned var = true ∧ uncertainties var = [] ∧ qualifiers var = [])
           (independent_variables table) ∧
    Forall (fun var =>
              is_binned var = false ∧ units var = YStr "" ∧
              qualifiers var
                = [{| qual_name := YStr "SQRT(S)"; qual_value := YNum CME_default;
                      qual_units := "TeV" |}] ∧
              (length (uncertainties var) <= 1)%nat ∧
              Forall (fun unc =>
                        label unc = "Statistical uncertainty" ∧ is_symmetric unc = true ∧
                        length (unc_values unc) = length (values var) ∧
                        Exists (fun err => (0 < err)%Q) (unc_values unc))
                     (uncertainties var))
           (dependent_variables table).
Proof.
  intros Hlen Hcan Hp.
  destruct (process_single_figure_table w submission path figure_name h hs
              Hlen Hcan (or_intror Hp)) as (table & Himg & Hres).
  apply attach_image_fields in Himg as (Hv & _).
  rewrite header_table_variables in Hv.
  eexists. split; [exact Hres|].
  destruct (figure_table_split figure_name table (unique_histograms_of (h :: hs)) Hv)
    as (Hind & Hdep & Hall).
  split; [exact Hall|]. rewrite Hind, Hdep.
  split; [|split].
  - rewrite length_map, length_take. lia.
  - apply Forall_fmap, Forall_forall. by intros hist _.
  - apply Forall_fmap, Forall_forall. intros hist _.
    apply dependent_variable_of_shape.
Qed.

Lemma process_single_figure_table_shape_witness :
  ∃ table,
    process_single_figure four_object_world {| tables := [] |}
      "data_Alejandro/Figure99.root" "Figure99"
    = Ok (add_table {| tables := [] |} table, true) ∧
    variables table = independent_variables table ++ dependent_variables table.
Proof.
  destruct (process_single_figure_table_shape four_object_world {| tables := [] |}
              "data_Alejandro/Figure99.root" "Figure99"
              (plain_hist "pad_Ratio" 2)
              [plain_hist "X" 2; plain_hist "X_copy" 2; plain_hist "Y" 2])
    as (table & Hres & Hvars & _).
  - simpl. lia.
  - canvas_evidence.
  - probe_evidence.
  - exists table. split; [exact Hres | exact Hvars].
Defined.

(** ** Merge mode on any loaded value *)

Lemma add_variables_nil t : add_variables t [] = t.
Proof. unfold add_variables. rewrite app_nil_r. by destruct t. Qed.

Lemma add_variables_cons t var vars :
  add_variables (add_variable t var) vars = add_variables t (var :: vars).
Proof. unfold add_variables, add_variable. simpl. by rewrite <- app_assoc. Qed.

Lemma add_variables_app t vars vars' :
  add_variables (add_variables t vars) vars' = add_variables t (vars ++ vars').
Proof. unfold add_variables. simpl. by rewrite <- app_assoc. Qed.

Lemma for_each_extend (body : Table → yaml → result Table) (P : HepVariable → Prop) :
  (∀ t y t', body t y = Ok t' → ∃ var, t' = add_variable t var ∧ P var) →
  ∀ items t t',
    for_each body items t = Ok t' →
    ∃ vars, t' = add_variables t vars ∧ Forall P vars ∧ length vars = length items.
Proof.
  intros Hbody items. induction items as [|y items IH]; intros t t' H; simpl in H.
  - inversion H; subst. exists []. by rewrite add_variables_nil.
  - destruct (body t y) as [t1|] eqn:Hy; simpl in H; [|discriminate].
    destruct (Hbody _ _ _ Hy) as (var & -> & Hvar).
    destruct (IH _ _ H) as (vars & -> & Hvars & Hlen).
    exists (var :: vars). rewrite add_variables_cons.
    split; [done|]. split; [by constructor | simpl; lia].
Qed.

Lemma assign_values_ok var vs var' :
  assign_values var vs = Ok var' → ∃ vs', var' = set_values var vs'.
Proof.
  unfold assign_values. intros H.
  destruct (for_each _ vs []) as [vs'|]; cbn [mbind result_bind] in H; [|discriminate].
  injection H as <-. by exists vs'.
Qed.

Lemma add_independent_from_yaml_ok t y t' :
  add_independent_from_yaml t y = Ok t' →
  ∃ var, t' = add_variable t var ∧ merged_independent_shape var.
Proof.
  unfold add_independent_from_yaml. intros H.
  destruct (py_getitem y "header") as [header|]; cbn [mbind result_bind] in H;
    [|discriminate].
  destruct (py_getitem header "name") as [nm|]; cbn [mbind result_bind] in H;
    [|discriminate].
  destruct (py_get header "units" (YStr "")) as [un|]; cbn [mbind result_bind] in H;
    [|discriminate].
  destruct (py_getitem y "values") as [vals|]; cbn [mbind result_bind] in H;
    [|discriminate].
  destruct (value_column vals) as [vs|]; cbn [mbind result_bind] in H; [|discriminate].
  destruct (assign_values _ vs) as [var|] eqn:Hv; cbn [mbind result_bind] in H;
    [|discriminate].
  apply assign_values_ok in Hv as [vs' ->].
  inversion H; subst. eexists. split; [reflexivity|]. by repeat split.
Qed.

Lemma add_qualifiers_ok quals :
  ∀ var var',
    for_each add_qualifier_from_yaml quals var = Ok var' →
    is_independent var' = is_independent var ∧ is_binned var' = is_binned var ∧
    units var' = units var ∧ uncertainties var' = uncertainties var ∧
    (Forall (fun q => qual_units q = "") (qualifiers var) →
     Forall (fun q => qual_units q = "") (qualifiers var')).
Proof.
  induction quals as [|q quals IH]; intros var var' H; cbn [for_each] in H.
  - inversion H; subst. done.
  - destruct (add_qualifier_from_yaml var q) as [var1|] eqn:Hq1;
      cbn [mbind result_bind] in H; [|discriminate].
    unfold add_qualifier_from_yaml, mbind, result_bind in Hq1.
    destruct (py_getitem q "name") as [n|]; [|discriminate].
    destruct (py_getitem q "value") as [v|]; [|discriminate].
    inversion Hq1; subst var1.
    apply IH in H as (-> & -> & -> & -> & Hq). cbn [add_qualifier is_independent
      is_binned units uncertainties qualifiers] in *.
    repeat split. intros Hall. apply Hq.
    apply Forall_app. split; [done|]. by constructor.
Qed.

Lemma add_dependent_from_yaml_ok t y t' :
  add_dependent_from_yaml t y = Ok t' →
  ∃ var, t' = add_variable t var ∧ merged_dependent_shape var.
Proof.
  unfold add_dependent_from_yaml. intros H.
  destruct (py_getitem y "header") as [header|]; cbn [mbind result_bind] in H;
    [|discriminate].
  destruct (py_getitem header "name") as [nm|]; cbn [mbind result_bind] in H;
    [|discriminate].
  destruct (py_getitem y "values") as [vals|]; cbn [mbind result_bind] in H;
    [|discriminate].
  destruct (py_get y "qualifiers" (YSeq [])) as [qs|]; cbn [mbind result_bind] in H;
    [|discriminate].
  destruct (value_column vals) as [vs|]; cbn [mbind result_bind] in H; [|discriminate].
  destruct (assign_values _ vs) as [var0|] eqn:Hv; cbn [mbind result_bind] in H;
    [|discriminate].
  apply assign_values_ok in Hv as [vs' ->].
  destruct (py_iter qs) as [quals|]; cbn [mbind result_bind] in H; [|discriminate].
  destruct (for_each add_qualifier_from_yaml quals _) as [var|] eqn:Hq;
    cbn [mbind result_bind] in H; [|discriminate].
  inversion H; subst. eexists. split; [reflexivity|].
  apply add_qualifiers_ok in Hq as (? & ? & ? & ? & Hall).
  unfold merged_dependent_shape. repeat split; try done. apply Hall. constructor.
Qed.

Lemma merge_variables_ok (body : Table → yaml → result Table) (P : HepVariable → Prop)
    (key : string) (content : yaml) (has : bool) (t t' : Table) :
  (∀ t y t', body t y = Ok t' → ∃ var, t' = add_variable t var ∧ P var) →
  (if has then
     vars ← py_getitem content key;
     items ← py_iter vars;
     for_each body items t
   else Ok t) = Ok t' →
  ∃ vars, t' = add_variables t vars ∧ Forall P vars.
Proof.
  intros Hbody H. destruct has.
  - destruct (py_getitem content key) as [vars|]; cbn [mbind result_bind] in H;
      [|discriminate].
    destruct (py_iter vars) as [items|]; cbn [mbind result_bind] in H; [|discriminate].
    destruct (for_each_extend body P Hbody _ _ _ H) as (vs & -> & Hvs & _). eauto.
  - inversion H; subst. exists []. by rewrite add_variables_nil.
Qed.

Lemma process_existing_yaml_body_ok w submission path figure_name r :
  process_existing_yaml_body w submission path figure_name = Ok r →
  ∃ content t1 ivs dvs,
    safe_load_file w path = Ok content ∧
    attach_image w (header_table figure_name merge_phrases) (merge_pdf_path figure_name)
      = Ok t1 ∧
    Forall merged_independent_shape ivs ∧ Forall merged_dependent_shape dvs ∧
    r = (add_table submission (add_variables t1 (ivs ++ dvs)), true).
Proof.
  unfold process_existing_yaml_body. intros H.
  destruct (safe_load_file w path) as [content|]; cbn [mbind result_bind] in H;
    [|discriminate].
  destruct (new_Table_cases figure_name) as [[_ Hnew] | [_ Hnew]];
    rewrite Hnew in H; cbn [mbind result_bind] in H; [|discriminate].
  rewrite getitem_description in H. cbn [mbind result_bind] in H.
  rewrite getitem_location in H. cbn [mbind result_bind] in H.
  fold merge_phrases in H. fold (merge_pdf_path figure_name) in H.
  fold (header_table figure_name merge_phrases) in H.
  destruct (attach_image w _ _) as [t1|]; cbn [mbind result_bind] in H; [|discriminate].
  destruct (py_in "independent_variables" content) as [hi|];
    cbn [mbind result_bind] in H; [|discriminate].
  match type of H with
  | mbind _ ?x = _ =>
      destruct x as [t2|] eqn:Hind; cbn [mbind result_bind] in H; [|discriminate]
  end.
  apply (merge_variables_ok _ merged_independent_shape) in Hind
    as (ivs & -> & Hivs); [|apply add_independent_from_yaml_ok].
  destruct (py_in "dependent_variables" content) as [hd|];
    cbn [mbind result_bind] in H; [|discriminate].
  match type of H with
  | mbind _ ?x = _ =>
      destruct x as [t3|] eqn:Hdep; cbn [mbind result_bind] in H; [|discriminate]
  end.
  apply (merge_variables_ok _ merged_dependent_shape) in Hdep
    as (dvs & -> & Hdvs); [|apply add_dependent_from_yaml_ok].
  inversion H; subst. exists content, t1, ivs, dvs.
  by rewrite add_variables_app.
Qed.

Lemma merge_header_name w figure_name t1 :
  attach_image w (header_table figure_name merge_phrases) (merge_pdf_path figure_name)
    = Ok t1 →
  table_name t1 = figure_name ∧ variables t1 = [].
Proof. intros [-> | ->]%attach_image_cases; done. Qed.

(** X13. Merge mode is all or nothing and never raises: either the
    Submission stays as it was and the figure is reported as failed, or
    exactly one Table, named after the figure, is appended and the figure
    is reported as processed. Whatever the record holds, the appended
    Table lists its independent variables before its dependent ones, no
    merged Variable is binned or carries an Uncertainty, an independent one
    has no qualifier, and a dependent one has empty units and qualifiers
    without units. A record file that does not exist is a failure. *)
Theorem process_existing_yaml_file_atomic
    (w : World) (submission : Submission) (path figure_name : string) :
  (process_existing_yaml_file w submission path figure_name = (submission, false)
   ∨ ∃ table ivs dvs,
       process_existing_yaml_file w submission path figure_name
         = (add_table submission table, true) ∧
       table_name table = figure_name ∧
       variables table = ivs ++ dvs ∧
       Forall merged_independent_shape ivs ∧
       Forall merged_dependent_shape dvs) ∧
  (os_path_exists w path = false →
   process_existing_yaml_file w submission path figure_name = (submission, false)).
Proof.
  unfold process_existing_yaml_file. split.
  - destruct (os_path_exists w path); [|by left]. simpl.
    destruct (process_existing_yaml_body w submission path figure_name) as [r|] eqn:Hb;
      [|by left].
    apply process_existing_yaml_body_ok in Hb
      as (content & t1 & ivs & dvs & _ & Himg & Hivs & Hdvs & ->).
    apply merge_header_name in Himg as [Hn Hv].
    right. exists (add_variables t1 (ivs ++ dvs)), ivs, dvs.
    split; [done|]. split; [done|]. split; [|done].
    simpl. by rewrite Hv.
  - by intros ->.
Qed.

Lemma process_existing_yaml_body_long w submission path figure_name :
  (64 < Py.len figure_name)%nat →
  ∃ e, process_existing_yaml_body w submission path figure_name = Raise e.
Proof.
  intros Hlen. unfold process_existing_yaml_body.
  destruct (safe_load_file w path) as [content|e]; cbn [mbind result_bind]; [|by exists e].
  rewrite (new_Table_long _ Hlen). by exists ValueError.
Qed.

Lemma process_existing_yaml_body_short w submission path figure_name r :
  process_existing_yaml_body w submission path figure_name = Ok r →
  (Py.len figure_name <= 64)%nat.
Proof.
  intros H. destruct (Nat.le_gt_cases (Py.len figure_name) 64) as [Hlen | Hlen]; [done|].
  destruct (process_existing_yaml_body_long w submission path figure_name Hlen) as [e He].
  congruence.
Qed.

Lemma process_existing_yaml_body_loaded w submission path figure_name content t1 :
  (Py.len figure_name <= 64)%nat →
  safe_load_file w path = Ok content →
  attach_image w (header_table figure_name merge_phrases) (merge_pdf_path figure_name)
    = Ok t1 →
  process_existing_yaml_body w submission path figure_name =
    (has_independent ← py_in "independent_variables" content;
     table ←
       (if (has_independent : bool) then
          vars ← py_getitem content "independent_variables";
          items ← py_iter vars;
          for_each add_independent_from_yaml items t1
        else Ok t1);
     has_dependent ← py_in "dependent_variables" content;
     table ←
       (if (has_dependent : bool) then
          vars ← py_getitem content "dependent_variables";
          items ← py_iter vars;
          for_each add_dependent_from_yaml items table
        else Ok table);
     Ok (add_table submission table, true)).
Proof.
  intros Hlen Hload Himg. unfold process_existing_yaml_body.
  rewrite Hload. cbn [mbind result_bind].
  rewrite (new_Table_ok _ Hlen). cbn [mbind result_bind].
  rewrite getitem_description. cbn [mbind result_bind].
  rewrite getitem_location. cbn [mbind result_bind].
  fold merge_phrases. fold (merge_pdf_path figure_name).
  fold (header_table figure_name merge_phrases). rewrite Himg. reflexivity.
Qed.

Lemma merge_image_attached w figure_name :
  os_path_exists w (merge_pdf_path figure_name) = false ∨ probe_answers w →
  ∃ t1, attach_image w (header_table figure_name merge_phrases)
          (merge_pdf_path figure_name) = Ok t1.
Proof.
  intros [Hmiss | Hprobe].
  - eexists. by apply attach_image_missing.
  - destruct (probe_answers_check w Hprobe) as [b Hb].
    eexists. by apply attach_image_probed.
Qed.

(** X14. What merge mode makes of a file that is not a record. A file
    that loads to nothing, to a truth value or to a number is a failure
    and the Submission stays as it was. A file that loads to a value in
    which neither key is found (a mapping without the two keys, a list
    without the two strings, a text without the two words) is a success
    when the figure name has at most 64 characters: a Table without any
    Variable is appended. *)
Theorem process_existing_yaml_file_not_a_record
    (w : World) (submission : Submission) (path figure_name : string) (content : yaml) :
  os_path_exists w path = true →
  safe_load_file w path = Ok content →
  os_path_exists w (merge_pdf_path figure_name) = false ∨ probe_answers w →
  ((content = YNull ∨ (∃ b, content = YBool b) ∨ (∃ q, content = YNum q)) →
   process_existing_yaml_file w submission path figure_name = (submission, false)) ∧
  ((Py.len figure_name <= 64)%nat →
   py_in "independent_variables" content = Ok false →
   py_in "dependent_variables" content = Ok false →
   ∃ table,
     process_existing_yaml_file w submission path figure_name
       = (add_table submission table, true) ∧
     variables table = []).
Proof.
  intros Hex Hload Himg.
  destruct (merge_image_attached w figure_name Himg) as [t1 Ht1].
  unfold process_existing_yaml_file. rewrite Hex. simpl.
  split.
  - intros Hcontent.
    destruct (Nat.le_gt_cases (Py.len figure_name) 64) as [Hlen | Hlen].
    + rewrite (process_existing_yaml_body_loaded _ _ _ _ content t1) by done.
      destruct Hcontent as [-> | [[b ->] | [q ->]]]; reflexivity.
    + by destruct (process_existing_yaml_body_long w submission path figure_name Hlen)
        as [e ->].
  - intros Hlen Hi Hd.
    rewrite (process_existing_yaml_body_loaded _ _ _ _ content t1) by done.
    rewrite Hi, Hd. cbn [mbind result_bind].
    eexists. split; [reflexivity|]. by apply merge_header_name in Ht1 as [_ ->].
Qed.

Lemma process_existing_yaml_file_not_a_record_witness :
  ∃ table,
    process_existing_yaml_file
      {| TFile_Open := fun _ => Ok None; os_path_exists := fun _ => true;
         run_convert_version := Completed 1;
         safe_load_file := fun _ => Ok (YSeq [YNum 1; YStr "text"]);
         add_image_raises := fun _ => false |}
      {| tables := [] |} "notes.yaml" "notes"
    = (add_table {| tables := [] |} table, true) ∧
    variables table = [].
Proof.
  apply (process_existing_yaml_file_not_a_record _ {| tables := [] |} "notes.yaml" "notes"
           (YSeq [YNum 1; YStr "text"])).
  - reflexivity.
  - reflexivity.
  - right. unfold probe_answers. simpl. discriminate.
  - simpl. lia.
  - reflexivity.
  - reflexivity.
Defined.

(** X15. In merge mode an image probe that ends in an exception the
    probe does not handle costs the figure: when the record file and the
    figure's PDF exist, the figure is reported as failed and nothing is
    appended, whatever the record holds. *)
Theorem merge_mode_probe_exception_loses_figure
    (w : World) (submission : Submission) (path figure_name : string) :
  os_path_exists w path = true →
  os_path_exists w (merge_pdf_path figure_name) = true →
  run_convert_version w = OtherFailure →
  process_existing_yaml_file w submission path figure_name = (submission, false).
Proof.
  intros Hex Hpdf Hrun.
  unfold process_existing_yaml_file. rewrite Hex. simpl.
  destruct (process_existing_yaml_body w submission path figure_name) as [r|] eqn:Hb;
    [|done].
  apply process_existing_yaml_body_ok in Hb as (? & t1 & ? & ? & _ & Himg & _).
  assert (attach_image w (header_table figure_name merge_phrases)
            (merge_pdf_path figure_name) = Raise OtherError) as Hr
    by by apply attach_image_raises.
  congruence.
Qed.

Lemma merge_mode_probe_exception_loses_figure_witness :
  process_existing_yaml_file
    {| TFile_Open := fun _ => Ok None; os_path_exists := fun _ => true;
       run_convert_version := OtherFailure;
       safe_load_file := fun _ => Ok (load_record
         {| rec_independent := [sample_independent "x"];
            rec_dependent := [sample_dependent] |});
       add_image_raises := fun _ => false |}
    {| tables := [] |} "fig.yaml" "Figure40"
  = ({| tables := [] |}, false).
Proof.
  apply merge_mode_probe_exception_loses_figure; reflexivity.
Defined.

(** X16. Merge mode finds the two lists by their keys: other keys of
    the record and the order of the keys in the file do not matter, and a
    key that is missing counts as an empty list. For a figure name of at
    most 64 characters the Table is appended, and it gets the independent
    variables first, whatever the order in the file. *)
Theorem merge_mode_reads_keys_by_name
    (w : World) (submission : Submission) (path figure_name : string)
    (entries : list (string * yaml))
    (oi : option (list IndependentEntry)) (od : option (list DependentEntry)) :
  (Py.len figure_name <= 64)%nat →
  os_path_exists w path = true →
  safe_load_file w path = Ok (YMap entries) →
  os_path_exists w (merge_pdf_path figure_name) = false ∨ probe_answers w →
  assoc "independent_variables" entries
    = (fun l => YSeq (List.map load_independent l)) <$> oi →
  assoc "dependent_variables" entries
    = (fun l => YSeq (List.map load_dependent l)) <$> od →
  ∃ table,
    process_existing_yaml_file w submission path figure_name
      = (add_table submission table, true) ∧
    variables table
      = List.map merged_independent (default [] oi)
        ++ List.map merged_dependent (default [] od).
Proof.
  intros Hlen Hex Hload Himg Hi Hd.
  destruct (merge_image_attached w figure_name Himg) as [t1 Ht1].
  unfold process_existing_yaml_file. rewrite Hex. simpl.
  rewrite (process_existing_yaml_body_loaded _ _ _ _ (YMap entries) t1) by done.
  apply merge_header_name in Ht1 as [_ Hv].
  unfold py_in, py_getitem. rewrite Hi, Hd.
  destruct oi as [ivs|], od as [dvs|]; simpl;
    rewrite ?(for_each_map _ _ (fun t i => add_variable t (merged_independent i)))
      by apply add_independent_from_yaml_loaded;
    simpl;
    rewrite ?(for_each_map _ _ (fun t d => add_variable t (merged_dependent d)))
      by apply add_dependent_from_yaml_loaded;
    simpl; (eexists; split; [reflexivity|]);
    rewrite ?fold_add_variable; simpl; rewrite ?fold_add_variable; simpl;
    rewrite Hv; simpl; by rewrite ?app_nil_r.
Qed.

Lemma merge_mode_reads_keys_by_name_witness :
  ∃ table,
    process_existing_yaml_file
      {| TFile_Open := fun _ => Ok None; os_path_exists := fun p => String.eqb p "fig.yaml";
         run_convert_version := Completed 0;
         safe_load_file := fun _ =>
           Ok (YMap [("comment", YStr "made by hand");
                     ("dependent_variables", YSeq [load_dependent sample_dependent]);
                     ("independent_variables", YSeq [load_independent (sample_independent "x")])]);
         add_image_raises := fun _ => false |}
      {| tables := [] |} "fig.yaml" "Figure40"
    = (add_table {| tables := [] |} table, true) ∧
    variables table
    = [merged_independent (sample_independent "x"); merged_dependent sample_dependent].
Proof.
  apply (merge_mode_reads_keys_by_name _ {| tables := [] |} "fig.yaml" "Figure40"
           [("comment", YStr "made by hand");
            ("dependent_variables", YSeq [load_dependent sample_dependent]);
            ("independent_variables", YSeq [load_independent (sample_independent "x")])]
           (Some [sample_independent "x"]) (Some [sample_dependent])).
  - simpl. lia.
  - reflexivity.
  - reflexivity.
  - left. reflexivity.
  - reflexivity.
  - reflexivity.
Defined.

(** ** Entries without a value *)

Lemma for_each_ok_each {A S} (body : S → A → result S) (l : list A) :
  ∀ s s', for_each body l s = Ok s' → Forall (fun x => ∃ s1 s2, body s1 x = Ok s2) l.
Proof.
  induction l as [|x l IH]; intros s s' H; [constructor|].
  cbn [for_each] in H.
  destruct (body s x) as [s1|] eqn:Hx; cbn [mbind result_bind] in H; [|discriminate].
  constructor; [eauto | by eapply IH].
Qed.

Lemma value_column_ok_each vals vs :
  value_column (YSeq vals) = Ok vs →
  Forall (fun v => ∃ x, py_getitem v "value" = Ok x) vals.
Proof.
  unfold value_column. cbn [py_iter mbind result_bind]. intros H.
  apply for_each_ok_each in H. eapply Forall_impl; [exact H|].
  intros v (s1 & s2 & Hv). simpl in Hv.
  destruct (py_getitem v "value") as [x|]; [eauto | discriminate].
Qed.

Lemma add_independent_values t item t' vals :
  add_independent_from_yaml t item = Ok t' →
  py_getitem item "values" = Ok (YSeq vals) →
  Forall (fun v => ∃ x, py_getitem v "value" = Ok x) vals.
Proof.
  unfold add_independent_from_yaml. intros H Hvals.
  destruct (py_getitem item "header") as [header|]; cbn [mbind result_bind] in H;
    [|discriminate].
  destruct (py_getitem header "name") as [nm|]; cbn [mbind result_bind] in H;
    [|discriminate].
  destruct (py_get header "units" (YStr "")) as [un|]; cbn [mbind result_bind] in H;
    [|discriminate].
  rewrite Hvals in H. cbn [mbind result_bind] in H.
  destruct (value_column (YSeq vals)) as [vs|] eqn:Hc; [|discriminate].
  by eapply value_column_ok_each.
Qed.

Lemma add_dependent_values t item t' vals :
  add_dependent_from_yaml t item = Ok t' →
  py_getitem item "values" = Ok (YSeq vals) →
  Forall (fun v => ∃ x, py_getitem v "value" = Ok x) vals.
Proof.
  unfold add_dependent_from_yaml. intros H Hvals.
  destruct (py_getitem item "header") as [header|]; cbn [mbind result_bind] in H;
    [|discriminate].
  destruct (py_getitem header "name") as [nm|]; cbn [mbind result_bind] in H;
    [|discriminate].
  rewrite Hvals in H. cbn [mbind result_bind] in H.
  destruct (py_get item "qualifiers" (YSeq [])) as [qs|]; cbn [mbind result_bind] in H;
    [|discriminate].
  destruct (value_column (YSeq vals)) as [vs|] eqn:Hc; [|discriminate].
  by eapply value_column_ok_each.
Qed.

Lemma merge_step_items (body : Table → yaml → result Table)
    (key : string) (entries : list (string * yaml)) (items : list yaml)
    (has : bool) (t t' : Table) :
  assoc key entries = Some (YSeq items) →
  py_in key (YMap entries) = Ok has →
  (if has then
     vars ← py_getitem (YMap entries) key;
     its ← py_iter vars;
     for_each body its t
   else Ok t) = Ok t' →
  Forall (fun y => ∃ t1 t2, body t1 y = Ok t2) items.
Proof.
  intros Hk. unfold py_in, py_getitem. rewrite Hk.
  rewrite bool_decide_eq_true_2 by eauto. intros [= <-].
  cbn [mbind result_bind py_iter]. apply for_each_ok_each.
Qed.

(** X17. A record in which some value entry of a variable has no
    ["value"] key, as the entries of a binned variable with their low and
    high edges, is not merged at all: the figure is reported as failed
    and nothing is appended, also when all the other variables are in
    order. *)
Theorem merge_mode_rejects_entry_without_value
    (w : World) (submission : Submission) (path figure_name key : string)
    (entries : list (string * yaml)) (items vals : list yaml) (item v : yaml) :
  os_path_exists w path = true →
  safe_load_file w path = Ok (YMap entries) →
  key = "independent_variables" ∨ key = "dependent_variables" →
  assoc key entries = Some (YSeq items) →
  item ∈ items →
  py_getitem item "values" = Ok (YSeq vals) →
  v ∈ vals →
  lacks_value v →
  process_existing_yaml_file w submission path figure_name = (submission, false).
Proof.
  intros Hex Hload Hkey Hk Hitem Hvals Hv (ventries & -> & Hnone).
  unfold process_existing_yaml_file. rewrite Hex. simpl.
  destruct (process_existing_yaml_body w submission path figure_name) as [r|] eqn:Hb;
    [|done].
  exfalso.
  assert (Forall (fun v => ∃ x, py_getitem v "value" = Ok x) vals) as Hall.
  2:{ rewrite Forall_forall in Hall. destruct (Hall _ Hv) as [x Hx].
      simpl in Hx. by rewrite Hnone in Hx. }
  pose proof Hb as Hb'.
  pose proof (process_existing_yaml_body_short _ _ _ _ _ Hb) as Hlen.
  apply process_existing_yaml_body_ok in Hb' as (content & t1 & _ & _ & Hc & Himg & _).
  rewrite Hload in Hc. injection Hc as <-.
  rewrite (process_existing_yaml_body_loaded _ _ _ _ (YMap entries) t1) in Hb by done.
  destruct (py_in "independent_variables" (YMap entries)) as [hi|] eqn:Hpi;
    cbn [mbind result_bind] in Hb; [|discriminate].
  match type of Hb with
  | mbind _ ?x = _ =>
      destruct x as [t2|] eqn:Hind; cbn [mbind result_bind] in Hb; [|discriminate]
  end.
  destruct (py_in "dependent_variables" (YMap entries)) as [hd|] eqn:Hpd;
    cbn [mbind result_bind] in Hb; [|discriminate].
  match type of Hb with
  | mbind _ ?x = _ =>
      destruct x as [t3|] eqn:Hdep; cbn [mbind result_bind] in Hb; [|discriminate]
  end.
  destruct Hkey as [-> | ->].
  - pose proof (merge_step_items _ _ _ _ _ _ _ Hk Hpi Hind) as Hitems.
    rewrite Forall_forall in Hitems. destruct (Hitems _ Hitem) as (ta & tb & Hstep).
    by eapply add_independent_values.
  - pose proof (merge_step_items _ _ _ _ _ _ _ Hk Hpd Hdep) as Hitems.
    rewrite Forall_forall in Hitems. destruct (Hitems _ Hitem) as (ta & tb & Hstep).
    by eapply add_dependent_values.
Qed.

Lemma merge_mode_rejects_entry_without_value_witness :
  process_existing_yaml_file
    {| TFile_Open := fun _ => Ok None; os_path_exists := fun p => String.eqb p "fig.yaml";
       run_convert_version := Completed 0;
       safe_load_file := fun _ =>
         Ok (YMap [("independent_variables",
                    YSeq [YMap [("header", YMap [("name", YStr "x")]);
                                ("values", YSeq [YMap [("low", YNum 0); ("high", YNum 1)]])]]);
                   ("dependent_variables", YSeq [load_dependent sample_dependent])]);
       add_image_raises := fun _ => false |}
    {| tables := [] |} "fig.yaml" "Figure40"
  = ({| tables := [] |}, false).
Proof.
  eapply (merge_mode_rejects_entry_without_value _ _ "fig.yaml" "Figure40"
            "independent_variables").
  - reflexivity.
  - reflexivity.
  - left. reflexivity.
  - reflexivity.
  - left.
  - reflexivity.
  - left.
  - eexists. split; reflexivity.
Defined.

(** ** The figure loops of [main] *)

Lemma process_single_figure_cases w submission path figure_name s ok :
  process_single_figure w submission path figure_name = Ok (s, ok) →
  (ok = false ∧ s = submission) ∨
  (ok = true ∧ ∃ table, tables s = tables submission ++ [table] ∧
                        table_name table = figure_name).
Proof.
  intros H.
  destruct (histograms_or_not w path) as [[e Hraise] | [Hno | (h & hs & Hcan)]].
  - rewrite (process_single_figure_unopened _ _ _ _ _ Hraise) in H. discriminate.
  - rewrite (process_single_figure_closed _ _ _ _ Hno) in H.
    injection H as <- <-. by left.
  - destruct (process_single_figure_held w submission path figure_name h hs Hcan)
      as [[_ Hr] | [(_ & _ & _ & Hr) | (_ & _ & table & Hr & Hname)]];
      rewrite Hr in H; try discriminate.
    injection H as <- <-. right. split; [done|]. by exists table.
Qed.

Lemma process_single_figure_returns w submission path figure_name :
  probe_answers w →
  (∃ opened, TFile_Open w path = Ok opened) →
  (Py.len figure_name <= 64)%nat →
  ∃ r, process_single_figure w submission path figure_name = Ok r.
Proof.
  intros Hp [opened Hopen] Hlen.
  destruct (histograms_or_not w path) as [[e Hraise] | [Hno | (h & hs & Hcan)]].
  - congruence.
  - eexists. by apply process_single_figure_closed.
  - destruct (process_single_figure_table w submission path figure_name h hs Hlen Hcan
                (or_intror Hp)) as (table & _ & Hres).
    eauto.
Qed.

Lemma process_existing_yaml_file_cases w submission path figure_name :
  process_existing_yaml_file w submission path figure_name = (submission, false) ∨
  ∃ table, process_existing_yaml_file w submission path figure_name
             = (add_table submission table, true) ∧
           table_name table = figure_name.
Proof.
  unfold process_existing_yaml_file.
  destruct (os_path_exists w path); [|by left]. simpl.
  destruct (process_existing_yaml_body w submission path figure_name) as [r|] eqn:Hb;
    [|by left].
  apply process_existing_yaml_body_ok in Hb
    as (content & t1 & ivs & dvs & _ & Himg & _ & _ & ->).
  apply merge_header_name in Himg as [Hn _].
  right. eexists. split; [reflexivity | done].
Qed.

Lemma root_loop_tally w (files : list string) :
  ∀ st st',
    for_each (root_figure_step w) files st = Ok st' →
    ∃ added,
      tables (fst st') = tables (fst st) ++ added ∧
      snd st' = (snd st + Z.of_nat (length added))%Z ∧
      (length added <= length files)%nat ∧
      Forall (fun t => ∃ file, file ∈ files ∧ table_name t = Py.replace ".root" "" file)
             added.
Proof.
  induction files as [|file files IH]; intros st st' H; cbn [for_each] in H.
  - injection H as <-. exists []. rewrite app_nil_r. simpl.
    repeat split; [lia | lia | constructor].
  - destruct (root_figure_step w st file) as [st1|] eqn:Hstep;
      cbn [mbind result_bind] in H; [|discriminate].
    destruct (IH _ _ H) as (added & Ht & Hn & Hlen & Hnames).
    assert (Forall (fun t => ∃ f, f ∈ file :: files ∧
                                  table_name t = Py.replace ".root" "" f) added) as Hnames'.
    { eapply Forall_impl; [exact Hnames|]. intros t (f & Hf & Hname).
      exists f. split; [by right | done]. }
    unfold root_figure_step in Hstep.
    destruct (process_single_figure w (fst st) _ _) as [[s ok]|] eqn:Hpsf; [|discriminate].
    injection Hstep as <-. simpl in Ht, Hn.
    apply process_single_figure_cases in Hpsf as [[-> ->] | [-> (t & Hs & Hname)]].
    + exists added. repeat split; [done | done | simpl; lia | done].
    + exists (t :: added). rewrite Ht, Hs, <- app_assoc. simpl.
      repeat split; [lia | lia |].
      constructor; [|done]. exists file. split; [left | done].
Qed.

Lemma root_loop_returns w (files : list string) :
  probe_answers w →
  Forall (usable_root_file w) files →
  ∀ st, ∃ st', for_each (root_figure_step w) files st = Ok st'.
Proof.
  intros Hp Hfiles.
  induction files as [|file files IH]; intros st; cbn [for_each]; [eauto|].
  apply Forall_cons in Hfiles as [[Hopen Hlen] Hfiles].
  destruct (process_single_figure_returns w (fst st)
              (os_path_join data_dir file) (Py.replace ".root" "" file) Hp Hopen Hlen)
    as [r Hr].
  assert (root_figure_step w st file
          = Ok (fst r, if snd r then (snd st + 1)%Z else snd st)) as ->.
  { unfold root_figure_step. by rewrite Hr. }
  cbn [mbind result_bind]. by apply IH.
Qed.

Lemma elem_of_sort_names (name : string) (names : list string) :
  name ∈ sort_names names ↔ name ∈ names.
Proof. unfold sort_names. by rewrite merge_sort_Permutation. Qed.

Lemma endswith_filter (suffix name : string) (names : list string) :
  name ∈ sort_names (List.filter (endswith suffix) names) →
  name ∈ names ∧ endswith suffix name = true.
Proof.
  rewrite elem_of_sort_names, list_elem_of_In, filter_In, <- list_elem_of_In. done.
Qed.

(** X18. The loop of [main] over the ROOT files keeps the tally in step
    with the Submission: when the directory can be listed, the image
    probe ends in one of the ways the script handles, and for every
    listed file whose name ends in ".root" the call that opens it returns
    and the figure name has at most 64 characters, the loop ends
    normally, the Tables that were there stay in front, and
    [successful_figures] grows by exactly the number of Tables appended.
    There is at most one new Table per listed file whose name ends in
    ".root", and each new Table is named after such a file, with ".root"
    taken out of the name. *)
Theorem process_root_files_tally
    (w : World) (d : Directories) (names : list string)
    (submission : Submission) (successful_figures : Z) :
  os_listdir d data_dir = Ok names →
  probe_answers w →
  Forall (usable_root_file w) (List.filter (endswith ".root") names) →
  ∃ submission' added,
    process_root_files w d (submission, successful_figures)
      = Ok (submission', (successful_figures + Z.of_nat (length added))%Z) ∧
    tables submission' = tables submission ++ added ∧
    (length added <= length (List.filter (endswith ".root") names))%nat ∧
    Forall (fun t => ∃ file, file ∈ names ∧ endswith ".root" file = true ∧
                             table_name t = Py.replace ".root" "" file)
           added.
Proof.
  intros Hlist Hp Hfiles.
  unfold process_root_files. rewrite Hlist. cbn [mbind result_bind].
  assert (Forall (usable_root_file w)
            (sort_names (List.filter (endswith ".root") names))) as Hsorted.
  { unfold sort_names. by rewrite merge_sort_Permutation. }
  destruct (root_loop_returns w (sort_names (List.filter (endswith ".root") names)) Hp
              Hsorted (submission, successful_figures)) as [[s' n'] Hloop].
  rewrite Hloop.
  apply root_loop_tally in Hloop as (added & Ht & Hn & Hlen & Hnames).
  simpl in Ht, Hn. subst n'. exists s', added.
  split; [done|]. split; [done|]. split.
  - unfold sort_names in Hlen. by rewrite merge_sort_Permutation in Hlen.
  - eapply Forall_impl; [exact Hnames|]. intros t (file & Hfile & Hname).
    apply endswith_filter in Hfile as [? ?]. eauto.
Qed.

(** A directory with two ROOT files and a file of another kind. *)
Lemma process_root_files_tally_witness :
  ∃ submission' added,
    process_root_files four_object_world
      {| os_listdir := fun _ => Ok ["b.root"; "notes.txt"; "a.root"] |}
      ({| tables := [] |}, 0%Z)
    = Ok (submission', (0 + Z.of_nat (length added))%Z) ∧
    tables submission' = [] ++ added.
Proof.
  destruct (process_root_files_tally four_object_world
              {| os_listdir := fun _ => Ok ["b.root"; "notes.txt"; "a.root"] |}
              ["b.root"; "notes.txt"; "a.root"] {| tables := [] |} 0%Z)
    as (s' & added & Hres & Ht & _).
  - reflexivity.
  - probe_evidence.
  - repeat constructor; try (eexists; reflexivity); simpl; lia.
  - exists s', added. split; [exact Hres | exact Ht].
Defined.

Lemma yaml_loop_tally w (files : list string) :
  ∀ st,
    ∃ st' added,
      for_each (yaml_figure_step w) files st = Ok st' ∧
      tables (fst st') = tables (fst st) ++ added ∧
      snd st' = (snd st + Z.of_nat (length added))%Z ∧
      (length added <= length files)%nat ∧
      Forall (fun t => ∃ file, file ∈ files ∧ table_name t = Py.replace ".yaml" "" file)
             added.
Proof.
  induction files as [|file files IH]; intros st; cbn [for_each].
  - exists st, []. rewrite app_nil_r. simpl. repeat split; [lia | lia | constructor].
  - destruct (process_existing_yaml_file_cases w (fst st)
                (os_path_join yaml_dir file) (Py.replace ".yaml" "" file))
      as [Hr | (t & Hr & Hname)].
    + assert (yaml_figure_step w st file = Ok (fst st, snd st)) as ->.
      { unfold yaml_figure_step. by rewrite Hr. }
      cbn [mbind result_bind].
      destruct (IH (fst st, snd st)) as (st' & added & Hloop & Ht & Hn & Hlen & Hnames).
      exists st', added. split; [done|]. split; [done|]. split; [done|].
      split; [simpl; lia|].
      eapply Forall_impl; [exact Hnames|]. intros t (f & Hf & Hname).
      exists f. split; [by right | done].
    + assert (yaml_figure_step w st file
              = Ok (add_table (fst st) t, (snd st + 1)%Z)) as ->.
      { unfold yaml_figure_step. by rewrite Hr. }
      cbn [mbind result_bind].
      destruct (IH (add_table (fst st) t, (snd st + 1)%Z))
        as (st' & added & Hloop & Ht & Hn & Hlen & Hnames).
      exists st', (t :: added). split; [done|]. simpl in Ht, Hn.
      rewrite Ht, Hn, <- app_assoc. simpl.
      repeat split; [lia | lia |].
      constructor; [exists file; split; [left | done]|].
      eapply Forall_impl; [exact Hnames|]. intros t' (f & Hf & Hname').
      exists f. split; [by right | done].
Qed.

(** X19. The loop of [main] over the YAML records never raises once the
    directory is listed, and it keeps the tally in step with the
    Submission: the Tables that were there stay in front and
    [successful_figures] grows by exactly the number of Tables appended,
    at most one per listed file whose name ends in ".yaml", each named
    after such a file with ".yaml" taken out. When the directory of the
    records does not exist, the loop does nothing. *)
Theorem process_yaml_files_tally
    (w : World) (d : Directories) (submission : Submission) (successful_figures : Z) :
  (os_path_exists w yaml_dir = false →
   process_yaml_files w d (submission, successful_figures)
     = Ok (submission, successful_figures)) ∧
  (∀ names,
     os_path_exists w yaml_dir = true →
     os_listdir d yaml_dir = Ok names →
     ∃ submission' added,
       process_yaml_files w d (submission, successful_figures)
         = Ok (submission', (successful_figures + Z.of_nat (length added))%Z) ∧
       tables submission' = tables submission ++ added ∧
       (length added <= length (List.filter (endswith ".yaml") names))%nat ∧
       Forall (fun t => ∃ file, file ∈ names ∧ endswith ".yaml" file = true ∧
                                table_name t = Py.replace ".yaml" "" file)
              added).
Proof.
  unfold process_yaml_files. split.
  - by intros ->.
  - intros names -> ->. cbn [mbind result_bind].
    destruct (yaml_loop_tally w (sort_names (List.filter (endswith ".yaml") names))
                (submission, successful_figures))
      as ([s' n'] & added & Hloop & Ht & Hn & Hlen & Hnames).
    rewrite Hloop. simpl in Ht, Hn. subst n'. exists s', added.
    split; [done|]. split; [done|]. split.
    + unfold sort_names in Hlen. by rewrite merge_sort_Permutation in Hlen.
    + eapply Forall_impl; [exact Hnames|]. intros t (file & Hfile & Hname).
      apply endswith_filter in Hfile as [? ?]. eauto.
Qed.

(** ** The order in which the files are processed *)

Lemma string_compare_as_OT (a b : string) : String.compare a b = String_as_OT.compare a b.
Proof.
  revert b. induction a as [|x a IH]; intros [|y b]; simpl; try reflexivity.
Qed.

Lemma name_le_spec (a b : string) : name_le a b ↔ a = b ∨ String_as_OT.lt a b.
Proof.
  unfold name_le, String.leb. rewrite string_compare_as_OT.
  destruct (String_as_OT.compare_spec a b) as [H | H | H].
  - split; [by left | done].
  - split; [by right | done].
  - split; [done|]. intros [-> | Hlt]; exfalso.
    + by apply (irreflexivity String_as_OT.lt b).
    + apply (irreflexivity String_as_OT.lt a). by etransitivity.
Qed.

#[global] Instance name_le_trans : Transitive name_le.
Proof.
  intros a b c. rewrite !name_le_spec.
  intros [-> | Hab] [-> | Hbc]; auto. right. by etransitivity.
Qed.

#[global] Instance name_le_total : Total name_le.
Proof. intros a b. apply String.leb_total. Qed.

#[global] Instance name_le_antisym : AntiSymm (=) name_le.
Proof. intros a b. apply String.leb_antisym. Qed.

Lemma sort_names_permutation (l l' : list string) :
  l ≡ₚ l' → sort_names l = sort_names l'.
Proof.
  intros Hp. unfold sort_names.
  apply (Sorted_unique name_le).
  - apply Sorted_merge_sort. apply _.
  - apply Sorted_merge_sort. apply _.
  - by rewrite !merge_sort_Permutation.
Qed.

Lemma filter_permutation {A} (f : A → bool) (l l' : list A) :
  l ≡ₚ l' → List.filter f l ≡ₚ List.filter f l'.
Proof.
  induction 1 as [|x l l' _ IH|x y l|l l' l'' _ IH1 _ IH2]; simpl.
  - done.
  - destruct (f x); by rewrite IH.
  - destruct (f x), (f y); try done. apply Permutation_swap.
  - by etransitivity.
Qed.

(** X20. The order in which the directory lists its files does not
    matter: both loops sort the names first, so two listings of the same
    files give the same Submission and the same tally, with the files
    taken in increasing order of their names. *)
Theorem figure_loops_ignore_listing_order
    (w : World) (d d' : Directories) (st : Submission * Z)
    (roots roots' yamls yamls' : list string) :
  os_listdir d data_dir = Ok roots → os_listdir d' data_dir = Ok roots' →
  os_listdir d yaml_dir = Ok yamls → os_listdir d' yaml_dir = Ok yamls' →
  roots ≡ₚ roots' → yamls ≡ₚ yamls' →
  process_root_files w d st = process_root_files w d' st ∧
  process_yaml_files w d st = process_yaml_files w d' st ∧
  Sorted name_le (sort_names (List.filter (endswith ".root") roots)) ∧
  Sorted name_le (sort_names (List.filter (endswith ".yaml") yamls)).
Proof.
  intros Hr Hr' Hy Hy' Hpr Hpy.
  unfold process_root_files, process_yaml_files. rewrite Hr, Hr', Hy, Hy'.
  cbn [mbind result_bind].
  rewrite (sort_names_permutation _ _ (filter_permutation (endswith ".root") _ _ Hpr)).
  rewrite (sort_names_permutation _ _ (filter_permutation (endswith ".yaml") _ _ Hpy)).
  repeat split; apply Sorted_merge_sort; apply _.
Qed.

Lemma figure_loops_ignore_listing_order_witness :
  process_root_files four_object_world
    {| os_listdir := fun _ => Ok ["b.root"; "notes.txt"; "a.root"] |} ({| tables := [] |}, 0%Z)
  = process_root_files four_object_world
      {| os_listdir := fun _ => Ok ["a.root"; "b.root"; "notes.txt"] |} ({| tables := [] |}, 0%Z).
Proof.
  apply (figure_loops_ignore_listing_order four_object_world
           {| os_listdir := fun _ => Ok ["b.root"; "notes.txt"; "a.root"] |}
           {| os_listdir := fun _ => Ok ["a.root"; "b.root"; "notes.txt"] |}
           ({| tables := [] |}, 0%Z)
           ["b.root"; "notes.txt"; "a.root"] ["a.root"; "b.root"; "notes.txt"]
           ["b.root"; "notes.txt"; "a.root"] ["a.root"; "b.root"; "notes.txt"]);
    try reflexivity;
    symmetry; apply (Permutation_cons_append ["b.root"; "notes.txt"] "a.root").
Defined.

(** ** The final write *)

Lemma clear_images_idempotent (ts : list Table) :
  List.map clear_images (List.map clear_images ts) = List.map clear_images ts.
Proof. rewrite List.map_map. reflexivity. Qed.

(** X21. The write at the end of [main] never loses data. Whatever the
    writer does, the Submission that is written has the Tables of the
    Submission that was built, in order and with every attribute
    unchanged except possibly the images; the images are either all
    kept or all removed. A failure whose message names neither
    "ImageMagick" nor "convert" nor "does not exist" is not retried and
    is passed on with its message; a failure that does is retried once,
    without any image, and a second failure is passed on. *)
Theorem write_submission_outcomes
    (create_files : nat → Submission → option string) (submission : Submission) :
  (∀ s, write_submission create_files submission = Written s →
        List.map clear_images (tables s) = List.map clear_images (tables submission) ∧
        (s = submission ∨ Forall (fun t => image_files t = []) (tables s))) ∧
  (∀ message,
     create_files 0%nat submission = Some message →
     image_related message = false →
     write_submission create_files submission = WriteFailed message) ∧
  (∀ message,
     create_files 0%nat submission = Some message →
     image_related message = true →
     write_submission create_files submission
     = match create_files 1%nat (strip_images submission) with
       | None => Written (strip_images submission)
       | Some message2 => WriteFailed message2
       end).
Proof.
  unfold write_submission. split; [|split].
  - intros s H.
    destruct (create_files 0%nat submission) as [m|].
    + destruct (image_related m); [|discriminate].
      destruct (create_files 1%nat (strip_images submission)); [discriminate|].
      injection H as <-. simpl. split; [apply clear_images_idempotent|].
      right. apply Forall_fmap, Forall_forall. by intros t _.
    + injection H as <-. split; [done | by left].
  - intros m -> ->. reflexivity.
  - intros m -> ->. reflexivity.
Qed.

(** ** File names and figure names *)

Lemma prefix_reflexive (s : string) : String.prefix s s = true.
Proof.
  induction s as [|c s IH]; [done|]. simpl. by destruct (ascii_dec c c).
Qed.

Lemma replace_from_skip_all (old new s : string) :
  ∀ k, (String.length s <= k)%nat → Py.replace_from old new k s = "".
Proof.
  induction s as [|c s IH]; intros k Hk; [done|].
  simpl in Hk. destruct k as [|k]; [lia|]. simpl. apply IH. lia.
Qed.

Lemma contains_cons_false (sub : string) (c : ascii) (s : string) :
  Py.contains sub (String c s) = false →
  String.prefix sub (String c s) = false ∧ Py.contains sub s = false.
Proof. cbn [Py.contains]. by intros ?%orb_false_iff. Qed.

Lemma replace_appended_marker (x : ascii) (rest base : string) :
  (∀ s, (1 <= String.length s <= String.length rest)%nat →
        String.prefix (String x rest) (s +:+ String x rest) = false) →
  Py.contains (String x rest) base = false →
  Py.replace (String x rest) "" (base +:+ String x rest) = base.
Proof.
  intros Hover. unfold Py.replace.
  induction base as [|c base IH]; intros Hc.
  - change ("" +:+ String x rest) with (String x rest).
    cbn [Py.replace_from]. rewrite prefix_reflexive.
    cbn [String.length]. rewrite Nat.sub_succ, Nat.sub_0_r.
    by rewrite replace_from_skip_all.
  - apply contains_cons_false in Hc as [Hp Hrest].
    change (String c base +:+ String x rest) with (String c (base +:+ String x rest)).
    cbn [Py.replace_from].
    change (String c (base +:+ String x rest)) with (String c base +:+ String x rest).
    assert (String.prefix (String x rest) (String c base +:+ String x rest) = false) as ->.
    { destruct (le_lt_dec (String.length (String x rest)) (String.length (String c base)))
        as [Hl | Hl].
      - by rewrite prefix_append_long.
      - apply Hover. simpl in *. lia. }
    f_equal. by apply IH.
Qed.

Ltac marker_no_overlap :=
  let s := fresh "s" in
  let Hlen := fresh "Hlen" in
  intros s Hlen;
  destruct s as [|? [|? [|? [|? [|? s]]]]]; simpl in Hlen; try lia;
  cbv -[ascii_dec];
  repeat match goal with
         | |- context [ascii_dec ?a ?b] => destruct (ascii_dec a b); try done
         end.

Lemma endswith_appended (suffix base : string) : endswith suffix (base +:+ suffix) = true.
Proof.
  induction base as [|c base IH].
  - change ("" +:+ suffix) with suffix. destruct suffix; simpl.
    + reflexivity.
    + by rewrite Ascii.eqb_refl, String.eqb_refl.
  - change (String c base +:+ suffix) with (String c (base +:+ suffix)).
    cbn [endswith]. rewrite IH. apply orb_true_r.
Qed.

(** X22. The figure name of a file is its name without the extension:
    for a name [base.root] (or [base.yaml]) in which the extension does
    not occur a second time, the loops recognise the file by its ending
    and call the figure [base]. *)
Theorem figure_name_of_file (base : string) :
  endswith ".root" (base +:+ ".root") = true ∧
  endswith ".yaml" (base +:+ ".yaml") = true ∧
  (Py.contains ".root" base = false → Py.replace ".root" "" (base +:+ ".root") = base) ∧
  (Py.contains ".yaml" base = false → Py.replace ".yaml" "" (base +:+ ".yaml") = base).
Proof.
  split; [apply endswith_appended|]. split; [apply endswith_appended|].
  split; apply replace_appended_marker; marker_no_overlap.
Qed.
